(** * Spade Edge: the ingest handler and its loggers, embedded in Rocq

    A shallow embedding of [requests/request_handler.go] and
    [loggers/s3.go].  Go strings and byte slices are lists of [ascii]
    bytes, [error] values are their messages, [nil] is [None].  A
    function that can panic returns in [go]; a method that updates the
    handler, the loggers or the request context is a function of the
    state [World] in the monad [M].

    What lies outside the repository (the [net], [strings], [encoding]
    packages of the Go library, [scoop_protocol/spade], [gologging]) is
    either a [Variable] of the section, or modelled from its documented
    behaviour where a property needs it to compute.  Metrics
    ([StatLogger.Inc]), timers and log lines are not observed by any
    property below and are left out. *)

From Stdlib Require Import ZArith NArith List Ascii String Bool Lia.
From Stdlib Require Import HexString.
Import ListNotations.

#[local] Open Scope Z_scope.
#[local] Open Scope list_scope.

(* ================================================================= *)
(** ** Go values *)

Definition bytes := list ascii.

(** A string literal as bytes. *)
Definition B (s : string) : bytes := list_ascii_of_string s.

(** [len(s)] *)
Definition len (s : bytes) : Z := Z.of_nat (List.length s).

(** [bytes.Equal], also [==] on strings. *)
Fixpoint bytes_Equal (a b : bytes) : bool :=
  match a, b with
  | [], [] => true
  | x :: a', y :: b' => Ascii.eqb x y && bytes_Equal a' b'
  | _, _ => false
  end.

(** Equality of two lists of byte strings. *)
Fixpoint elements_Equal (a b : list bytes) : bool :=
  match a, b with
  | [], [] => true
  | x :: a', y :: b' => bytes_Equal x y && elements_Equal a' b'
  | _, _ => false
  end.

(** [strings.HasPrefix] *)
Fixpoint HasPrefix (s prefix : bytes) {struct prefix} : bool :=
  match prefix, s with
  | [], _ => true
  | p :: prefix', x :: s' => Ascii.eqb x p && HasPrefix s' prefix'
  | _ :: _, [] => false
  end.

(** [strings.HasSuffix] *)
Definition HasSuffix (s suffix : bytes) : bool :=
  HasPrefix (rev s) (rev suffix).

(** The outcome of running Go code: a value, or a run-time panic. *)
Inductive go (A : Type) : Type :=
| Ret (a : A)
| Panic (msg : string).
Arguments Ret {A} a.
Arguments Panic {A} msg.

(** A byte slice [b []byte].  [arr] is the backing array from the
    slice's first element up to its capacity, [slen] is [len(b)].  The
    Go specification bounds a slice expression [b[:hi]] on a slice by
    the capacity [cap(b)], not by the length, and [b[lo:]] by
    [lo <= len(b)]; outside these bounds the expression panics. *)
Record slice : Type := mkSlice { arr : bytes; slen : nat }.

Definition cap (b : slice) : nat := List.length (arr b).

(** [string(b)]: the [len(b)] bytes of the slice. *)
Definition slice_bytes (b : slice) : bytes := firstn (slen b) (arr b).

(** [b[:hi]] *)
Definition slice_to (b : slice) (hi : nat) : go slice :=
  if (hi <=? cap b)%nat then Ret (mkSlice (arr b) hi)
  else Panic "slice bounds out of range".

(** [b[lo:]] *)
Definition slice_from (b : slice) (lo : nat) : go slice :=
  if (lo <=? slen b)%nat then Ret (mkSlice (skipn lo (arr b)) (slen b - lo))
  else Panic "slice bounds out of range".

(** [bytes.MinRead]: the least capacity [ioutil.ReadAll] allocates
    for the buffer it returns. *)
Definition bytes_MinRead : nat := 512.

(** What [ioutil.ReadAll] guarantees of the slice it returns: the
    length is within the capacity, the capacity is at least
    [bytes.MinRead], and the spare capacity past the length is the
    zero bytes of the fresh buffer. *)
Definition ReadAll_slice (b : slice) : Prop :=
  (slen b <= cap b)%nat /\ (bytes_MinRead <= cap b)%nat /\
  Forall (fun c => c = zero) (skipn (slen b) (arr b)).

(** The slice [ioutil.ReadAll] returns for a body of the given
    bytes. *)
Definition ReadAll_of (body : bytes) : slice :=
  mkSlice (body ++ repeat zero bytes_MinRead) (List.length body).

(* ================================================================= *)
(** ** [fmt]: the [%08x] verb *)

(** Lower-case hexadecimal digits of a number, no prefix. *)
Definition hex (n : N) : bytes :=
  match n with
  | N0 => B "0"
  | Npos p => B (HexString.Raw.of_pos p "")
  end.

(** Zero padding on the left up to [width] bytes. *)
Definition pad0 (width : nat) (s : bytes) : bytes :=
  repeat "0"%char (width - List.length s) ++ s.

(** [%08x] of a [uint64]. *)
Definition fmt_08x_uint (n : N) : bytes := pad0 8 (hex n).

(** [%08x] of an [int64]: the sign counts in the width. *)
Definition fmt_08x_int (z : Z) : bytes :=
  match z with
  | Zneg p => "-"%char :: pad0 7 (hex (Npos p))
  | _ => pad0 8 (hex (Z.to_N z))
  end.

(** A hexadecimal digit. *)
Definition isHexDigit (c : ascii) : bool :=
  match HexString.ascii_to_digit c with Some _ => true | None => false end.

(** Reading hexadecimal digits back. *)
Definition unhex (s : bytes) : N :=
  HexString.Raw.to_N (string_of_list_ascii s) 0%N.

(* ================================================================= *)
(** ** [encoding/base64]: the standard alphabet with padding *)

Module Base64.

(** Six bits, most significant first. *)
Definition sextet : Type := (bool * bool * bool * bool * bool * bool)%type.

Definition sextet_index (s : sextet) : nat :=
  let '(b5, b4, b3, b2, b1, b0) := s in
  ((if b5 then 32 else 0) + (if b4 then 16 else 0) + (if b3 then 8 else 0) +
   (if b2 then 4 else 0) + (if b1 then 2 else 0) + (if b0 then 1 else 0))%nat.

Definition encodeStd : bytes :=
  B "ABCDEFGHIJKLMNOPQRSTUVWXYZabcdefghijklmnopqrstuvwxyz0123456789+/".

Definition StdPadding : ascii := "="%char.

Definition enc6 (s : sextet) : ascii := nth (sextet_index s) encodeStd StdPadding.

Definition index_sextet (n : nat) : sextet :=
  (Nat.testbit n 5, Nat.testbit n 4, Nat.testbit n 3,
   Nat.testbit n 2, Nat.testbit n 1, Nat.testbit n 0).

Fixpoint index_of (c : ascii) (table : bytes) (i : nat) : option nat :=
  match table with
  | [] => None
  | x :: table' => if Ascii.eqb c x then Some i else index_of c table' (S i)
  end.

(** The decode map of the alphabet. *)
Definition dec6 (c : ascii) : option sextet :=
  option_map index_sextet (index_of c encodeStd 0%nat).

(** [StdEncoding.EncodeToString]: every three bytes give four
    characters; a last group of one or two bytes is completed with
    zero bits and padded with [=]. *)
Fixpoint EncodeToString (src : bytes) : bytes :=
  match src with
  | [] => []
  | [Ascii x0 x1 x2 x3 x4 x5 x6 x7] =>
      [enc6 (x7, x6, x5, x4, x3, x2); enc6 (x1, x0, false, false, false, false);
       StdPadding; StdPadding]
  | [Ascii x0 x1 x2 x3 x4 x5 x6 x7; Ascii y0 y1 y2 y3 y4 y5 y6 y7] =>
      [enc6 (x7, x6, x5, x4, x3, x2); enc6 (x1, x0, y7, y6, y5, y4);
       enc6 (y3, y2, y1, y0, false, false); StdPadding]
  | Ascii x0 x1 x2 x3 x4 x5 x6 x7 :: Ascii y0 y1 y2 y3 y4 y5 y6 y7
      :: Ascii z0 z1 z2 z3 z4 z5 z6 z7 :: rest =>
      enc6 (x7, x6, x5, x4, x3, x2) :: enc6 (x1, x0, y7, y6, y5, y4)
        :: enc6 (y3, y2, y1, y0, z7, z6) :: enc6 (z5, z4, z3, z2, z1, z0)
        :: EncodeToString rest
  end.

(** The bytes of a group of four characters. *)
Definition byte1 (a b : sextet) : ascii :=
  let '(a5, a4, a3, a2, a1, a0) := a in
  let '(b5, b4, _, _, _, _) := b in
  Ascii b4 b5 a0 a1 a2 a3 a4 a5.

Definition byte2 (b c : sextet) : ascii :=
  let '(_, _, b3, b2, b1, b0) := b in
  let '(c5, c4, c3, c2, _, _) := c in
  Ascii c2 c3 c4 c5 b0 b1 b2 b3.

Definition byte3 (c d : sextet) : ascii :=
  let '(_, _, _, _, c1, c0) := c in
  let '(d5, d4, d3, d2, d1, d0) := d in
  Ascii d0 d1 d2 d3 d4 d5 c0 c1.

(** Decoding with the standard alphabet: groups of four characters,
    padding accepted in the last group only. *)
Fixpoint DecodeString (s : bytes) : option bytes :=
  match s with
  | [] => Some []
  | a :: b :: c :: d :: rest =>
      match dec6 a, dec6 b with
      | Some sa, Some sb =>
          match rest with
          | [] =>
              if Ascii.eqb d StdPadding then
                if Ascii.eqb c StdPadding then Some [byte1 sa sb]
                else
                  match dec6 c with
                  | Some sc => Some [byte1 sa sb; byte2 sb sc]
                  | None => None
                  end
              else
                match dec6 c, dec6 d with
                | Some sc, Some sd => Some [byte1 sa sb; byte2 sb sc; byte3 sc sd]
                | _, _ => None
                end
          | _ :: _ =>
              match dec6 c, dec6 d, DecodeString rest with
              | Some sc, Some sd, Some out =>
                  Some (byte1 sa sb :: byte2 sb sc :: byte3 sc sd :: out)
              | _, _, _ => None
              end
          end
      | _, _ => None
      end
  | _ => None
  end.

End Base64.

(* ================================================================= *)
(** ** [scoop_protocol/spade]: the event *)

(** [error]: the message of the error. *)
Definition error : Type := bytes.

(** [net.IP]: the bytes of the address, empty for [nil]. *)
Definition IP : Type := bytes.

(** [time.Time], as far as the handler reads it. *)
Record Time : Type := mkTime { Unix : Z; Nanosecond : Z }.

(** [spade.Event]; [NewEvent] is [spade.NewEvent], which fills the
    fields in this order. *)
Record Event : Type := NewEvent {
  ReceivedAt : Time;
  ClientIp : IP;
  XForwardedFor : bytes;
  Uuid : bytes;
  Data : bytes;
  UserAgent : bytes;
  EdgeType : bytes
}.

(* ================================================================= *)
(** ** [loggers]: the logger interface and the S3 logger *)

(** [loggers.SpadeEdgeLogger]: [Log(e) error] and [Close()], over the
    state of the logger. *)
Class SpadeEdgeLogger (L : Type) : Type := {
  Log : L -> Event -> L * option error;
  Close : L -> go L
}.

(** A logger accepts an event when its [Log] returns no error on it. *)
Definition accepts {L : Type} `{SpadeEdgeLogger L} (l : L) (event : Event) : Prop :=
  snd (Log l event) = None.

(** What a logger is after its [Log] was called with the events, one
    after the other. *)
Definition offerAll {L : Type} `{SpadeEdgeLogger L} (l : L) (events : list Event) : L :=
  fold_left (fun l event => fst (Log l event)) events l.

Section S3Logger.

(** [gologging.UploadLogger]: the rotating upload pipeline.  Its
    [Log(string)] and [Close()] return nothing; whatever happens to a
    line (a failed write, a failed upload) stays in its state. *)
Variable UploadLogger : Type.
Variable UploadLogger_Log : UploadLogger -> bytes -> UploadLogger.
Variable UploadLogger_Close : UploadLogger -> UploadLogger.

(** [EventToStringFunc]: from an event to its line, or an error. *)
Definition EventToStringFunc : Type := Event -> bytes * option error.

Record s3Logger : Type := mkS3Logger {
  uploadLogger : UploadLogger;
  eventToStringFunc : EventToStringFunc
}.

(** [func (s3l *s3Logger) Log(e *spade.Event) error] *)
Definition s3Logger_Log (s3l : s3Logger) (e : Event) : s3Logger * option error :=
  let '(s, err) := eventToStringFunc s3l e in
  match err with
  | Some _ => (s3l, err)
  | None =>
      (mkS3Logger (UploadLogger_Log (uploadLogger s3l) s) (eventToStringFunc s3l), None)
  end.

(** [func (s3l *s3Logger) Close()] *)
Definition s3Logger_Close (s3l : s3Logger) : go s3Logger :=
  Ret (mkS3Logger (UploadLogger_Close (uploadLogger s3l)) (eventToStringFunc s3l)).

#[local] Instance s3Logger_SpadeEdgeLogger : SpadeEdgeLogger s3Logger := {
  Log := s3Logger_Log;
  Close := s3Logger_Close
}.

End S3Logger.

Arguments mkS3Logger {UploadLogger} _ _.
Arguments uploadLogger {UploadLogger} _.
Arguments eventToStringFunc {UploadLogger} _.

(** An upload pipeline that remembers the lines it was given and
    whether its uploads fail: a stand-in for [gologging] in examples. *)
Record memUploader : Type := mkMemUploader {
  uploadBroken : bool;
  uploadLines : list bytes
}.

Definition memUploader_Log (u : memUploader) (line : bytes) : memUploader :=
  mkMemUploader (uploadBroken u) (uploadLines u ++ [line]).

(** A logger that keeps its events in memory and accepts or refuses
    all of them: a stand-in for a sink in examples. *)
Record memLogger : Type := mkMemLogger {
  accepting : bool;
  stored : list Event;
  stopped : bool
}.

#[export] Instance memLogger_SpadeEdgeLogger : SpadeEdgeLogger memLogger := {
  Log l e :=
    if accepting l then (mkMemLogger true (stored l ++ [e]) (stopped l), None)
    else (l, Some (B "refused"));
  Close l := Ret (mkMemLogger (accepting l) (stored l) true)
}.

(** A logger that keeps, besides the state of the logger it wraps, the
    events its [Log] was called with. *)
Record Recorder (L : Type) : Type := mkRecorder {
  inner : L;
  seen : list Event
}.
Arguments mkRecorder {L} _ _.
Arguments inner {L} _.
Arguments seen {L} _.

#[export] Instance Recorder_SpadeEdgeLogger (L : Type) `{SpadeEdgeLogger L} :
  SpadeEdgeLogger (Recorder L) := {
  Log r e :=
    let '(l, err) := Log (inner r) e in (mkRecorder l (seen r ++ [e]), err);
  Close r :=
    match Close (inner r) with
    | Ret l => Ret (mkRecorder l (seen r))
    | Panic msg => Panic msg
    end
}.

(** A logger with room for some events, which refuses the events
    that come once it is full: a stand-in for a sink in examples. *)
Record quotaLogger : Type := mkQuotaLogger {
  room : nat;
  taken : list Event
}.

#[export] Instance quotaLogger_SpadeEdgeLogger : SpadeEdgeLogger quotaLogger := {
  Log l e :=
    match room l with
    | O => (l, Some (B "queue full"))
    | S n => (mkQuotaLogger n (taken l ++ [e]), None)
    end;
  Close l := Ret l
}.

(* ================================================================= *)
(** ** [requests]: constants *)

Definition xarth : bytes := B "XARTH".
Definition dataFlag : bytes := B "data=".

(** from https://commons.wikimedia.org/wiki/File:Transparent.gif *)
Definition transparentPixel : bytes :=
  map (fun n => ascii_of_nat n)
    [71; 73; 70; 56; 57; 97; 1; 0; 1; 0;
     128; 0; 0; 0; 0; 0; 255; 255; 255;
     33; 249; 4; 1; 0; 0; 0; 0; 44; 0;
     0; 0; 0; 1; 0; 1; 0; 0; 2; 1; 68; 0; 59]%nat.

Definition ipForwardHeader : bytes := B "X-Forwarded-For".
Definition badEndpoint : bytes := B "FourOhFour".
Definition maxBytesPerRequest : Z := 500 * 1024.
Definition largeBodyErrorString : bytes := B "http: request body too large".
Definition maxUserAgentBytes : Z := 1024.

Definition StatusOK : Z := 200.
Definition StatusNoContent : Z := 204.
Definition StatusBadRequest : Z := 400.
Definition StatusNotFound : Z := 404.
Definition StatusRequestEntityTooLarge : Z := 413.
Definition StatusInternalServerError : Z := 500.
Definition StatusBadGateway : Z := 502.

(** A status of the 2xx class. *)
Definition is2xx (status : Z) : bool := (200 <=? status) && (status <? 300).

(* ================================================================= *)
(** ** [net/http]: the request and the response writer *)

(** [url.Values]: the keys with their values. *)
Definition Values : Type := list (bytes * list bytes).

(** [Values.Get]: the first value of the key, [""] without one. *)
Fixpoint Values_Get (v : Values) (key : bytes) : bytes :=
  match v with
  | [] => []
  | (k, vs) :: v' =>
      if bytes_Equal k key then match vs with [] => [] | x :: _ => x end
      else Values_Get v' key
  end.

(** [http.Request], as far as the handler reads it.  [ParseForm] is
    the error of [r.ParseForm()], [Form] is [r.Form] after it, and
    [Body] is what [ioutil.ReadAll(r.Body)] returns. *)
Record Request : Type := mkRequest {
  Method : bytes;
  URLPath : bytes;
  URLQuery : Values;
  HeaderGet : bytes -> bytes;
  ParseForm : option error;
  Form : Values;
  Body : slice * option error
}.

(** [http.Header] of a response. *)
Definition Header : Type := list (bytes * bytes).

Definition Header_Del (h : Header) (key : bytes) : Header :=
  filter (fun kv => negb (bytes_Equal (fst kv) key)) h.

Definition Header_Set (h : Header) (key value : bytes) : Header :=
  Header_Del h key ++ [(key, value)].

Definition Header_Add (h : Header) (key value : bytes) : Header :=
  h ++ [(key, value)].

Fixpoint Header_Get (h : Header) (key : bytes) : bytes :=
  match h with
  | [] => []
  | (k, v) :: h' => if bytes_Equal k key then v else Header_Get h' key
  end.

(** [http.ResponseWriter]: the headers, the status line once it is
    written, the body written so far, and whether the connection
    refuses writes. *)
Record ResponseWriter : Type := mkResponseWriter {
  wHeader : Header;
  wStatus : option Z;
  wBody : bytes;
  wBroken : bool
}.

(** [w.WriteHeader(status)]: the first call writes the status line. *)
Definition WriteHeader (w : ResponseWriter) (status : Z) : ResponseWriter :=
  match wStatus w with
  | Some _ => w
  | None => mkResponseWriter (wHeader w) (Some status) (wBody w) (wBroken w)
  end.

(** [w.Write(data)]: writes the status line 200 when none is written
    yet, then the data. *)
Definition Write (w : ResponseWriter) (data : bytes) : ResponseWriter * option error :=
  let w1 := WriteHeader w StatusOK in
  if wBroken w1 then (w1, Some (B "write: broken pipe"))
  else (mkResponseWriter (wHeader w1) (wStatus w1) (wBody w1 ++ data) false, None).

Definition setHeader (w : ResponseWriter) (h : Header) : ResponseWriter :=
  mkResponseWriter h (wStatus w) (wBody w) (wBroken w).

(* ================================================================= *)
(** ** [requests]: the state of the handler *)

(** Modelled from the spec: [RequestContext] and its method
    [RecordLoggerAttempt] are declared in a file of the package that is
    not among the sources; the spec gives the context the fields
    [now], [method], [endpoint], [ip_header], [bad_client], [status] and
    the per-sink attempt outcomes, kept here in call order. *)
Record RequestContext : Type := mkRequestContext {
  Now : Time;
  ctxMethod : bytes;
  Endpoint : bytes;
  IPHeader : bytes;
  BadClient : bool;
  Status : Z;
  Attempts : list (bytes * option error)
}.

Definition RecordLoggerAttempt (c : RequestContext) (err : option error) (name : bytes)
  : RequestContext :=
  mkRequestContext (Now c) (ctxMethod c) (Endpoint c) (IPHeader c) (BadClient c)
    (Status c) (Attempts c ++ [(name, err)]).

Definition set_BadClient (v : bool) (c : RequestContext) : RequestContext :=
  mkRequestContext (Now c) (ctxMethod c) (Endpoint c) (IPHeader c) v
    (Status c) (Attempts c).

Definition set_Endpoint (v : bytes) (c : RequestContext) : RequestContext :=
  mkRequestContext (Now c) (ctxMethod c) v (IPHeader c) (BadClient c)
    (Status c) (Attempts c).

(** [EdgeLoggers].  The channel [closed] carries no value and is only
    ever closed: its state is whether it is closed.  The embedded
    [sync.WaitGroup] counts the [log] calls in flight; a call adds one
    and takes it back before it returns, so that between calls the
    count is zero and [Wait] returns at once. *)
Record EdgeLoggers (LS LK : Type) : Type := mkEdgeLoggers {
  closed : bool;
  S3EventLogger : LS;
  KinesisEventLogger : LK
}.
Arguments mkEdgeLoggers {LS LK} _ _ _.
Arguments closed {LS LK} _.
Arguments S3EventLogger {LS LK} _.
Arguments KinesisEventLogger {LS LK} _.

(** [NewEdgeLoggers]; the two loggers it starts from
    ([loggers.UndefinedLogger]) are passed in. *)
Definition NewEdgeLoggers {LS LK : Type} (s3 : LS) (kinesis : LK) : EdgeLoggers LS LK :=
  mkEdgeLoggers false s3 kinesis.

(** [SpadeHandler] *)
Record SpadeHandler (LS LK : Type) : Type := mkSpadeHandler {
  loggers : EdgeLoggers LS LK;
  handlerEdgeType : bytes;
  crossDomainPolicy : bytes;
  instanceID : bytes;
  eventCount : N;
  handleLargeEvents : bool
}.
Arguments mkSpadeHandler {LS LK} _ _ _ _ _ _.
Arguments loggers {LS LK} _.
Arguments handlerEdgeType {LS LK} _.
Arguments crossDomainPolicy {LS LK} _.
Arguments instanceID {LS LK} _.
Arguments eventCount {LS LK} _.
Arguments handleLargeEvents {LS LK} _.

(** [NewSpadeHandler]: the event count starts at zero. *)
Definition NewSpadeHandler {LS LK : Type} (edgeLoggers : EdgeLoggers LS LK)
    (instance crossDomain edgeType : bytes) (largeEvents : bool) : SpadeHandler LS LK :=
  mkSpadeHandler edgeLoggers edgeType crossDomain instance 0%N largeEvents.

Definition set_loggers {LS LK : Type} (e : EdgeLoggers LS LK) (s : SpadeHandler LS LK)
  : SpadeHandler LS LK :=
  mkSpadeHandler e (handlerEdgeType s) (crossDomainPolicy s) (instanceID s)
    (eventCount s) (handleLargeEvents s).

Definition set_eventCount {LS LK : Type} (n : N) (s : SpadeHandler LS LK)
  : SpadeHandler LS LK :=
  mkSpadeHandler (loggers s) (handlerEdgeType s) (crossDomainPolicy s) (instanceID s)
    n (handleLargeEvents s).

(** What a request can change: the handler (its event count and its
    loggers) and the context of the request. *)
Record World (LS LK : Type) : Type := mkWorld {
  handler : SpadeHandler LS LK;
  context : RequestContext
}.
Arguments mkWorld {LS LK} _ _.
Arguments handler {LS LK} _.
Arguments context {LS LK} _.

(** The events that the recording loggers of a handler were given. *)
Definition seenS3 {LS LK : Type} (w : World (Recorder LS) (Recorder LK)) : list Event :=
  seen (S3EventLogger (loggers (handler w))).

Definition seenKinesis {LS LK : Type} (w : World (Recorder LS) (Recorder LK)) : list Event :=
  seen (KinesisEventLogger (loggers (handler w))).

(** Go code over a state [W]: a result and the new state, or a panic. *)
Definition M (W A : Type) : Type := W -> go (A * W).

Definition ret {W A : Type} (a : A) : M W A := fun w => Ret (a, w).

Definition bind {W A C : Type} (m : M W A) (k : A -> M W C) : M W C :=
  fun w =>
    match m w with
    | Ret (a, w') => k a w'
    | Panic msg => Panic msg
    end.

Definition lift {W A : Type} (g : go A) : M W A :=
  fun w =>
    match g with
    | Ret a => Ret (a, w)
    | Panic msg => Panic msg
    end.

Definition get {W : Type} : M W W := fun w => Ret (w, w).
Definition put {W : Type} (w : W) : M W unit := fun _ => Ret (tt, w).

Notation "x <- m ;; k" := (bind m (fun x => k))
  (at level 61, m at next level, right associativity).
Notation "' pat <- m ;; k" := (bind m (fun x => match x with pat => k end))
  (at level 61, pat pattern, m at next level, right associativity).

(** [fmt.Sprintf] with [%s-%08x-%08x]: the uuid of an event. *)
Definition uuidOf (instance : bytes) (now : Time) (count : N) : bytes :=
  instance ++ B "-" ++ fmt_08x_int (Unix now) ++ B "-" ++ fmt_08x_uint count.

(** [uint64] arithmetic wraps around. *)
Definition uint64_max : N := 18446744073709551615%N.
Definition uint64_add (a b : N) : N := ((a + b) mod (uint64_max + 1))%N.

(* ================================================================= *)
(** ** Stand-ins for the Go library, for examples *)

Definition isAsciiSpace (c : ascii) : bool :=
  match nat_of_ascii c with
  | 9%nat | 10%nat | 11%nat | 12%nat | 13%nat | 32%nat => true
  | _ => false
  end.

Fixpoint trimLeft (s : bytes) : bytes :=
  match s with
  | c :: s' => if isAsciiSpace c then trimLeft s' else s
  | [] => []
  end.

(** [strings.TrimSpace] on ASCII text. *)
Definition asciiTrimSpace (s : bytes) : bytes := rev (trimLeft (rev (trimLeft s))).

(** An address kept as the text it was given in. *)
Definition textIP (s : bytes) : IP := s.

(** Decoding in place with the standard alphabet: the decoded bytes
    overwrite the head of the buffer. *)
Definition stdDecodeInPlace (data : bytes) : option (Z * bytes) :=
  match Base64.DecodeString data with
  | Some d => Some (len d, d ++ skipn (List.length d) data)
  | None => None
  end.

(** The elements of a JSON array, cut at the commas that lie outside
    strings and nested values.  [cur] is the element being read and
    [acc] the elements read, both reversed. *)
Fixpoint cutElements (s : bytes) (depth : nat) (inString escaped : bool)
    (cur : bytes) (acc : list bytes) : list bytes :=
  match s with
  | [] => rev_append (rev_append cur [] :: acc) []
  | c :: s' =>
      if inString then
        if escaped then cutElements s' depth true false (c :: cur) acc
        else if Ascii.eqb c "\"%char then cutElements s' depth true true (c :: cur) acc
        else if Ascii.eqb c "034"%char then cutElements s' depth false false (c :: cur) acc
        else cutElements s' depth true false (c :: cur) acc
      else if Ascii.eqb c "034"%char then cutElements s' depth true false (c :: cur) acc
      else if Ascii.eqb c "{"%char || Ascii.eqb c "["%char
      then cutElements s' (S depth) false false (c :: cur) acc
      else if Ascii.eqb c "}"%char || Ascii.eqb c "]"%char
      then cutElements s' (pred depth) false false (c :: cur) acc
      else if Ascii.eqb c ","%char && Nat.eqb depth 0
      then cutElements s' depth false false [] (rev_append cur [] :: acc)
      else cutElements s' depth false false (c :: cur) acc
  end.

(** [json.Unmarshal] into a [[]json.RawMessage], on a well-formed
    array without white space between its elements. *)
Definition rawElements (raw : bytes) : option (list bytes) :=
  match raw with
  | "["%char :: body =>
      match rev_append body [] with
      | "]"%char :: inside =>
          match inside with
          | [] => Some []
          | _ => Some (cutElements (rev_append inside []) 0 false false [] [])
          end
      | _ => None
      end
  | _ => None
  end.

(** The JSON object with one member, [{"key":value}]. *)
Definition jsonObject (key : string) (value : bytes) : bytes :=
  B "{" ++ ["034"%char] ++ B key ++ ["034"%char] ++ B ":" ++ value ++ B "}".

(** A JSON string of [n] letters [x]. *)
Definition jsonFiller (n : nat) : bytes :=
  ["034"%char] ++ repeat "x"%char n ++ ["034"%char].

(* ================================================================= *)
(** ** Sample requests, for examples *)

Definition acceptingLogger : memLogger := mkMemLogger true [] false.
Definition refusingLogger : memLogger := mkMemLogger false [] false.

Definition sampleContext : RequestContext :=
  mkRequestContext (mkTime 1500000000 0) (B "GET") (B "/track") ipForwardHeader false 0 [].

Definition sampleHeaders (name : bytes) : bytes :=
  if bytes_Equal name ipForwardHeader then B "203.0.113.9, 198.51.100.7" else [].

Definition sampleHandler {LS LK : Type} (s3 : LS) (kinesis : LK) (largeEvents : bool)
  : SpadeHandler LS LK :=
  NewSpadeHandler (NewEdgeLoggers s3 kinesis) (B "edge-host-cluster") [] (B "internal")
    largeEvents.

Definition sampleWorld {LS LK : Type} (s3 : LS) (kinesis : LK) (largeEvents : bool)
  : World LS LK :=
  mkWorld (sampleHandler s3 kinesis largeEvents) sampleContext.

(** [GET /track?...]: the form holds the parameters of the query. *)
Definition sampleGET (query : Values) : Request :=
  mkRequest (B "GET") (B "/track") query sampleHeaders None query (ReadAll_of [], None).

(** [POST /track] with a body that is no form. *)
Definition samplePOST (body : bytes) : Request :=
  mkRequest (B "POST") (B "/track") [] sampleHeaders None [] (ReadAll_of body, None).

(** A response writer that has written nothing yet. *)
Definition freshWriter : ResponseWriter := mkResponseWriter [] None [] false.

(** The parameters of [?data=...] and of [?data=...&img=1]. *)
Definition dataQuery (data : bytes) : Values := [(B "data", [data])].
Definition pixelQuery (data : bytes) : Values := [(B "data", [data]); (B "img", [B "1"])].

(** The base64 of [{"x":1}]. *)
Definition sampleData : bytes := B "eyJ4IjoxfQ==".

(** An array of two objects whose base64 is over 500 KiB. *)
Definition largeElements : list bytes :=
  [jsonObject "a" (jsonFiller (N.to_nat 200000)); jsonObject "b" (jsonFiller (N.to_nat 200000))].

Definition largeArray : bytes :=
  B "[" ++ jsonObject "a" (jsonFiller (N.to_nat 200000)) ++ B ","
    ++ jsonObject "b" (jsonFiller (N.to_nat 200000)) ++ B "]".

Definition largeData : bytes := Base64.EncodeToString largeArray.

(** [POST /track] with a form [data=...], which [ParseForm] has read. *)
Definition sampleFormPOST (data : bytes) : Request :=
  mkRequest (B "POST") (B "/track") [] sampleHeaders None (dataQuery data)
    (ReadAll_of [], None).

(** A request without parameters, by its method and its path. *)
Definition sampleRequest (method path : bytes) : Request :=
  mkRequest method path [] sampleHeaders None [] (ReadAll_of [], None).

(** A payload over 500 KiB that is no base64. *)
Definition largeJunk : bytes := repeat "!"%char (N.to_nat 512001).

(** The sample handler after [Close]. *)
Definition closedWorld : World memLogger memLogger :=
  mkWorld
    (set_loggers (mkEdgeLoggers true (mkMemLogger true [] true) (mkMemLogger true [] true))
       (sampleHandler acceptingLogger acceptingLogger false))
    sampleContext.

(** The sample handler with two sinks that have room for one event
    each, large events handled. *)
Definition quotaWorld : World quotaLogger quotaLogger :=
  sampleWorld (mkQuotaLogger 1 []) (mkQuotaLogger 1 []) true.

(** A glob without wildcards: it matches its own text. *)
Definition literalGlob (pattern : bytes) : bytes -> bool :=
  fun origin => bytes_Equal origin pattern.

(** [GET /track] sent from a page of [https://www.twitch.tv]. *)
Definition corsGET : Request :=
  mkRequest (B "GET") (B "/track") []
    (fun name => if bytes_Equal name (B "Origin") then B "https://www.twitch.tv" else [])
    None [] (ReadAll_of [], None).

(* ================================================================= *)
(** ** [requests]: the handler *)

(** [strings.LastIndex(s, sep)] for a separator of one byte: the index
    of its last occurrence, [-1] without one. *)
Fixpoint lastIndexFrom (s : bytes) (sep : ascii) (i found : Z) : Z :=
  match s with
  | [] => found
  | c :: s' => lastIndexFrom s' sep (i + 1) (if Ascii.eqb c sep then i else found)
  end.

Definition LastIndex (s : bytes) (sep : ascii) : Z := lastIndexFrom s sep 0 (-1).

(** [strings.Split(s, sep)] for a separator of one byte. *)
Fixpoint Split (s : bytes) (sep : ascii) : list bytes :=
  match s with
  | [] => [[]]
  | c :: s' =>
      if Ascii.eqb c sep then [] :: Split s' sep
      else
        match Split s' sep with
        | tok :: toks => (c :: tok) :: toks
        | [] => [[c]]
        end
  end.

(** The last comma-separated token of a header, in the words of the
    spec. *)
Definition lastToken (header : bytes) : bytes := last (Split header ","%char) [].

(** [strings.Join] *)
Fixpoint Join (elems : list bytes) (sep : bytes) : bytes :=
  match elems with
  | [] => []
  | [e] => e
  | e :: rest => e ++ sep ++ Join rest sep
  end.

(** [strings.Replace(s, old, new, -1)] for [old] and [new] of one
    byte: every occurrence is replaced. *)
Definition Replace (s : bytes) (old new : ascii) : bytes :=
  map (fun c => if Ascii.eqb c old then new else c) s.

(** [func ParseBrokerList(csv string) []string], of [main.go]. *)
Definition ParseBrokerList (csv : bytes) : list bytes := Split csv ","%char.

(** [func truncate(s string, max int) string]; [s[:max]] panics on a
    negative [max]. *)
Definition truncate (s : bytes) (max : Z) : go bytes :=
  if len s >? max then
    if 0 <=? max then Ret (firstn (Z.to_nat max) s)
    else Panic "slice bounds out of range"
  else Ret s.

(** [allowedMethods[method]]: a missing key reads as [false]. *)
Definition allowedMethods (method : bytes) : bool :=
  bytes_Equal method (B "GET") || bytes_Equal method (B "POST")
  || bytes_Equal method (B "OPTIONS").

Definition corsMaxAge : bytes := B "86400".

(** [glob.Glob], by its [Match]. *)
Definition Glob : Type := bytes -> bool.

(** [func (s *SpadeHandler) isAcceptableOrigin(origin string) bool],
    over the matchers of the handler. *)
Fixpoint isAcceptableOrigin (corsOriginMatchers : list Glob) (origin : bytes) : bool :=
  match corsOriginMatchers with
  | [] => false
  | matcher :: rest => if matcher origin then true else isAcceptableOrigin rest origin
  end.

Definition set_Status (v : Z) (c : RequestContext) : RequestContext :=
  mkRequestContext (Now c) (ctxMethod c) (Endpoint c) (IPHeader c) (BadClient c)
    v (Attempts c).

(** [func (s *SpadeHandler) RequestSetup(w, r) *RequestContext].  The
    matchers and the clock of the handler are given with the call:
    [now] is what [s.Time()] returns, and [allowedMethodsHeader] is the
    header that [init] joins from the keys of [allowedMethods], in the
    order the map gives them. *)
Definition RequestSetup (corsOriginMatchers : list Glob) (allowedMethodsHeader : bytes)
    (now : Time) (w : ResponseWriter) (r : Request)
  : ResponseWriter * option RequestContext :=
  if negb (allowedMethods (Method r)) then (WriteHeader w StatusBadRequest, None)
  else
    let w1 := setHeader w (Header_Set (wHeader w) (B "Vary") (B "Origin")) in
    let origin := HeaderGet r (B "Origin") in
    let w2 :=
      if isAcceptableOrigin corsOriginMatchers origin then
        let w' :=
          setHeader w1 (Header_Set (wHeader w1) (B "Access-Control-Allow-Origin") origin) in
        setHeader w' (Header_Set (wHeader w') (B "Access-Control-Allow-Methods")
                        allowedMethodsHeader)
      else w1 in
    if bytes_Equal (Method r) (B "OPTIONS") then
      let w3 :=
        setHeader w2 (Header_Set (wHeader w2) (B "Access-Control-Max-Age") corsMaxAge) in
      (WriteHeader w3 StatusOK, None)
    else
      (w2, Some (mkRequestContext now (Method r) (URLPath r) ipForwardHeader false 0 [])).

(** [func shouldWritePixel(values url.Values) bool] *)
Definition shouldWritePixel (values : Values) : bool :=
  bytes_Equal (Values_Get values (B "img")) (B "1").

(** [func writePixel(w http.ResponseWriter) error] *)
Definition writePixel (w : ResponseWriter) : ResponseWriter * option error :=
  let w1 := setHeader w (Header_Set (wHeader w) (B "Content-Type") (B "image/gif")) in
  let w2 := setHeader w1 (Header_Set (wHeader w1) (B "Cache-Control") (B "no-cache, max-age=0")) in
  Write w2 transparentPixel.

Section Requests.

(** [net.ParseIP] and [strings.TrimSpace]. *)
Variable ParseIP : bytes -> IP.
Variable TrimSpace : bytes -> bytes.

(** [spade.DetermineBase64Encoding(bData).Decode(bData, bData)]: the
    number of bytes decoded and the buffer with the decoded bytes at
    its head, or an error. *)
Variable DecodeInPlace : bytes -> option (Z * bytes).

(** [json.Unmarshal(raw, &events)] with [events []json.RawMessage]:
    the elements of the array, or an error. *)
Variable Unmarshal : bytes -> option (list bytes).

(** [mime.TypeByExtension(".xml")] *)
Variable xmlApplicationType : bytes.

Context {LS LK : Type} {LogS : SpadeEdgeLogger LS} {LogK : SpadeEdgeLogger LK}.

#[local] Abbreviation Handler := (SpadeHandler LS LK).
#[local] Abbreviation State := (World LS LK).

(** [func (e *EdgeLoggers) log(event, context) error] *)
Definition EdgeLoggers_log (e : EdgeLoggers LS LK) (event : Event) (c : RequestContext)
  : EdgeLoggers LS LK * RequestContext * option error :=
  if closed e then (e, c, Some (B "Loggers are shutting down"))
  else
    let '(s3, eventErr) := Log (S3EventLogger e) event in
    let '(kinesis, kinesisErr) := Log (KinesisEventLogger e) event in
    let c1 := RecordLoggerAttempt c eventErr (B "event") in
    let c2 := RecordLoggerAttempt c1 kinesisErr (B "kinesis") in
    let e' := mkEdgeLoggers (closed e) s3 kinesis in
    match eventErr, kinesisErr with
    | Some _, Some _ => (e', c2, Some (B "Failed to store the event in any of the loggers"))
    | _, _ => (e', c2, None)
    end.

(** [func (e *EdgeLoggers) Close()]: closing a channel that is closed
    already panics. *)
Definition EdgeLoggers_Close (e : EdgeLoggers LS LK) : go (EdgeLoggers LS LK) :=
  if closed e then Panic "close of closed channel"
  else
    match Close (KinesisEventLogger e) with
    | Panic msg => Panic msg
    | Ret kinesis =>
        match Close (S3EventLogger e) with
        | Panic msg => Panic msg
        | Ret s3 => Ret (mkEdgeLoggers true s3 kinesis)
        end
    end.

(** [func parseLastForwarder(header string) net.IP] *)
Definition parseLastForwarder (header : bytes) : IP :=
  let comma := LastIndex header ","%char in
  let clientIP :=
    if (comma >? -1) && (comma <? len header + 1)
    then skipn (Z.to_nat (comma + 1)) header
    else header in
  ParseIP (TrimSpace clientIP).

(** [s.EdgeLoggers.log(event, context)] on the state of the request. *)
Definition log (event : Event) : M State (option error) :=
  fun w =>
    let '(e, c, err) := EdgeLoggers_log (loggers (handler w)) event (context w) in
    Ret (err, mkWorld (set_loggers e (handler w)) c).

(** [func (s *SpadeHandler) buildEvent(data, context, clientIP,
    xForwardedFor, userAgent) *spade.Event] *)
Definition buildEvent (data : bytes) (clientIP : IP) (xForwardedFor userAgent : bytes)
  : M State Event :=
  fun w =>
    let s := handler w in
    let count := uint64_add (eventCount s) 1 in
    let uuid := uuidOf (instanceID s) (Now (context w)) count in
    Ret (NewEvent (Now (context w)) clientIP xForwardedFor uuid data userAgent
           (handlerEdgeType s),
         mkWorld (set_eventCount count s) (context w)).

(** [ExtractEvent], from [r.ParseForm()] to the check of an empty
    payload: the payload, or the status that ends the request. *)
Definition readPayload (r : Request) : M State (bytes + Z) :=
  match ParseForm r with
  | Some err =>
      if bytes_Equal err largeBodyErrorString
      then ret (inr StatusRequestEntityTooLarge)
      else ret (inr StatusBadRequest)
  | None =>
      data <-
        (let data := Values_Get (Form r) (B "data") in
         if bytes_Equal data [] && bytes_Equal (Method r) (B "POST") then
           let '(b, err) := Body r in
           match err with
           | Some msg =>
               if bytes_Equal msg largeBodyErrorString
               then ret (inr StatusRequestEntityTooLarge)
               else if HasSuffix msg (B "i/o timeout")
               then ret (inr StatusBadGateway)
               else ret (inr StatusBadRequest)
           | None =>
               head <- lift (slice_to b 5) ;;
               if bytes_Equal (slice_bytes head) dataFlag then
                 w <- get ;;
                 _ <- put (mkWorld (handler w) (set_BadClient true (context w))) ;;
                 b' <- lift (slice_from b 5) ;;
                 ret (inl (slice_bytes b'))
               else ret (inl (slice_bytes b))
           end
         else ret (inl data)) ;;
      match data with
      | inr status => ret (inr status)
      | inl data =>
          if bytes_Equal data [] then ret (inr StatusBadRequest) else ret (inl data)
      end
  end.

(** [ExtractEvent]: the user agent attached to the event. *)
Definition requestUserAgent (r : Request) (values : Values) : bytes :=
  if bytes_Equal (Values_Get values (B "ua")) (B "1") then
    let userAgent := HeaderGet r (B "User-Agent") in
    if len userAgent >? maxUserAgentBytes then [] else userAgent
  else [].

(** [ExtractEvent]: the event of one element of a large request is
    built and written. *)
Definition writeElement (encEvent : bytes) (clientIP : IP) (xForwardedFor userAgent : bytes)
  : M State (option error) :=
  event <- buildEvent encEvent clientIP xForwardedFor userAgent ;;
  log event.

(** [ExtractEvent]: the loop over the elements of a large request.
    [acc] holds [statusCode], [successCount] and [failCount]. *)
Fixpoint splitLoop (events : list bytes) (clientIP : IP) (xForwardedFor userAgent : bytes)
    (acc : Z * Z * Z) : M State (Z * Z * Z) :=
  match events with
  | [] => ret acc
  | event :: rest =>
      let '(statusCode, successCount, failCount) := acc in
      let encEvent := Base64.EncodeToString event in
      let statusCode :=
        if len encEvent >? maxBytesPerRequest then StatusRequestEntityTooLarge
        else statusCode in
      err <- writeElement encEvent clientIP xForwardedFor userAgent ;;
      match err with
      | Some _ =>
          splitLoop rest clientIP xForwardedFor userAgent
            (statusCode, successCount, failCount + 1)
      | None =>
          splitLoop rest clientIP xForwardedFor userAgent
            (statusCode, successCount + 1, failCount)
      end
  end.

(** [ExtractEvent]: a payload over [maxBytesPerRequest] with large
    events handled: decode, split, and write out each element. *)
Definition splitLargeEvent (data : bytes) (clientIP : IP) (xForwardedFor userAgent : bytes)
  : M State (option Event * Z) :=
  match DecodeInPlace data with
  | None => ret (None, StatusRequestEntityTooLarge)
  | Some (n, bData) =>
      if (n <? 1) || negb (bytes_Equal (firstn 2 bData) (B "[{"))
      then ret (None, StatusRequestEntityTooLarge)
      else
        match Unmarshal (firstn (Z.to_nat n) bData) with
        | None => ret (None, StatusRequestEntityTooLarge)
        | Some events =>
            '(statusCode, successCount, _) <-
              splitLoop events clientIP xForwardedFor userAgent (StatusNoContent, 0, 0) ;;
            if successCount =? 0 then ret (None, StatusInternalServerError)
            else ret (None, statusCode)
        end
  end.

(** An element whose encoding is over [maxBytesPerRequest]. *)
Definition oversize (element : bytes) : bool :=
  len (Base64.EncodeToString element) >? maxBytesPerRequest.

(** What [log] returned for each element of a large request, in
    order. *)
Fixpoint splitOutcomes (events : list bytes) (clientIP : IP) (xForwardedFor userAgent : bytes)
    (w : State) : list (option error) :=
  match events with
  | [] => []
  | event :: rest =>
      match writeElement (Base64.EncodeToString event) clientIP xForwardedFor userAgent w with
      | Ret (err, w') => err :: splitOutcomes rest clientIP xForwardedFor userAgent w'
      | Panic _ => []
      end
  end.

(** The number of elements written without an error. *)
Definition successes (outcomes : list (option error)) : Z :=
  Z.of_nat (List.length (filter (fun o => match o with None => true | Some _ => false end)
                           outcomes)).

(** The split path as the spec words it: each element is encoded
    again and enqueued on its own.  [elementEvents] are the events of
    the elements, in order: the data of an event is the standard
    base64 of its element, and each event takes the next value of the
    counter. *)
Fixpoint elementEvents (elements : list bytes) (clientIP : IP)
    (xForwardedFor userAgent : bytes) (now : Time) (instance edgeType : bytes) (count : N)
  : list Event :=
  match elements with
  | [] => []
  | element :: rest =>
      let count := uint64_add count 1 in
      NewEvent now clientIP xForwardedFor (uuidOf instance now count)
        (Base64.EncodeToString element) userAgent edgeType
      :: elementEvents rest clientIP xForwardedFor userAgent now instance edgeType count
  end.

(** An event is enqueued when one of the two sinks at least takes
    it. *)
Definition storedBy (s3 : LS) (kinesis : LK) (event : Event) : bool :=
  match snd (Log s3 event), snd (Log kinesis event) with
  | Some _, Some _ => false
  | _, _ => true
  end.

(** The number of events enqueued when the events are offered to both
    sinks in order, each whatever became of those before it. *)
Fixpoint storedCount (s3 : LS) (kinesis : LK) (events : list Event) : Z :=
  match events with
  | [] => 0
  | event :: rest =>
      (if storedBy s3 kinesis event then 1 else 0)
      + storedCount (fst (Log s3 event)) (fst (Log kinesis event)) rest
  end.

(** [func (s *SpadeHandler) ExtractEvent(r, values, context, statTimer)]:
    the event to write, if one is left to write, and the status. *)
Definition ExtractEvent (r : Request) (values : Values) : M State (option Event * Z) :=
  w <- get ;;
  let xForwardedFor := HeaderGet r (IPHeader (context w)) in
  let clientIP := parseLastForwarder xForwardedFor in
  payload <- readPayload r ;;
  match payload with
  | inr status => ret (None, status)
  | inl data =>
      let userAgent := requestUserAgent r values in
      if len data >? maxBytesPerRequest then
        if negb (handleLargeEvents (handler w))
        then ret (None, StatusRequestEntityTooLarge)
        else splitLargeEvent data clientIP xForwardedFor userAgent
      else
        event <- buildEvent data clientIP xForwardedFor userAgent ;;
        if shouldWritePixel values then ret (Some event, StatusOK)
        else ret (Some event, StatusNoContent)
  end.

(** [func (s *SpadeHandler) handleSpadeRequests(r, values, context) int] *)
Definition handleSpadeRequests (r : Request) (values : Values) : M State Z :=
  '(event, statusCode) <- ExtractEvent r values ;;
  match event with
  | Some event =>
      err <- log event ;;
      match err with
      | Some _ => ret StatusInternalServerError
      | None => ret statusCode
      end
  | None => ret statusCode
  end.

(** [func (s *SpadeHandler) WriteCrossDomainPolicy(w) int] *)
Definition WriteCrossDomainPolicy (s : Handler) (w : ResponseWriter) : Z * ResponseWriter :=
  let w1 := setHeader w (Header_Add (wHeader w) (B "Content-Type") xmlApplicationType) in
  match Write w1 (crossDomainPolicy s) with
  | (w2, Some _) => (StatusInternalServerError, w2)
  | (w2, None) => (StatusOK, w2)
  end.

(** [func (s *SpadeHandler) WriteRobotsTxt(w) int] *)
Definition WriteRobotsTxt (w : ResponseWriter) : Z * ResponseWriter :=
  let w1 := setHeader w (Header_Add (wHeader w) (B "Content-Type") (B "text/plain")) in
  match Write w1 (B "User-agent: *" ++ ["010"%char] ++ B "Disallow: /") with
  | (w2, Some _) => (StatusInternalServerError, w2)
  | (w2, None) => (StatusOK, w2)
  end.

(** [serve]: the path it dispatches on; [/v1/...] is [/track]. *)
Definition servePath (r : Request) : bytes :=
  if HasPrefix (URLPath r) (B "/v1/") then B "/track" else URLPath r.

(** The accepted tracking endpoints. *)
Definition isTrackPath (path : bytes) : bool :=
  bytes_Equal path (B "/") || bytes_Equal path (B "/track") || bytes_Equal path (B "/track/").

(** [func (s *SpadeHandler) serve(w, r, context) int]: the status it
    returns and the response it has written. *)
Definition serve (w : ResponseWriter) (r : Request) : M State (Z * ResponseWriter) :=
  let path := servePath r in
  if bytes_Equal path (B "/crossdomain.xml") then
    st <- get ;; ret (WriteCrossDomainPolicy (handler st) w)
  else if bytes_Equal path (B "/robots.txt") then ret (WriteRobotsTxt w)
  else if bytes_Equal path (B "/healthcheck") then
    ret (StatusOK, WriteHeader w StatusOK)
  else if bytes_Equal path (B "/xarth") then
    match Write w xarth with
    | (w1, Some _) => ret (StatusInternalServerError, w1)
    | (w1, None) => ret (StatusOK, w1)
    end
  else if isTrackPath path then
    let values := URLQuery r in
    status <- handleSpadeRequests r values ;;
    if shouldWritePixel values then
      match writePixel w with
      | (w1, Some _) =>
          ret (StatusInternalServerError, WriteHeader w1 StatusInternalServerError)
      | (w1, None) => ret (StatusOK, w1)
      end
    else ret (status, WriteHeader w status)
  else
    st <- get ;;
    _ <- put (mkWorld (handler st) (set_Endpoint badEndpoint (context st))) ;;
    ret (StatusNotFound, WriteHeader w StatusNotFound).

(** The events of a run of requests: each request comes with its own
    context and has [buildEvent] called once on its payload. *)
Fixpoint buildEvents (requests : list (RequestContext * bytes)) (clientIP : IP)
    (xForwardedFor userAgent : bytes) : M State (list Event) :=
  match requests with
  | [] => ret []
  | (c, data) :: rest =>
      w <- get ;;
      _ <- put (mkWorld (handler w) c) ;;
      event <- buildEvent data clientIP xForwardedFor userAgent ;;
      events <- buildEvents rest clientIP xForwardedFor userAgent ;;
      ret (event :: events)
  end.

(** [strings.ToLower] *)
Variable ToLower : bytes -> bytes.

(** [func sanitizeHostValue(host string) string]; [Split] gives at
    least one element, so that the index [0] is in range. *)
Definition sanitizeHostValue (host : bytes) : bytes :=
  if bytes_Equal host [] then []
  else
    let hostWithoutPort := hd [] (Split (ToLower (TrimSpace host)) ":"%char) in
    Replace hostWithoutPort "."%char "_"%char.

(** [glob.Compile]: the matcher of a pattern, or an error;
    [glob.MustCompile] panics on the error. *)
Variable glob_Compile : bytes -> option Glob.

(** [NewSpadeHandler]: the loop that fills [corsOriginMatchers] from
    [CORSOrigins], onto the matchers already there. *)
Fixpoint corsOriginMatchers (CORSOrigins : list bytes) (matchers : list Glob)
  : go (list Glob) :=
  match CORSOrigins with
  | [] => Ret matchers
  | origin :: rest =>
      let trimmedOrigin := TrimSpace origin in
      if negb (bytes_Equal trimmedOrigin []) then
        match glob_Compile trimmedOrigin with
        | Some matcher => corsOriginMatchers rest (matchers ++ [matcher])
        | None => Panic "glob: invalid pattern"
        end
      else corsOriginMatchers rest matchers
  end.

(** [func (s *SpadeHandler) ServeHTTP(w, r)]: the response written,
    the handler after the request, and the context when one was set
    up, with the status recorded in it. *)
Definition ServeHTTP (matchers : list Glob) (allowedMethodsHeader : bytes) (now : Time)
    (w : ResponseWriter) (r : Request) (s : Handler)
  : go (ResponseWriter * Handler * option RequestContext) :=
  match RequestSetup matchers allowedMethodsHeader now w r with
  | (w1, None) => Ret (w1, s, None)
  | (w1, Some c) =>
      match serve w1 r (mkWorld s c) with
      | Ret ((status, w2), st) => Ret (w2, handler st, Some (set_Status status (context st)))
      | Panic msg => Panic msg
      end
  end.

#[local] Set Default Proof Using "Type".

(* ================================================================= *)
(** ** Bytes and lists *)

Lemma bytes_Equal_eq (a b : bytes) : bytes_Equal a b = true <-> a = b.
Proof.
  revert b; induction a as [|x a IH]; intros [|y b]; simpl; split;
    try discriminate; try reflexivity.
  - intros Hxy. apply andb_true_iff in Hxy as [Hx Ha].
    apply Ascii.eqb_eq in Hx. apply IH in Ha. now subst.
  - intros E. injection E as -> ->. rewrite Ascii.eqb_refl. now apply IH.
Qed.

Lemma bytes_Equal_refl (a : bytes) : bytes_Equal a a = true.
Proof. now apply bytes_Equal_eq. Qed.

Lemma bytes_Equal_neq (a b : bytes) : bytes_Equal a b = false <-> a <> b.
Proof.
  split.
  - intros Hf E. apply bytes_Equal_eq in E. congruence.
  - intros Hn. destruct (bytes_Equal a b) eqn:E; [|reflexivity].
    apply bytes_Equal_eq in E. contradiction.
Qed.

Lemma elements_Equal_eq (a b : list bytes) : elements_Equal a b = true -> a = b.
Proof.
  revert b; induction a as [|x a IH]; intros [|y b]; simpl;
    try discriminate; try reflexivity.
  intros Hxy. apply andb_true_iff in Hxy as [Hx Ha].
  apply bytes_Equal_eq in Hx. apply IH in Ha. now subst.
Qed.

(** Groups of three: the induction that [EncodeToString] follows. *)
Lemma bytes_ind3 (P : bytes -> Prop) :
  P [] -> (forall x, P [x]) -> (forall x y, P [x; y]) ->
  (forall x y z rest, P rest -> P (x :: y :: z :: rest)) ->
  forall s, P s.
Proof.
  intros Hnil Hone Htwo Hstep s.
  enough (P s /\ (forall x, P (x :: s)) /\ (forall x y, P (x :: y :: s))) as [Hs _]
    by exact Hs.
  induction s as [|c s (IHa & IHb & IHc)]; repeat split; auto.
Qed.

(* ================================================================= *)
(** ** Base64: decoding what was encoded *)

Lemma dec6_enc6 (s : Base64.sextet) : Base64.dec6 (Base64.enc6 s) = Some s.
Proof. destruct s as [[[[[[] []] []] []] []] []]; reflexivity. Qed.

Lemma enc6_not_padding (s : Base64.sextet) :
  Ascii.eqb (Base64.enc6 s) Base64.StdPadding = false.
Proof. destruct s as [[[[[[] []] []] []] []] []]; reflexivity. Qed.

Lemma EncodeToString_nil (src : bytes) : Base64.EncodeToString src = [] -> src = [].
Proof.
  destruct src as [|[] [|[] [|[] rest]]]; simpl; intros E;
    [reflexivity | discriminate E ..].
Qed.

#[local] Arguments Base64.enc6 : simpl never.
#[local] Arguments Base64.dec6 : simpl never.

Lemma Decode_Encode (src : bytes) :
  Base64.DecodeString (Base64.EncodeToString src) = Some src.
Proof.
  induction src as [| x | x y | x y z rest IH] using bytes_ind3.
  - reflexivity.
  - destruct x. simpl. now rewrite !dec6_enc6.
  - destruct x, y. simpl.
    now rewrite !dec6_enc6, enc6_not_padding.
  - destruct x, y, z.
    change (Base64.EncodeToString (_ :: _ :: _ :: rest))
      with (Base64.enc6 (b6, b5, b4, b3, b2, b1) :: Base64.enc6 (b0, b, b14, b13, b12, b11)
              :: Base64.enc6 (b10, b9, b8, b7, b22, b21)
              :: Base64.enc6 (b20, b19, b18, b17, b16, b15)
              :: Base64.EncodeToString rest).
    cbn [Base64.DecodeString]. fold Base64.DecodeString.
    rewrite !dec6_enc6.
    destruct (Base64.EncodeToString rest) as [|e es] eqn:E.
    + apply EncodeToString_nil in E. subst rest.
      now rewrite enc6_not_padding.
    + rewrite IH. reflexivity.
Qed.

(** Decoding each of the encoded elements gives the elements back. *)
Lemma map_Decode_Encode (elements : list bytes) :
  map Base64.DecodeString (map Base64.EncodeToString elements) = map Some elements.
Proof.
  induction elements as [|el els IH]; simpl; [reflexivity|].
  now rewrite Decode_Encode, IH.
Qed.

(* ================================================================= *)
(** ** [%08x]: digits only, and read back without loss *)


Lemma of_pos_digits :
  forall (p : positive) (rest : string),
    forallb isHexDigit (list_ascii_of_string rest) = true ->
    forallb isHexDigit (list_ascii_of_string (HexString.Raw.of_pos p rest)) = true.
Proof.
  fix IH 1. intros p rest Hrest.
  do 4 try destruct p as [p|p|]; cbn [HexString.Raw.of_pos];
    first [ apply IH; cbn; exact Hrest | cbn; exact Hrest ].
Qed.

Lemma hex_digits (n : N) : forallb isHexDigit (hex n) = true.
Proof.
  destruct n as [|p]; [reflexivity|].
  unfold hex, B. now apply of_pos_digits.
Qed.

Lemma pad0_digits (width : nat) (s : bytes) :
  forallb isHexDigit s = true -> forallb isHexDigit (pad0 width s) = true.
Proof.
  intros Hs. unfold pad0. rewrite forallb_app, Hs, andb_true_r.
  induction (width - List.length s)%nat as [|k IH]; simpl; auto.
Qed.

Lemma fmt_08x_uint_digits (n : N) : forallb isHexDigit (fmt_08x_uint n) = true.
Proof. apply pad0_digits, hex_digits. Qed.

Lemma digits_no_dash (s : bytes) :
  forallb isHexDigit s = true -> ~ In "-"%char s.
Proof.
  intros Hs Hin. rewrite forallb_forall in Hs. apply Hs in Hin. discriminate Hin.
Qed.

Lemma pad0_length (width : nat) (s : bytes) :
  (width <= List.length (pad0 width s))%nat.
Proof. unfold pad0. rewrite length_app, repeat_length. lia. Qed.

Lemma unhex_hex (n : N) : unhex (hex n) = n.
Proof.
  destruct n as [|p]; [reflexivity|].
  unfold unhex, hex, B. rewrite string_of_list_ascii_of_string.
  now rewrite HexString.Raw.to_N_of_pos.
Qed.

Lemma unhex_pad0 (width : nat) (s : bytes) : unhex (pad0 width s) = unhex s.
Proof.
  unfold pad0. induction (width - List.length s)%nat as [|k IH]; [reflexivity|].
  exact IH.
Qed.

Lemma unhex_fmt_08x_uint (n : N) : unhex (fmt_08x_uint n) = n.
Proof. unfold fmt_08x_uint. now rewrite unhex_pad0, unhex_hex. Qed.

Lemma fmt_08x_uint_inj (m n : N) : fmt_08x_uint m = fmt_08x_uint n -> m = n.
Proof.
  intros E. rewrite <- (unhex_fmt_08x_uint m), <- (unhex_fmt_08x_uint n). now rewrite E.
Qed.

(** Two texts that end in a dash and a field without dashes agree on
    the field. *)
Lemma last_field_eq (a1 a2 f1 f2 : bytes) :
  ~ In "-"%char f1 -> ~ In "-"%char f2 ->
  a1 ++ "-"%char :: f1 = a2 ++ "-"%char :: f2 -> f1 = f2.
Proof.
  intros H1 H2. revert a2.
  induction a1 as [|x a1 IH]; intros [|y a2] E; simpl in E.
  - now injection E.
  - injection E as E1 E2. subst. exfalso. apply H1, in_or_app. right. now left.
  - injection E as E1 E2. subst. exfalso. apply H2, in_or_app. right. now left.
  - injection E as _ E. now apply (IH a2).
Qed.

(* ================================================================= *)
(** ** [parseLastForwarder]: the last token of the header *)

Lemma Split_without (s : bytes) (sep : ascii) :
  ~ In sep s -> Split s sep = [s].
Proof.
  induction s as [|c s IH]; intros Hn; simpl; [reflexivity|].
  destruct (Ascii.eqb c sep) eqn:E.
  - apply Ascii.eqb_eq in E. exfalso. apply Hn. now left.
  - rewrite IH; [reflexivity|]. intros Hin. apply Hn. now right.
Qed.

Lemma Split_with (s : bytes) (sep : ascii) :
  In sep s -> exists t1 t2 toks, Split s sep = t1 :: t2 :: toks.
Proof.
  induction s as [|c s IH]; intros Hin; [destruct Hin|]. simpl.
  destruct (Ascii.eqb c sep) eqn:E.
  - destruct (Split s sep) as [|t toks] eqn:Es.
    + destruct s; simpl in Es; [discriminate|].
      destruct (Ascii.eqb a sep); [discriminate|].
      destruct (Split s sep); discriminate.
    + now exists [], t, toks.
  - destruct Hin as [->|Hin]; [rewrite Ascii.eqb_refl in E; discriminate|].
    destruct (IH Hin) as (t1 & t2 & toks & ->). now exists (c :: t1), t2, toks.
Qed.

Lemma lastToken_cons (c : ascii) (s : bytes) :
  In ","%char s -> lastToken (c :: s) = lastToken s.
Proof.
  intros Hin. unfold lastToken. simpl.
  destruct (Split_with s ","%char Hin) as (t1 & t2 & toks & ->).
  now destruct (Ascii.eqb c ","%char).
Qed.

Lemma lastToken_without (s : bytes) : ~ In ","%char s -> lastToken s = s.
Proof. intros Hn. unfold lastToken. now rewrite Split_without. Qed.

Lemma lastToken_comma (s : bytes) :
  ~ In ","%char s -> lastToken (","%char :: s) = s.
Proof.
  intros Hn. unfold lastToken. simpl. now rewrite Split_without.
Qed.

Lemma lastToken_app_comma (s : bytes) : lastToken (s ++ B ",") = [].
Proof.
  induction s as [|c s IH]; [reflexivity|].
  simpl app. rewrite lastToken_cons; [exact IH|].
  apply in_or_app. right. now left.
Qed.

Lemma lastIndexFrom_without (s : bytes) (sep : ascii) (i found : Z) :
  ~ In sep s -> lastIndexFrom s sep i found = found.
Proof.
  revert i found. induction s as [|c s IH]; intros i found Hn; simpl; [reflexivity|].
  rewrite IH by (intros Hin; apply Hn; now right).
  destruct (Ascii.eqb c sep) eqn:E; [|reflexivity].
  apply Ascii.eqb_eq in E. exfalso. apply Hn. now left.
Qed.

(** With a comma in the text, the index found is within the text and
    what follows it is the last token. *)
Lemma lastIndexFrom_with (s : bytes) (i found : Z) :
  In ","%char s ->
  let k := lastIndexFrom s ","%char i found in
  i <= k < i + len s /\ skipn (Z.to_nat (k - i + 1)) s = lastToken s.
Proof.
  revert i found. induction s as [|c s IH]; intros i found Hin; [destruct Hin|].
  cbn zeta. cbn [lastIndexFrom].
  destruct (in_dec ascii_dec ","%char s) as [Hs|Hs].
  - specialize (IH (i + 1) (if Ascii.eqb c ","%char then i else found) Hs).
    cbn zeta in IH. destruct IH as [Hk Hskip].
    set (k := lastIndexFrom s ","%char (i + 1) _) in *.
    split.
    + unfold len in *. simpl List.length. lia.
    + rewrite lastToken_cons by exact Hs. rewrite <- Hskip.
      replace (Z.to_nat (k - i + 1)) with (S (Z.to_nat (k - (i + 1) + 1))) by lia.
      reflexivity.
  - rewrite lastIndexFrom_without by exact Hs.
    destruct Hin as [->|Hin]; [|contradiction].
    rewrite Ascii.eqb_refl. split.
    + unfold len. simpl List.length. lia.
    + replace (i - i + 1) with 1 by lia. rewrite lastToken_comma by exact Hs.
      reflexivity.
Qed.

Lemma existsb_comma (s : bytes) :
  existsb (Ascii.eqb ","%char) s = false -> ~ In ","%char s.
Proof.
  intros He Hin. assert (existsb (Ascii.eqb ","%char) s = true) as Ht.
  { apply existsb_exists. exists ","%char. split; [exact Hin|apply Ascii.eqb_refl]. }
  congruence.
Qed.

(** C6. The client address is [net.ParseIP] of the last comma-separated
    token of the forwarded-for header, trimmed by [strings.TrimSpace]:
    the whole header when it holds no comma, and the empty string
    when the header ends in a comma. *)
Theorem parseLastForwarder_last_token (header : bytes) :
  parseLastForwarder header = ParseIP (TrimSpace (lastToken header)) /\
  (existsb (Ascii.eqb ","%char) header = false -> lastToken header = header) /\
  lastToken (header ++ B ",") = [].
Proof.
  split; [|split].
  - unfold parseLastForwarder, LastIndex.
    destruct (in_dec ascii_dec ","%char header) as [Hin|Hn].
    + destruct (lastIndexFrom_with header 0 (-1) Hin) as [Hk Hskip].
      cbn zeta in Hk, Hskip.
      set (k := lastIndexFrom header ","%char 0 (-1)) in *.
      replace (k >? -1) with true by (symmetry; apply Z.gtb_lt; lia).
      replace (k <? len header + 1) with true by (symmetry; apply Z.ltb_lt; lia).
      cbn [andb]. replace (k + 1) with (k - 0 + 1) by lia. now rewrite Hskip.
    + rewrite lastIndexFrom_without by exact Hn.
      cbn [Z.gtb Z.compare andb]. now rewrite lastToken_without.
  - intros He. apply lastToken_without, existsb_comma, He.
  - apply lastToken_app_comma.
Qed.

(* ================================================================= *)
(** ** [EdgeLoggers]: [log] and [Close] *)

Lemma EdgeLoggers_log_closed (e : EdgeLoggers LS LK) (event : Event) (c : RequestContext) :
  closed e = true ->
  EdgeLoggers_log e event c = (e, c, Some (B "Loggers are shutting down")).
Proof. intros Hc. unfold EdgeLoggers_log. now rewrite Hc. Qed.

(** What an open [EdgeLoggers] does with an event: both loggers are
    called, both attempts are recorded, and the error is that of both
    failing. *)
Lemma EdgeLoggers_log_open (e : EdgeLoggers LS LK) (event : Event) (c : RequestContext) :
  closed e = false ->
  exists err,
    EdgeLoggers_log e event c =
      (mkEdgeLoggers false (fst (Log (S3EventLogger e) event))
         (fst (Log (KinesisEventLogger e) event)),
       RecordLoggerAttempt
         (RecordLoggerAttempt c (snd (Log (S3EventLogger e) event)) (B "event"))
         (snd (Log (KinesisEventLogger e) event)) (B "kinesis"),
       err) /\
    (err = None <->
     accepts (S3EventLogger e) event \/ accepts (KinesisEventLogger e) event).
Proof.
  intros Hc. unfold EdgeLoggers_log, accepts. rewrite Hc.
  destruct (Log (S3EventLogger e) event) as [s3 [e1|]];
    destruct (Log (KinesisEventLogger e) event) as [k [e2|]]; cbn [fst snd];
    eexists; (split; [reflexivity|]); split; intros Hx;
    try discriminate; try reflexivity; try (now left); try (now right).
  destruct Hx; discriminate.
Qed.

(** [log] returns an error exactly when the loggers are closed or both
    loggers fail. *)
Lemma EdgeLoggers_log_error (e : EdgeLoggers LS LK) (event : Event) (c : RequestContext) :
  snd (EdgeLoggers_log e event c) <> None <->
  closed e = true \/
  (~ accepts (S3EventLogger e) event /\ ~ accepts (KinesisEventLogger e) event).
Proof.
  destruct (closed e) eqn:Hc.
  - rewrite EdgeLoggers_log_closed by exact Hc. cbn [snd]. split; [now left | discriminate].
  - destruct (EdgeLoggers_log_open e event c Hc) as (err & -> & Herr). cbn [snd].
    split.
    + intros Hne. right. split; intros Ha; apply Hne, Herr; [now left | now right].
    + intros [Hx|[Hs Hk]] Hnone; [discriminate|].
      apply Herr in Hnone as [Ha|Ha]; contradiction.
Qed.

(* ================================================================= *)
(** ** The handler: one event *)

Ltac run_monad := unfold bind, ret, get, put, lift in *.

Lemma log_returns (event : Event) (w : State) :
  log event w =
    Ret (snd (EdgeLoggers_log (loggers (handler w)) event (context w)),
         mkWorld
           (set_loggers (fst (fst (EdgeLoggers_log (loggers (handler w)) event (context w))))
              (handler w))
           (snd (fst (EdgeLoggers_log (loggers (handler w)) event (context w))))).
Proof.
  unfold log. now destruct (EdgeLoggers_log _ _ _) as [[e c] err].
Qed.

Lemma writeElement_returns (encEvent : bytes) (clientIP : IP) (xff ua : bytes) (w : State) :
  exists err w', writeElement encEvent clientIP xff ua w = Ret (err, w').
Proof.
  unfold writeElement, bind, buildEvent. rewrite log_returns. now eexists _, _.
Qed.

Lemma splitLoop_returns (events : list bytes) (clientIP : IP) (xff ua : bytes)
    (acc : Z * Z * Z) (w : State) :
  exists acc' w', splitLoop events clientIP xff ua acc w = Ret (acc', w').
Proof.
  revert acc w. induction events as [|el rest IH]; intros [[sc ok] ko] w.
  - now exists (sc, ok, ko), w.
  - cbn [splitLoop]. unfold bind at 1.
    destruct (writeElement_returns (Base64.EncodeToString el) clientIP xff ua w)
      as (err & w' & ->).
    destruct err; apply IH.
Qed.

Lemma splitLargeEvent_returns (data : bytes) (clientIP : IP) (xff ua : bytes) (w : State) :
  exists status w', splitLargeEvent data clientIP xff ua w = Ret ((None, status), w').
Proof.
  unfold splitLargeEvent.
  destruct (DecodeInPlace data) as [[n bData]|]; [|now eexists _, _].
  destruct (_ || _); [now eexists _, _|].
  destruct (Unmarshal _) as [events|]; [|now eexists _, _].
  unfold bind.
  destruct (splitLoop_returns events clientIP xff ua (StatusNoContent, 0, 0) w)
    as ([[sc ok] ko] & w' & ->).
  destruct (ok =? 0); now eexists _, _.
Qed.

(** When [ExtractEvent] hands an event back, the payload was within
    the limit, the event was built from it, and the status is the one
    of the pixel or of no content. *)
Lemma ExtractEvent_event (r : Request) (values : Values) (w w1 : State)
    (event : Event) (status : Z) :
  ExtractEvent r values w = Ret ((Some event, status), w1) ->
  exists data w0,
    readPayload r w = Ret (inl data, w0) /\
    len data <= maxBytesPerRequest /\
    buildEvent data (parseLastForwarder (HeaderGet r (IPHeader (context w))))
      (HeaderGet r (IPHeader (context w))) (requestUserAgent r values) w0
      = Ret (event, w1) /\
    status = (if shouldWritePixel values then StatusOK else StatusNoContent).
Proof.
  unfold ExtractEvent. unfold bind at 1. unfold get at 1. unfold bind at 1.
  destruct (readPayload r w) as [[[data|st] w0]|msg]; try discriminate.
  destruct (len data >? maxBytesPerRequest) eqn:Hlen.
  - destruct (negb (handleLargeEvents (handler w))); [discriminate|].
    destruct (splitLargeEvent_returns data
                (parseLastForwarder (HeaderGet r (IPHeader (context w))))
                (HeaderGet r (IPHeader (context w))) (requestUserAgent r values) w0)
      as (st & w' & ->).
    discriminate.
  - rewrite Z.gtb_ltb in Hlen. apply Z.ltb_ge in Hlen.
    unfold bind, buildEvent.
    destruct (shouldWritePixel values); unfold ret; intros E;
      injection E as E1 E2 E3; subst;
      exists data, w0; repeat split; try reflexivity; exact Hlen.
Qed.

(** The status of a request whose event was built: 500 when [log]
    returns an error, the status of [ExtractEvent] otherwise. *)
Lemma handleSpadeRequests_event (r : Request) (values : Values) (w w1 : State)
    (event : Event) (status : Z) :
  ExtractEvent r values w = Ret ((Some event, status), w1) ->
  handleSpadeRequests r values w =
    Ret (match snd (EdgeLoggers_log (loggers (handler w1)) event (context w1)) with
         | Some _ => StatusInternalServerError
         | None => status
         end,
         mkWorld
           (set_loggers
              (fst (fst (EdgeLoggers_log (loggers (handler w1)) event (context w1))))
              (handler w1))
           (snd (fst (EdgeLoggers_log (loggers (handler w1)) event (context w1))))).
Proof.
  intros HE. unfold handleSpadeRequests. unfold bind at 1. rewrite HE.
  unfold bind. rewrite log_returns.
  now destruct (snd (EdgeLoggers_log _ _ _)).
Qed.

Lemma is2xx_500 : is2xx StatusInternalServerError = false.
Proof. reflexivity. Qed.

Lemma pixel_or_no_content_not_500 (pixel : bool) :
  (if pixel then StatusOK else StatusNoContent) <> StatusInternalServerError.
Proof. now destruct pixel. Qed.

(** C3, as amended. [Close] on open loggers whose two loggers close
    normally returns normally and leaves the loggers closed, so that
    every later [log] is refused; a second [Close] is no no-op: it
    panics on closing the closed channel, as does [Close] after any
    [Close] that returned. *)
Theorem Close_once_then_panic (e : EdgeLoggers LS LK) (s3 : LS) (kinesis : LK) :
  closed e = false ->
  Close (KinesisEventLogger e) = Ret kinesis ->
  Close (S3EventLogger e) = Ret s3 ->
  EdgeLoggers_Close e = Ret (mkEdgeLoggers true s3 kinesis) /\
  EdgeLoggers_Close (mkEdgeLoggers true s3 kinesis) = Panic "close of closed channel" /\
  (forall (event : Event) (c : RequestContext),
     EdgeLoggers_log (mkEdgeLoggers true s3 kinesis) event c
       = (mkEdgeLoggers true s3 kinesis, c, Some (B "Loggers are shutting down"))) /\
  (forall e1 e2 : EdgeLoggers LS LK,
     EdgeLoggers_Close e1 = Ret e2 ->
     closed e2 = true /\ EdgeLoggers_Close e2 = Panic "close of closed channel").
Proof.
  intros Hc Hk Hs. split; [|split; [|split]].
  - unfold EdgeLoggers_Close. now rewrite Hc, Hk, Hs.
  - reflexivity.
  - reflexivity.
  - intros e1 e2. unfold EdgeLoggers_Close at 1.
    destruct (closed e1); [discriminate|].
    destruct (Close (KinesisEventLogger e1)); [|discriminate].
    destruct (Close (S3EventLogger e1)); [|discriminate].
    intros E. injection E as <-. split; reflexivity.
Qed.

(* ================================================================= *)
(** ** [buildEvent]: the uuid *)

Lemma uint64_add_1 (n : N) : (n < uint64_max + 1)%N -> (n + 1 <= uint64_max)%N ->
  uint64_add n 1 = (n + 1)%N.
Proof. intros _ Hn. unfold uint64_add. apply N.mod_small. lia. Qed.

Lemma uuidOf_inj (instance : bytes) (t1 t2 : Time) (c1 c2 : N) :
  uuidOf instance t1 c1 = uuidOf instance t2 c2 -> c1 = c2.
Proof.
  unfold uuidOf, B. simpl list_ascii_of_string. intros E.
  assert (forall a f : bytes, (a ++ ["-"%char]) ++ f = a ++ "-"%char :: f) as Hdash
    by (intros; now rewrite <- app_assoc).
  rewrite !app_assoc, !Hdash in E.
  apply last_field_eq in E; try apply digits_no_dash, fmt_08x_uint_digits.
  now apply fmt_08x_uint_inj.
Qed.

Lemma buildEvents_events (requests : list (RequestContext * bytes)) (clientIP : IP)
    (xff ua : bytes) (w : State) :
  (eventCount (handler w) + N.of_nat (List.length requests) <= uint64_max)%N ->
  exists events w',
    buildEvents requests clientIP xff ua w = Ret (events, w') /\
    List.length events = List.length requests /\
    eventCount (handler w')
      = (eventCount (handler w) + N.of_nat (List.length requests))%N /\
    forall i c data,
      nth_error requests i = Some (c, data) ->
      exists event,
        nth_error events i = Some event /\
        Uuid event
          = uuidOf (instanceID (handler w)) (Now c)
              (eventCount (handler w) + 1 + N.of_nat i) /\
        Data event = data /\ ReceivedAt event = Now c.
Proof.
  revert w. induction requests as [|[c data] rest IH]; intros w Hmax.
  - exists [], w. cbn [buildEvents List.length]. repeat split.
    + cbn. lia.
    + intros [|i] c data E; discriminate E.
  - cbn [buildEvents]. run_monad. unfold buildEvent at 1.
    cbn [handler context eventCount set_eventCount].
    cbn [List.length] in Hmax.
    rewrite uint64_add_1 by lia.
    set (w1 := mkWorld (set_eventCount (eventCount (handler w) + 1) (handler w)) c).
    destruct (IH w1) as (events & w' & -> & Hlen & Hcount & Hnth).
    { subst w1. cbn [handler eventCount set_eventCount]. lia. }
    eexists _, _. split; [reflexivity|]. split; [cbn; now rewrite Hlen|].
    split.
    { rewrite Hcount. subst w1. cbn [handler eventCount set_eventCount List.length]. lia. }
    intros [|i] c' data' E.
    + injection E as <- <-. eexists. split; [reflexivity|].
      cbn [Uuid Data ReceivedAt]. unfold uuidOf.
      replace (eventCount (handler w) + 1 + N.of_nat 0)%N
        with (eventCount (handler w) + 1)%N by lia.
      repeat split.
    + cbn [nth_error] in E. destruct (Hnth i c' data' E) as (event & Hev & Hu & Hd & Ht).
      exists event. split; [exact Hev|]. split; [|now split].
      rewrite Hu. subst w1. cbn [handler instanceID eventCount set_eventCount].
      f_equal. lia.
Qed.

(** C5. Every built event has the uuid
    [{instance_id}-{unix_seconds:08x}-{counter:08x}].  In a run of [N]
    events that leaves the 64-bit counter within its range, the
    counter of each event is one more than the counter of the event
    before it, and the uuids of the run are pairwise distinct. *)
Theorem uuids_of_a_run_distinct (requests : list (RequestContext * bytes)) (clientIP : IP)
    (xff ua : bytes) (w : State) :
  (eventCount (handler w) + N.of_nat (List.length requests) <= uint64_max)%N ->
  exists events w',
    buildEvents requests clientIP xff ua w = Ret (events, w') /\
    List.length events = List.length requests /\
    (forall i c data,
       nth_error requests i = Some (c, data) ->
       exists event,
         nth_error events i = Some event /\
         Uuid event
           = instanceID (handler w) ++ B "-" ++ fmt_08x_int (Unix (Now c)) ++ B "-"
               ++ fmt_08x_uint (eventCount (handler w) + 1 + N.of_nat i) /\
         forallb isHexDigit (fmt_08x_uint (eventCount (handler w) + 1 + N.of_nat i)) = true /\
         (8 <= List.length (fmt_08x_uint (eventCount (handler w) + 1 + N.of_nat i)))%nat) /\
    NoDup (map Uuid events).
Proof.
  intros Hmax.
  destruct (buildEvents_events requests clientIP xff ua w Hmax)
    as (events & w' & Hrun & Hlen & _ & Hnth).
  exists events, w'. split; [exact Hrun|]. split; [exact Hlen|]. split.
  - intros i c data E. destruct (Hnth i c data E) as (event & Hev & Hu & _).
    exists event. split; [exact Hev|]. split; [exact Hu|].
    split; [apply fmt_08x_uint_digits | apply pad0_length].
  - apply NoDup_nth_error. intros i j Hi Eij.
    rewrite length_map in Hi. rewrite !nth_error_map in Eij.
    assert (exists rq, nth_error requests i = Some rq) as [[ci di] Hri].
    { destruct (nth_error requests i) eqn:E; [eauto|].
      apply nth_error_None in E. lia. }
    destruct (Hnth i ci di Hri) as (ei & Hei & Hui & _).
    rewrite Hei in Eij. cbn [option_map] in Eij.
    destruct (nth_error events j) as [ej|] eqn:Hej; [|discriminate].
    assert (exists rq, nth_error requests j = Some rq) as [[cj dj] Hrj].
    { destruct (nth_error requests j) eqn:E; [eauto|].
      apply nth_error_None in E.
      assert (nth_error events j <> None) as Hne by congruence.
      apply nth_error_Some in Hne. lia. }
    destruct (Hnth j cj dj Hrj) as (ej' & Hej' & Huj & _).
    rewrite Hej in Hej'. injection Hej' as <-.
    cbn [option_map] in Eij. injection Eij as Eij.
    rewrite Hui, Huj in Eij. apply uuidOf_inj in Eij. lia.
Qed.

(* ================================================================= *)
(** ** [ExtractEvent]: the raw body of a POST *)

Lemma HasPrefix_length (s prefix : bytes) :
  HasPrefix s prefix = true -> (List.length prefix <= List.length s)%nat.
Proof.
  revert s. induction prefix as [|p prefix IH]; intros [|x s] Hp; simpl in *;
    try lia; try discriminate.
  apply andb_true_iff in Hp as [_ Hp]. apply IH in Hp. lia.
Qed.

Lemma HasPrefix_app (s prefix : bytes) :
  HasPrefix s prefix = true ->
  s = prefix ++ skipn (List.length prefix) s.
Proof.
  revert s. induction prefix as [|p prefix IH]; intros [|x s] Hp; simpl in *;
    try reflexivity; try discriminate.
  apply andb_true_iff in Hp as [Hx Hp]. apply Ascii.eqb_eq in Hx. subst x.
  f_equal. now apply IH.
Qed.

(** On a slice of [ioutil.ReadAll], [b[:5]] is within the capacity,
    and it equals [data=] exactly when the body begins with it: past
    a shorter body lie zero bytes. *)
Lemma ReadAll_slice_head (b : slice) :
  ReadAll_slice b ->
  exists head,
    slice_to b 5 = Ret head /\
    bytes_Equal (slice_bytes head) dataFlag = HasPrefix (slice_bytes b) dataFlag.
Proof.
  destruct b as [a n]. unfold ReadAll_slice, slice_to, slice_bytes, cap, bytes_MinRead.
  cbn [arr slen]. intros (Hlen & Hcap & Hzero).
  replace (5 <=? List.length a)%nat with true by (symmetry; apply Nat.leb_le; lia).
  eexists. split; [reflexivity|]. cbn [arr slen].
  destruct a as [|a0 [|a1 [|a2 [|a3 [|a4 rest]]]]]; cbn [List.length] in Hcap; try lia.
  destruct n as [|[|[|[|[|n]]]]]; cbn [firstn skipn] in *;
    [ | | | | | reflexivity ];
    inversion Hzero as [|z zs Hz _]; subst; cbn;
    repeat match goal with |- context [Ascii.eqb ?x ?y] =>
      destruct (Ascii.eqb x y) end; reflexivity.
Qed.

Lemma slice_from_prefix (b : slice) :
  HasPrefix (slice_bytes b) dataFlag = true ->
  exists b',
    slice_from b 5 = Ret b' /\ slice_bytes b' = skipn 5 (slice_bytes b).
Proof.
  intros Hp. apply HasPrefix_length in Hp. unfold slice_bytes in *.
  rewrite length_firstn in Hp. cbn in Hp.
  unfold slice_from. replace (5 <=? slen b)%nat with true by (symmetry; apply Nat.leb_le; lia).
  eexists. split; [reflexivity|]. cbn [arr slen].
  now rewrite skipn_firstn_comm.
Qed.

(** The payload read from the raw body of a POST without a [data]
    field. *)
Lemma readPayload_raw_body (r : Request) (w : State) (b : slice) :
  ParseForm r = None ->
  Values_Get (Form r) (B "data") = [] ->
  Method r = B "POST" ->
  Body r = (b, None) ->
  ReadAll_slice b ->
  readPayload r w =
    Ret (let payload :=
           if HasPrefix (slice_bytes b) dataFlag then skipn 5 (slice_bytes b)
           else slice_bytes b in
         if bytes_Equal payload [] then inr StatusBadRequest else inl payload,
         if HasPrefix (slice_bytes b) dataFlag
         then mkWorld (handler w) (set_BadClient true (context w))
         else w).
Proof.
  intros Hform Hdata Hpost Hbody Hb. unfold readPayload.
  rewrite Hform, Hdata, Hpost, Hbody. rewrite !bytes_Equal_refl. cbn [andb].
  destruct (ReadAll_slice_head b Hb) as (head & Hhead & Heq).
  run_monad. rewrite Hhead. cbn zeta. rewrite Heq.
  destruct (HasPrefix (slice_bytes b) dataFlag) eqn:Hp.
  - destruct (slice_from_prefix b Hp) as (b' & -> & ->).
    now destruct (bytes_Equal (skipn 5 (slice_bytes b)) []).
  - now destruct (bytes_Equal (slice_bytes b) []).
Qed.

(** After the payload is read, [ExtractEvent] returns. *)
Lemma ExtractEvent_after_payload (r : Request) (values : Values) (w w0 : State)
    (payload : bytes + Z) :
  readPayload r w = Ret (payload, w0) ->
  exists res w', ExtractEvent r values w = Ret (res, w').
Proof.
  intros Hp. unfold ExtractEvent. unfold bind at 1. unfold get at 1.
  unfold bind at 1. rewrite Hp.
  destruct payload as [data|status]; [|now eexists _, _].
  destruct (len data >? maxBytesPerRequest).
  - destruct (negb (handleLargeEvents (handler w))); [now eexists _, _|].
    destruct (splitLargeEvent_returns data
                (parseLastForwarder (HeaderGet r (IPHeader (context w))))
                (HeaderGet r (IPHeader (context w))) (requestUserAgent r values) w0)
      as (st & w' & ->).
    now eexists _, _.
  - unfold bind, buildEvent. destruct (shouldWritePixel values); now eexists _, _.
Qed.

(** C9. On a POST whose form has no [data] field the raw body is read
    and [ExtractEvent] returns, whatever the length of the body, also
    under five bytes: the slice [ioutil.ReadAll] returns has the
    capacity for [b[:5]].  A body that begins with [data=] sets
    [BadClient] and loses exactly these five bytes; an empty payload
    is answered with 400. *)
Theorem raw_POST_body_read (r : Request) (values : Values) (w : State) (b : slice) :
  ParseForm r = None ->
  Values_Get (Form r) (B "data") = [] ->
  Method r = B "POST" ->
  Body r = (b, None) ->
  ReadAll_slice b ->
  let body := slice_bytes b in
  let flagged := HasPrefix body dataFlag in
  let payload := if flagged then skipn 5 body else body in
  let w0 :=
    if flagged then mkWorld (handler w) (set_BadClient true (context w)) else w in
  (exists res w', ExtractEvent r values w = Ret (res, w')) /\
  readPayload r w
    = Ret (if bytes_Equal payload [] then inr StatusBadRequest else inl payload, w0) /\
  (flagged = true -> body = dataFlag ++ payload /\ BadClient (context w0) = true) /\
  (flagged = false -> payload = body /\ w0 = w) /\
  (payload = [] -> ExtractEvent r values w = Ret ((None, StatusBadRequest), w0)).
Proof.
  intros Hform Hdata Hpost Hbody Hb body flagged payload w0.
  pose proof (readPayload_raw_body r w b Hform Hdata Hpost Hbody Hb) as Hread.
  cbn zeta in Hread. fold body flagged in Hread. fold payload in Hread. fold w0 in Hread.
  split; [eapply ExtractEvent_after_payload; exact Hread|].
  split; [exact Hread|]. split; [|split].
  - intros Hf. subst payload w0. rewrite Hf. split; [|reflexivity].
    now apply (HasPrefix_app body dataFlag).
  - intros Hf. subst payload w0. now rewrite Hf.
  - intros Hnil. unfold ExtractEvent. unfold bind at 1. unfold get at 1.
    unfold bind at 1. rewrite Hread, Hnil. reflexivity.
Qed.

(* ================================================================= *)
(** ** [serve]: the pixel and the status *)

Lemma Header_Get_Del_other (h : Header) (key other : bytes) :
  key <> other -> Header_Get (Header_Del h other) key = Header_Get h key.
Proof.
  intros Hne. induction h as [|[k v] h IH]; [reflexivity|].
  unfold Header_Del in *. cbn [filter fst].
  destruct (bytes_Equal k other) eqn:Eo; cbn [negb].
  - apply bytes_Equal_eq in Eo. subst k. cbn [Header_Get].
    replace (bytes_Equal other key) with false; [exact IH|].
    symmetry. apply bytes_Equal_neq. congruence.
  - cbn [Header_Get]. now rewrite IH.
Qed.

Lemma Header_Get_Del (h : Header) (key : bytes) (rest : Header) :
  Header_Get (Header_Del h key ++ rest) key = Header_Get rest key.
Proof.
  induction h as [|[k v] h IH]; [reflexivity|].
  unfold Header_Del in *. cbn [filter fst].
  destruct (bytes_Equal k key) eqn:Ek; cbn [negb]; [exact IH|].
  cbn [app Header_Get]. now rewrite Ek.
Qed.

Lemma Header_Get_Set (h : Header) (key value : bytes) :
  Header_Get (Header_Set h key value) key = value.
Proof.
  unfold Header_Set. rewrite Header_Get_Del. cbn. now rewrite bytes_Equal_refl.
Qed.

Lemma Header_Get_app_other (h : Header) (key other value : bytes) :
  key <> other -> Header_Get (h ++ [(other, value)]) key = Header_Get h key.
Proof.
  intros Hne. induction h as [|[k v] h IH]; cbn [app Header_Get].
  - replace (bytes_Equal other key) with false; [reflexivity|].
    symmetry. apply bytes_Equal_neq. congruence.
  - now rewrite IH.
Qed.

Lemma Header_Get_Set_other (h : Header) (key other value : bytes) :
  key <> other -> Header_Get (Header_Set h other value) key = Header_Get h key.
Proof.
  intros Hne. unfold Header_Set.
  rewrite Header_Get_app_other by exact Hne. now apply Header_Get_Del_other.
Qed.

(** What [writePixel] leaves in a writer that has written nothing and
    accepts writes. *)
Lemma writePixel_fresh (w : ResponseWriter) :
  wStatus w = None -> wBroken w = false ->
  exists w',
    writePixel w = (w', None) /\
    wStatus w' = Some StatusOK /\
    Header_Get (wHeader w') (B "Content-Type") = B "image/gif" /\
    Header_Get (wHeader w') (B "Cache-Control") = B "no-cache, max-age=0" /\
    wBody w' = wBody w ++ transparentPixel.
Proof.
  intros Hs Hb. unfold writePixel, Write, WriteHeader, setHeader.
  cbn [wHeader wStatus wBody wBroken]. rewrite Hs. cbn [wHeader wStatus wBody wBroken].
  rewrite Hb. eexists. split; [reflexivity|]. cbn [wHeader wStatus wBody wBroken].
  repeat split.
  - rewrite Header_Get_Set_other by discriminate. apply Header_Get_Set.
  - apply Header_Get_Set.
Qed.

Lemma splitLoop_status (events : list bytes) (clientIP : IP) (xff ua : bytes)
    (acc acc' : Z * Z * Z) (w w' : State) :
  splitLoop events clientIP xff ua acc w = Ret (acc', w') ->
  fst (fst acc') = fst (fst acc) \/ fst (fst acc') = StatusRequestEntityTooLarge.
Proof.
  revert acc w. induction events as [|el rest IH]; intros [[sc ok] ko] w.
  - cbn [splitLoop]. unfold ret. intros E. injection E as <- _. now left.
  - cbn [splitLoop]. unfold bind at 1.
    destruct (writeElement_returns (Base64.EncodeToString el) clientIP xff ua w)
      as (err & w1 & ->).
    destruct err; intros E; apply IH in E;
      cbn [fst] in *;
      destruct (len (Base64.EncodeToString el) >? maxBytesPerRequest);
      destruct E as [E|E]; rewrite E; auto.
Qed.

Lemma readPayload_returns (r : Request) (w : State) :
  ReadAll_slice (fst (Body r)) ->
  exists payload w0,
    readPayload r w = Ret (payload, w0) /\
    (forall status, payload = inr status -> is2xx status = false).
Proof.
  intros Hb. unfold readPayload.
  destruct (ParseForm r) as [err|].
  { destruct (bytes_Equal err largeBodyErrorString); eexists _, _;
      (split; [reflexivity|]); intros st E; injection E as <-; reflexivity. }
  destruct (bytes_Equal (Values_Get (Form r) (B "data")) [] && bytes_Equal (Method r) (B "POST"))
    eqn:Hraw.
  - destruct (Body r) as [b [msg|]] eqn:Hbody; cbn [fst] in Hb.
    + destruct (bytes_Equal msg largeBodyErrorString);
        [|destruct (HasSuffix msg (B "i/o timeout"))];
        eexists _, _; (split; [reflexivity|]); intros st E; injection E as <-; reflexivity.
    + destruct (ReadAll_slice_head b Hb) as (head & Hhead & Heq).
      run_monad. rewrite Hhead. cbn zeta. rewrite Heq.
      destruct (HasPrefix (slice_bytes b) dataFlag) eqn:Hp.
      * destruct (slice_from_prefix b Hp) as (b' & -> & ->).
        destruct (bytes_Equal (skipn 5 (slice_bytes b)) []); eexists _, _;
          (split; [reflexivity|]); intros st E; try discriminate E;
          injection E as <-; reflexivity.
      * destruct (bytes_Equal (slice_bytes b) []); eexists _, _;
          (split; [reflexivity|]); intros st E; try discriminate E;
          injection E as <-; reflexivity.
  - run_monad.
    destruct (bytes_Equal (Values_Get (Form r) (B "data")) []); eexists _, _;
      (split; [reflexivity|]); intros st E; try discriminate E;
      injection E as <-; reflexivity.
Qed.

(** The status of a tracking request: a 2xx status without the pixel
    is 204. *)
Lemma handleSpadeRequests_returns (r : Request) (values : Values) (w : State) :
  ReadAll_slice (fst (Body r)) ->
  exists status w',
    handleSpadeRequests r values w = Ret (status, w') /\
    (shouldWritePixel values = false -> is2xx status = true -> status = StatusNoContent).
Proof.
  intros Hb. destruct (readPayload_returns r w Hb) as (payload & w0 & Hread & Hst).
  unfold handleSpadeRequests, ExtractEvent.
  unfold bind at 1. unfold bind at 1. unfold get at 1. unfold bind at 1. rewrite Hread.
  destruct payload as [data|st].
  - destruct (len data >? maxBytesPerRequest).
    + destruct (negb (handleLargeEvents (handler w))).
      { unfold ret. eexists _, _. split; [reflexivity|]. intros _ H2; discriminate H2. }
      unfold splitLargeEvent.
      destruct (DecodeInPlace data) as [[n bData]|];
        [|unfold ret; eexists _, _; split; [reflexivity|]; intros _ H2; discriminate H2].
      destruct (_ || _);
        [unfold ret; eexists _, _; split; [reflexivity|]; intros _ H2; discriminate H2|].
      destruct (Unmarshal _) as [events|];
        [|unfold ret; eexists _, _; split; [reflexivity|]; intros _ H2; discriminate H2].
      unfold bind at 1.
      destruct (splitLoop_returns events
                  (parseLastForwarder (HeaderGet r (IPHeader (context w))))
                  (HeaderGet r (IPHeader (context w))) (requestUserAgent r values)
                  (StatusNoContent, 0, 0) w0) as ([[sc ok] ko] & w' & Hloop).
      rewrite Hloop. apply splitLoop_status in Hloop. cbn [fst] in Hloop.
      destruct (ok =? 0); unfold ret; eexists _, _; (split; [reflexivity|]);
        intros _ H2; [discriminate H2|].
      destruct Hloop as [->| ->]; [reflexivity | discriminate H2].
    + unfold bind at 1. unfold buildEvent at 1.
      destruct (shouldWritePixel values) eqn:Hpx; unfold ret at 1;
        unfold bind; rewrite log_returns;
        destruct (snd (EdgeLoggers_log _ _ _)); unfold ret; eexists _, _;
        (split; [reflexivity|]); intros Hx H2; try discriminate; reflexivity.
  - unfold ret. eexists _, _. split; [reflexivity|].
    intros _ H2. rewrite (Hst st eq_refl) in H2. discriminate.
Qed.

Lemma isTrackPath_dispatch (path : bytes) :
  isTrackPath path = true ->
  bytes_Equal path (B "/crossdomain.xml") = false /\
  bytes_Equal path (B "/robots.txt") = false /\
  bytes_Equal path (B "/healthcheck") = false /\
  bytes_Equal path (B "/xarth") = false.
Proof.
  unfold isTrackPath. intros Ht.
  apply orb_true_iff in Ht as [Ht|Ht]; [apply orb_true_iff in Ht as [Ht|Ht]|];
    apply bytes_Equal_eq in Ht; subst path; repeat split; reflexivity.
Qed.

(** C4, as amended. On a tracking endpoint, a request whose [img]
    parameter is [1] is answered, when the write goes through, with
    status 200, [Content-Type: image/gif],
    [Cache-Control: no-cache, max-age=0] and the transparent GIF as the
    body, which is 42 bytes long and begins with [47 49 46 38 39 61];
    a request without it that is answered with a 2xx status is
    answered with 204. *)
Theorem pixel_or_no_content (w : ResponseWriter) (r : Request) (st : State) :
  isTrackPath (servePath r) = true ->
  ReadAll_slice (fst (Body r)) ->
  wStatus w = None ->
  wBroken w = false ->
  (shouldWritePixel (URLQuery r) = true ->
   exists w' st',
     serve w r st = Ret ((StatusOK, w'), st') /\
     wStatus w' = Some StatusOK /\
     Header_Get (wHeader w') (B "Content-Type") = B "image/gif" /\
     Header_Get (wHeader w') (B "Cache-Control") = B "no-cache, max-age=0" /\
     wBody w' = wBody w ++ transparentPixel) /\
  (shouldWritePixel (URLQuery r) = false ->
   exists status w' st',
     serve w r st = Ret ((status, w'), st') /\
     wStatus w' = Some status /\
     wBody w' = wBody w /\
     (is2xx status = true -> status = StatusNoContent)) /\
  len transparentPixel = 42 /\
  firstn 6 transparentPixel = B "GIF89a" /\
  map nat_of_ascii (B "GIF89a") = [71; 73; 70; 56; 57; 97]%nat.
Proof.
  intros Hpath Hb Hs Hbr.
  destruct (isTrackPath_dispatch _ Hpath) as (Hc & Hr & Hh & Hx).
  destruct (handleSpadeRequests_returns r (URLQuery r) st Hb) as (status & st' & Hrun & H2xx).
  repeat split; try reflexivity.
  - intros Hpx. destruct (writePixel_fresh w Hs Hbr) as (w' & Hw & Hst & Hct & Hcc & Hbody).
    exists w', st'. unfold serve. cbn zeta. rewrite Hc, Hr, Hh, Hx, Hpath.
    unfold bind. rewrite Hrun, Hpx, Hw. repeat split; assumption.
  - intros Hpx. exists status, (WriteHeader w status), st'.
    unfold serve. cbn zeta. rewrite Hc, Hr, Hh, Hx, Hpath.
    unfold bind. rewrite Hrun, Hpx. unfold ret. split; [reflexivity|].
    unfold WriteHeader. rewrite Hs. cbn [wStatus wBody]. repeat split.
    now apply H2xx.
Qed.

(* ================================================================= *)
(** ** [ExtractEvent]: the large request *)

Lemma successes_nonneg (outcomes : list (option error)) : 0 <= successes outcomes.
Proof. unfold successes. lia. Qed.

Lemma successes_cons (o : option error) (outcomes : list (option error)) :
  successes (o :: outcomes)
  = (match o with None => 1 | Some _ => 0 end) + successes outcomes.
Proof. unfold successes. destruct o; cbn [filter List.length]; lia. Qed.

(** The loop counts the elements written and keeps 413 once an
    element is oversize. *)
Lemma splitLoop_counts (events : list bytes) (clientIP : IP) (xff ua : bytes)
    (sc ok ko : Z) (w : State) :
  exists ko' w',
    splitLoop events clientIP xff ua (sc, ok, ko) w
      = Ret ((if existsb oversize events then StatusRequestEntityTooLarge else sc,
              ok + successes (splitOutcomes events clientIP xff ua w), ko'), w') /\
    List.length (splitOutcomes events clientIP xff ua w) = List.length events.
Proof.
  revert sc ok ko w. induction events as [|el rest IH]; intros sc ok ko w.
  - exists ko, w. cbn [splitLoop splitOutcomes existsb]. unfold ret.
    split; [|reflexivity]. replace (ok + successes []) with ok; [reflexivity|].
    unfold successes. cbn. lia.
  - cbn [splitLoop splitOutcomes existsb]. unfold bind at 1.
    destruct (writeElement_returns (Base64.EncodeToString el) clientIP xff ua w)
      as (err & w1 & ->).
    fold (oversize el). rewrite successes_cons. cbn [List.length].
    destruct err as [msg|].
    + destruct (IH (if oversize el then StatusRequestEntityTooLarge else sc) ok (ko + 1) w1)
        as (ko' & w' & -> & Hlen).
      exists ko', w'. rewrite Hlen.
      split; [|reflexivity]. destruct (oversize el); cbn [orb];
        [destruct (existsb oversize rest)|]; reflexivity.
    + destruct (IH (if oversize el then StatusRequestEntityTooLarge else sc) (ok + 1) ko w1)
        as (ko' & w' & -> & Hlen).
      exists ko', w'. rewrite Hlen.
      split; [|reflexivity]. rewrite Z.add_assoc.
      destruct (oversize el); cbn [orb];
        [destruct (existsb oversize rest)|]; reflexivity.
Qed.

(** Reading the payload leaves the handler and the attempts as they
    were. *)
Lemma readPayload_handler (r : Request) (w w0 : State) (payload : bytes + Z) :
  readPayload r w = Ret (payload, w0) ->
  handler w0 = handler w /\ Attempts (context w0) = Attempts (context w).
Proof.
  unfold readPayload. destruct (ParseForm r) as [err|].
  { destruct (bytes_Equal err largeBodyErrorString); unfold ret; intros E;
      injection E as _ <-; now split. }
  run_monad.
  destruct (bytes_Equal (Values_Get (Form r) (B "data")) [] && bytes_Equal (Method r) (B "POST")).
  - destruct (Body r) as [b [msg|]].
    + destruct (bytes_Equal msg largeBodyErrorString);
        [|destruct (HasSuffix msg (B "i/o timeout"))];
        intros E; injection E as _ <-; now split.
    + destruct (slice_to b 5) as [head|]; [|discriminate].
      destruct (bytes_Equal (slice_bytes head) dataFlag).
      * destruct (slice_from b 5) as [b'|]; [|discriminate].
        destruct (bytes_Equal (slice_bytes b') []); intros E;
          injection E as _ <-; now split.
      * destruct (bytes_Equal (slice_bytes b) []); intros E;
          injection E as _ <-; now split.
  - destruct (bytes_Equal (Values_Get (Form r) (B "data")) []); intros E;
      injection E as _ <-; now split.
Qed.

(** A large payload that decodes to an array: [ExtractEvent] is the
    loop over the elements, and its status is 500 when the loop wrote
    no element. *)
Lemma ExtractEvent_large (r : Request) (values : Values) (w w0 w' : State) (data : bytes)
    (n : Z) (bData : bytes) (events : list bytes) (sc ok ko : Z) :
  readPayload r w = Ret (inl data, w0) ->
  maxBytesPerRequest < len data ->
  handleLargeEvents (handler w) = true ->
  DecodeInPlace data = Some (n, bData) ->
  1 <= n ->
  firstn 2 bData = B "[{" ->
  Unmarshal (firstn (Z.to_nat n) bData) = Some events ->
  splitLoop events (parseLastForwarder (HeaderGet r (IPHeader (context w))))
    (HeaderGet r (IPHeader (context w))) (requestUserAgent r values)
    (StatusNoContent, 0, 0) w0 = Ret ((sc, ok, ko), w') ->
  ExtractEvent r values w
    = Ret ((None, if ok =? 0 then StatusInternalServerError else sc), w').
Proof.
  intros Hread Hlen Hon Hdec Hn Hhead Hjson Hloop.
  assert ((len data >? maxBytesPerRequest) = true) as Hgt by (apply Z.gtb_lt; lia).
  unfold ExtractEvent. unfold bind at 1. unfold get at 1. unfold bind at 1.
  rewrite Hread, Hgt, Hon. cbn [negb].
  unfold splitLargeEvent. rewrite Hdec.
  replace (n <? 1) with false by (symmetry; apply Z.ltb_ge; lia).
  rewrite Hhead, bytes_Equal_refl. cbn [negb orb]. rewrite Hjson.
  unfold bind. rewrite Hloop.
  destruct (ok =? 0); reflexivity.
Qed.


(* ================================================================= *)
(** ** Further properties of the handler *)

(** [truncate] with a bound that is not negative returns the first
    [max] bytes of the string, the whole string when it is shorter,
    and truncating again changes nothing; with a negative bound it
    panics on every string. *)
Theorem truncate_prefix (s : bytes) (max : Z) :
  (0 <= max ->
   exists t,
     truncate s max = Ret t /\
     len t = Z.min (len s) max /\
     s = t ++ skipn (Z.to_nat max) s /\
     truncate t max = Ret t) /\
  (max < 0 -> truncate s max = Panic "slice bounds out of range").
Proof.
  unfold truncate. split.
  - intros Hmax. destruct (len s >? max) eqn:Hlen.
    + rewrite Z.gtb_ltb in Hlen. apply Z.ltb_lt in Hlen.
      replace (0 <=? max) with true by (symmetry; apply Z.leb_le; exact Hmax).
      exists (firstn (Z.to_nat max) s).
      assert (len (firstn (Z.to_nat max) s) = max) as Ht.
      { unfold len in *. rewrite length_firstn. lia. }
      split; [reflexivity|]. split; [rewrite Ht; lia|].
      split; [symmetry; apply firstn_skipn|].
      rewrite Ht. now rewrite Z.gtb_ltb, Z.ltb_irrefl.
    + rewrite Z.gtb_ltb in Hlen. apply Z.ltb_ge in Hlen.
      exists s. split; [reflexivity|]. split; [lia|]. split.
      * rewrite skipn_all2; [now rewrite app_nil_r|]. unfold len in Hlen. lia.
      * replace (len s >? max) with false; [reflexivity|].
        symmetry. rewrite Z.gtb_ltb. now apply Z.ltb_ge.
  - intros Hneg.
    replace (len s >? max) with true
      by (symmetry; apply Z.gtb_lt; unfold len; lia).
    replace (0 <=? max) with false by (symmetry; apply Z.leb_gt; exact Hneg).
    reflexivity.
Qed.

Lemma Replace_without (s : bytes) (old new : ascii) :
  old <> new -> ~ In old (Replace s old new).
Proof.
  intros Hne Hin. unfold Replace in Hin. apply in_map_iff in Hin as (c & Hc & _).
  destruct (Ascii.eqb c old) eqn:E.
  - now subst new.
  - subst c. now rewrite Ascii.eqb_refl in E.
Qed.

Lemma Replace_keeps_out (s : bytes) (old new c : ascii) :
  c <> new -> ~ In c s -> ~ In c (Replace s old new).
Proof.
  intros Hne Hs Hin. unfold Replace in Hin. apply in_map_iff in Hin as (x & Hx & Hin).
  destruct (Ascii.eqb x old); [now subst new | now subst x].
Qed.

Lemma Replace_length (s : bytes) (old new : ascii) :
  List.length (Replace s old new) = List.length s.
Proof. apply length_map. Qed.

(** The first element of [Split] is free of the separator and no
    longer than the text. *)
Lemma Split_head (s : bytes) (sep : ascii) :
  ~ In sep (hd [] (Split s sep)) /\
  (List.length (hd [] (Split s sep)) <= List.length s)%nat.
Proof.
  induction s as [|c s [IHin IHlen]]; [split; [intros []|cbn; lia]|].
  cbn [Split]. destruct (Ascii.eqb c sep) eqn:E.
  - split; [intros []|cbn; lia].
  - destruct (Split s sep) as [|tok toks]; cbn [hd] in *.
    + split; [|cbn; lia]. intros [Hc|[]]. subst c. now rewrite Ascii.eqb_refl in E.
    + split; [|cbn [List.length]; lia].
      intros [Hc|Hin]; [subst c; now rewrite Ascii.eqb_refl in E | now apply IHin].
Qed.

(** The value of a host in a metric name holds neither a dot nor a
    colon, whatever the host: it is one segment of a statsd key.  An
    empty host gives an empty value. *)
Theorem sanitizeHostValue_segment (host : bytes) :
  ~ In "."%char (sanitizeHostValue host) /\
  ~ In ":"%char (sanitizeHostValue host) /\
  (len (sanitizeHostValue host) <= len (ToLower (TrimSpace host))) /\
  sanitizeHostValue [] = [].
Proof.
  split; [|split; [|split; [|reflexivity]]]; unfold sanitizeHostValue;
    destruct (bytes_Equal host []).
  - intros [].
  - apply Replace_without. discriminate.
  - intros [].
  - apply Replace_keeps_out; [discriminate|].
    apply (Split_head (ToLower (TrimSpace host)) ":"%char).
  - unfold len. cbn [List.length]. lia.
  - unfold len. rewrite Replace_length.
    pose proof (proj2 (Split_head (ToLower (TrimSpace host)) ":"%char)). lia.
Qed.

Lemma Split_nonempty (s : bytes) (sep : ascii) : Split s sep <> [].
Proof.
  destruct s as [|c s]; cbn; [discriminate|].
  destruct (Ascii.eqb c sep); [discriminate|].
  destruct (Split s sep); discriminate.
Qed.

Lemma Join_cons (e e' : bytes) (rest : list bytes) (sep : bytes) :
  Join (e :: e' :: rest) sep = e ++ sep ++ Join (e' :: rest) sep.
Proof. reflexivity. Qed.

Lemma Join_Split (s : bytes) (sep : ascii) : Join (Split s sep) [sep] = s.
Proof.
  induction s as [|c s IH]; [reflexivity|]. cbn [Split].
  destruct (Split s sep) as [|tok toks] eqn:Es; [now apply Split_nonempty in Es|].
  destruct (Ascii.eqb c sep) eqn:E.
  - apply Ascii.eqb_eq in E. subst c. rewrite Join_cons, IH. reflexivity.
  - rewrite <- IH. now destruct toks.
Qed.

Lemma Split_tokens (s : bytes) (sep : ascii) :
  Forall (fun tok => ~ In sep tok) (Split s sep).
Proof.
  induction s as [|c s IH]; cbn [Split]; [repeat constructor; intros []|].
  destruct (Ascii.eqb c sep) eqn:E.
  - constructor; [intros []|exact IH].
  - destruct (Split s sep) as [|tok toks]; [repeat constructor|].
    + intros [Hc|[]]. subst c. now rewrite Ascii.eqb_refl in E.
    + inversion IH as [|? ? Htok Htoks]; subst. constructor; [|exact Htoks].
      intros [Hc|Hin]; [subst c; now rewrite Ascii.eqb_refl in E | now apply Htok].
Qed.

Lemma Split_length (s : bytes) (sep : ascii) :
  List.length (Split s sep) = S (count_occ ascii_dec s sep).
Proof.
  induction s as [|c s IH]; [reflexivity|]. cbn [Split count_occ].
  destruct (ascii_dec c sep) as [->|Hne].
  - rewrite Ascii.eqb_refl. cbn [List.length]. now rewrite IH.
  - replace (Ascii.eqb c sep) with false by (symmetry; now apply Ascii.eqb_neq).
    destruct (Split s sep) as [|tok toks]; [discriminate IH|exact IH].
Qed.

(** The list of brokers is never empty, not even for the empty flag,
    which gives the one broker [""]; it has one broker more than the
    flag has commas, no broker holds a comma, and joining the brokers
    with commas gives the flag back. *)
Theorem ParseBrokerList_round_trip (csv : bytes) :
  Join (ParseBrokerList csv) (B ",") = csv /\
  List.length (ParseBrokerList csv) = S (count_occ ascii_dec csv ","%char) /\
  Forall (fun broker => ~ In ","%char broker) (ParseBrokerList csv) /\
  ParseBrokerList [] = [[]].
Proof.
  unfold ParseBrokerList. split; [apply Join_Split|].
  split; [apply Split_length|]. split; [apply Split_tokens | reflexivity].
Qed.

(* ================================================================= *)
(** ** The size of an encoded element *)

Lemma EncodeToString_len (src : bytes) :
  len (Base64.EncodeToString src) = 4 * ((len src + 2) / 3).
Proof.
  induction src as [| x | x y | x y z rest IH] using bytes_ind3.
  - reflexivity.
  - now destruct x.
  - now destruct x, y.
  - destruct x, y, z.
    change (Base64.EncodeToString (_ :: _ :: _ :: rest))
      with (Base64.enc6 (b6, b5, b4, b3, b2, b1) :: Base64.enc6 (b0, b, b14, b13, b12, b11)
              :: Base64.enc6 (b10, b9, b8, b7, b22, b21)
              :: Base64.enc6 (b20, b19, b18, b17, b16, b15)
              :: Base64.EncodeToString rest).
    unfold len in *. cbn [List.length].
    rewrite !Nat2Z.inj_succ. rewrite IH.
    replace (Z.succ (Z.succ (Z.succ (Z.of_nat (List.length rest)))) + 2)
      with (Z.of_nat (List.length rest) + 2 + 1 * 3) by lia.
    rewrite Z.div_add by lia. lia.
Qed.

Lemma oversize_len (element : bytes) : oversize element = (len element >? 384000).
Proof.
  unfold oversize, maxBytesPerRequest. rewrite EncodeToString_len.
  pose proof (Z.div_mod (len element + 2) 3 ltac:(lia)) as Hdiv.
  pose proof (Z.mod_pos_bound (len element + 2) 3 ltac:(lia)) as Hmod.
  destruct (len element >? 384000) eqn:E.
  - rewrite Z.gtb_ltb in E. apply Z.ltb_lt in E. apply Z.gtb_lt. lia.
  - rewrite Z.gtb_ltb in E. apply Z.ltb_ge in E. rewrite Z.gtb_ltb. apply Z.ltb_ge. lia.
Qed.

Lemma existsb_oversize (elements : list bytes) :
  existsb oversize elements = existsb (fun element => len element >? 384000) elements.
Proof.
  induction elements as [|el rest IH]; [reflexivity|].
  cbn [existsb]. now rewrite IH, oversize_len.
Qed.

(** The loop over the elements of a large request ends with the
    status code 413 exactly when one of the elements is longer than
    384000 bytes, and with the code it began with otherwise, whatever
    the loggers do: the size the loop checks is that of the base64 of
    the element, four bytes for every three. *)
Theorem oversize_threshold (elements : list bytes) (clientIP : IP) (xff ua : bytes)
    (sc ok ko : Z) (w : State) :
  exists ok' ko' w',
    splitLoop elements clientIP xff ua (sc, ok, ko) w
      = Ret ((if existsb (fun element => len element >? 384000) elements
              then StatusRequestEntityTooLarge else sc, ok', ko'), w') /\
    forall element,
      len (Base64.EncodeToString element) = 4 * ((len element + 2) / 3) /\
      (len (Base64.EncodeToString element) >? maxBytesPerRequest) = (len element >? 384000).
Proof.
  destruct (splitLoop_counts elements clientIP xff ua sc ok ko w) as (ko' & w' & Hloop & _).
  rewrite existsb_oversize in Hloop.
  eexists _, ko', w'. split; [exact Hloop|].
  intros element. split; [apply EncodeToString_len | apply oversize_len].
Qed.

(* ================================================================= *)
(** ** The uuid: its fields and its width *)

Lemma last_field_both (a1 a2 f1 f2 : bytes) :
  ~ In "-"%char f1 -> ~ In "-"%char f2 ->
  a1 ++ "-"%char :: f1 = a2 ++ "-"%char :: f2 -> a1 = a2 /\ f1 = f2.
Proof.
  intros H1 H2 E. assert (f1 = f2) as Hf by exact (last_field_eq a1 a2 f1 f2 H1 H2 E).
  subst f2. split; [|reflexivity]. now apply app_inv_tail in E.
Qed.

Lemma fmt_08x_int_nonneg (z : Z) : 0 <= z -> fmt_08x_int z = fmt_08x_uint (Z.to_N z).
Proof. destruct z; [reflexivity | reflexivity | lia]. Qed.

Lemma uuidOf_fields (i1 i2 : bytes) (t1 t2 : Time) (c1 c2 : N) :
  0 <= Unix t1 -> 0 <= Unix t2 ->
  uuidOf i1 t1 c1 = uuidOf i2 t2 c2 ->
  i1 = i2 /\ Unix t1 = Unix t2 /\ c1 = c2.
Proof.
  intros Ht1 Ht2. unfold uuidOf, B. simpl list_ascii_of_string.
  rewrite !fmt_08x_int_nonneg by assumption. intros E.
  assert (forall a f : bytes, (a ++ ["-"%char]) ++ f = a ++ "-"%char :: f) as Hdash
    by (intros; now rewrite <- app_assoc).
  rewrite !app_assoc, !Hdash in E.
  apply last_field_both in E as [E Ec];
    try apply digits_no_dash, fmt_08x_uint_digits.
  apply last_field_both in E as [Ei Et];
    try apply digits_no_dash, fmt_08x_uint_digits.
  apply fmt_08x_uint_inj in Ec, Et. repeat split; try assumption. lia.
Qed.

(** With clocks after 1970, a uuid gives its three fields back: two
    events with the same uuid come from handlers with the same
    instance id, were built in the same second and carry the same
    counter.  Events of handlers with different instance ids never
    share a uuid. *)
Theorem uuid_determines_fields (w1 w2 w1' w2' : State) (e1 e2 : Event)
    (d1 d2 : bytes) (ip1 ip2 : IP) (x1 x2 u1 u2 : bytes) :
  buildEvent d1 ip1 x1 u1 w1 = Ret (e1, w1') ->
  buildEvent d2 ip2 x2 u2 w2 = Ret (e2, w2') ->
  0 <= Unix (Now (context w1)) ->
  0 <= Unix (Now (context w2)) ->
  Uuid e1 = Uuid e2 ->
  instanceID (handler w1) = instanceID (handler w2) /\
  Unix (ReceivedAt e1) = Unix (ReceivedAt e2) /\
  eventCount (handler w1') = eventCount (handler w2').
Proof.
  unfold buildEvent. intros E1 E2 Ht1 Ht2.
  injection E1 as <- <-. injection E2 as <- <-.
  cbn [Uuid ReceivedAt handler eventCount set_eventCount].
  now apply uuidOf_fields.
Qed.

Lemma of_pos_length_le :
  forall (p : positive) (rest : string) (k : nat),
    (N.pos p < 16 ^ N.of_nat k)%N ->
    (List.length (list_ascii_of_string (HexString.Raw.of_pos p rest))
     <= k + List.length (list_ascii_of_string rest))%nat.
Proof.
  fix IH 1. intros p rest [|k] Hp; [cbn in Hp; lia|].
  rewrite Nat2N.inj_succ, N.pow_succ_r' in Hp.
  do 4 try destruct p as [p|p|]; cbn [HexString.Raw.of_pos];
    first [ cbn [list_ascii_of_string List.length]; lia
          | etransitivity; [apply (IH p _ k); lia|];
            cbn [list_ascii_of_string List.length]; lia ].
Qed.

Lemma of_pos_length_ge :
  forall (p : positive) (rest : string) (k : nat),
    (16 ^ N.of_nat k <= N.pos p)%N ->
    (S k + List.length (list_ascii_of_string rest)
     <= List.length (list_ascii_of_string (HexString.Raw.of_pos p rest)))%nat.
Proof.
  fix IH 1. intros p rest [|k] Hp.
  - clear Hp.
    do 4 try destruct p as [p|p|]; cbn [HexString.Raw.of_pos];
      first [ cbn [list_ascii_of_string List.length]; lia
            | etransitivity; [|apply (IH p _ 0%nat); cbn; lia];
              cbn [list_ascii_of_string List.length]; lia ].
  - rewrite Nat2N.inj_succ, N.pow_succ_r' in Hp.
    assert (1 <= 16 ^ N.of_nat k)%N as Hpow
      by (pose proof (N.pow_nonzero 16 (N.of_nat k) ltac:(lia)); lia).
    do 4 try destruct p as [p|p|]; cbn [HexString.Raw.of_pos];
      first [ lia
            | etransitivity; [|apply (IH p _ k); lia];
              cbn [list_ascii_of_string List.length]; lia ].
Qed.

Lemma fmt_08x_uint_width (n : N) :
  (n < 2 ^ 32)%N <-> List.length (fmt_08x_uint n) = 8%nat.
Proof.
  unfold fmt_08x_uint, pad0. rewrite length_app, repeat_length.
  change (2 ^ 32)%N with (16 ^ N.of_nat 8)%N.
  destruct n as [|p]; [cbn; split; [reflexivity | intros _; lia]|].
  unfold hex, B. split.
  - intros Hp. pose proof (of_pos_length_le p "" 8 Hp) as Hle. cbn in Hle. lia.
  - intros Hlen. destruct (N.lt_ge_cases (N.pos p) (16 ^ N.of_nat 8)) as [Hlt|Hge];
      [exact Hlt|].
    pose proof (of_pos_length_ge p "" 8 Hge) as Hge'. cbn in Hge'. lia.
Qed.

(** While the counter of the handler is under [2^32] and the clock
    between 1970 and 2106, the uuid of an event is the instance id
    and 18 bytes: two dashes and two fields of eight digits.  The
    counter field has eight digits exactly as long as the counter is
    under [2^32]; after that the uuid is longer. *)
Theorem uuid_width (w w' : State) (event : Event) (data : bytes) (ip : IP) (xff ua : bytes) :
  buildEvent data ip xff ua w = Ret (event, w') ->
  0 <= Unix (Now (context w)) < 2 ^ 32 ->
  ((eventCount (handler w') < 2 ^ 32)%N <->
   len (Uuid event) = len (instanceID (handler w)) + 18).
Proof.
  unfold buildEvent. intros E [Hlo Hhi]. injection E as <- <-.
  cbn [Uuid handler eventCount set_eventCount]. unfold uuidOf.
  rewrite fmt_08x_int_nonneg by exact Hlo.
  assert (List.length (fmt_08x_uint (Z.to_N (Unix (Now (context w))))) = 8%nat) as Ht.
  { apply fmt_08x_uint_width. change (2 ^ 32)%N with (Z.to_N (2 ^ 32)). lia. }
  rewrite (fmt_08x_uint_width (uint64_add (eventCount (handler w)) 1)).
  unfold len. rewrite !length_app, Ht. cbn [B list_ascii_of_string List.length]. lia.
Qed.

(* ================================================================= *)
(** ** [ExtractEvent]: what it reads and what it builds *)

Lemma HasPrefix_app_self (prefix rest : bytes) : HasPrefix (prefix ++ rest) prefix = true.
Proof.
  induction prefix as [|p prefix IH]; [reflexivity|].
  cbn [app HasPrefix]. now rewrite Ascii.eqb_refl, IH.
Qed.

Lemma slice_head_prefix (b head b' : slice) :
  slice_to b 5 = Ret head ->
  bytes_Equal (slice_bytes head) dataFlag = true ->
  slice_from b 5 = Ret b' ->
  HasPrefix (slice_bytes b) dataFlag = true /\ slice_bytes b' = skipn 5 (slice_bytes b).
Proof.
  unfold slice_to, slice_from, slice_bytes.
  destruct (5 <=? cap b)%nat; [|discriminate]. intros E. injection E as <-.
  cbn [arr slen]. intros Heq. apply bytes_Equal_eq in Heq.
  destruct (5 <=? slen b)%nat eqn:Hlen; [|discriminate]. intros E. injection E as <-.
  apply Nat.leb_le in Hlen. cbn [arr slen]. split.
  - rewrite <- (firstn_skipn 5 (arr b)), Heq.
    rewrite firstn_app. replace (firstn (slen b) dataFlag) with dataFlag.
    + apply HasPrefix_app_self.
    + symmetry. apply firstn_all2. cbn. lia.
  - now rewrite skipn_firstn_comm.
Qed.

(** Every way [readPayload] returns: the state is untouched, or
    [BadClient] was set on a POST without a [data] field whose body
    begins with [data=]; a payload is not empty; a status is 413, 400
    or 502. *)
Lemma readPayload_cases (r : Request) (w w0 : State) (payload : bytes + Z) :
  readPayload r w = Ret (payload, w0) ->
  (w0 = w \/
   (w0 = mkWorld (handler w) (set_BadClient true (context w)) /\
    Method r = B "POST" /\ Values_Get (Form r) (B "data") = [] /\
    snd (Body r) = None /\ HasPrefix (slice_bytes (fst (Body r))) dataFlag = true)) /\
  (forall data, payload = inl data -> data <> [] /\ ParseForm r = None) /\
  (forall status, payload = inr status ->
     status = StatusRequestEntityTooLarge \/ status = StatusBadRequest \/
     status = StatusBadGateway).
Proof.
  unfold readPayload. destruct (ParseForm r) as [err|].
  { destruct (bytes_Equal err largeBodyErrorString); unfold ret; intros E;
      injection E as <- <-; (split; [now left|]); (split; [discriminate|]);
      intros st Est; injection Est as <-; auto. }
  run_monad.
  destruct (bytes_Equal (Values_Get (Form r) (B "data")) [] && bytes_Equal (Method r) (B "POST"))
    eqn:Hraw.
  - apply andb_true_iff in Hraw as [Hdata Hpost].
    apply bytes_Equal_eq in Hdata, Hpost.
    destruct (Body r) as [b [msg|]] eqn:Hbody.
    + destruct (bytes_Equal msg largeBodyErrorString);
        [|destruct (HasSuffix msg (B "i/o timeout"))];
        intros E; injection E as <- <-; (split; [now left|]); (split; [discriminate|]);
        intros st Est; injection Est as <-; auto.
    + destruct (slice_to b 5) as [head|] eqn:Hhead; [|discriminate].
      destruct (bytes_Equal (slice_bytes head) dataFlag) eqn:Hflag.
      * destruct (slice_from b 5) as [b'|] eqn:Hfrom; [|discriminate].
        destruct (slice_head_prefix b head b' Hhead Hflag Hfrom) as [Hp _].
        destruct (bytes_Equal (slice_bytes b') []) eqn:Hnil; intros E;
          injection E as <- <-;
          (split; [right; cbn [fst snd]; now repeat split|]); split;
          try discriminate.
        -- intros st Est. injection Est as <-. auto.
        -- intros data Ed. injection Ed as <-. split; [|reflexivity].
           now apply bytes_Equal_neq.
      * destruct (bytes_Equal (slice_bytes b) []) eqn:Hnil; intros E;
          injection E as <- <-; (split; [now left|]); split; try discriminate.
        -- intros st Est. injection Est as <-. auto.
        -- intros data Ed. injection Ed as <-. split; [|reflexivity].
           now apply bytes_Equal_neq.
  - destruct (bytes_Equal (Values_Get (Form r) (B "data")) []) eqn:Hnil; intros E;
      injection E as <- <-; (split; [now left|]); split; try discriminate.
    + intros st Est. injection Est as <-. auto.
    + intros data Ed. injection Ed as <-. split; [|reflexivity].
      now apply bytes_Equal_neq.
Qed.

Lemma requestUserAgent_len (r : Request) (values : Values) :
  len (requestUserAgent r values) <= maxUserAgentBytes /\
  (bytes_Equal (Values_Get values (B "ua")) (B "1") = false ->
   requestUserAgent r values = []) /\
  (bytes_Equal (Values_Get values (B "ua")) (B "1") = true ->
   len (HeaderGet r (B "User-Agent")) <= maxUserAgentBytes ->
   requestUserAgent r values = HeaderGet r (B "User-Agent")).
Proof.
  unfold requestUserAgent.
  destruct (bytes_Equal (Values_Get values (B "ua")) (B "1")).
  - destruct (len (HeaderGet r (B "User-Agent")) >? maxUserAgentBytes) eqn:Hlen.
    + repeat split; try discriminate. intros _ Hle.
      rewrite Z.gtb_ltb in Hlen. apply Z.ltb_lt in Hlen. lia.
    + rewrite Z.gtb_ltb in Hlen. apply Z.ltb_ge in Hlen. now repeat split.
  - repeat split; try discriminate.
Qed.

(** An event that [ExtractEvent] hands back carries a payload that
    is not empty and at most 500 KiB long, taken as it came; a user
    agent of at most 1024 bytes, empty unless the query has [ua=1];
    the forwarded-for header as it came, the time of the context and
    the edge type of the handler.  Building it took one value of the
    counter and no logger was called. *)
Theorem extracted_event_fields (r : Request) (values : Values) (w w' : State)
    (event : Event) (status : Z) :
  ExtractEvent r values w = Ret ((Some event, status), w') ->
  Data event <> [] /\
  len (Data event) <= maxBytesPerRequest /\
  len (UserAgent event) <= maxUserAgentBytes /\
  (bytes_Equal (Values_Get values (B "ua")) (B "1") = false -> UserAgent event = []) /\
  XForwardedFor event = HeaderGet r (IPHeader (context w)) /\
  ClientIp event = parseLastForwarder (HeaderGet r (IPHeader (context w))) /\
  ReceivedAt event = Now (context w) /\
  EdgeType event = handlerEdgeType (handler w) /\
  eventCount (handler w') = uint64_add (eventCount (handler w)) 1 /\
  loggers (handler w') = loggers (handler w) /\
  (status = StatusOK \/ status = StatusNoContent).
Proof.
  intros HE.
  destruct (ExtractEvent_event _ _ _ _ _ _ HE) as (data & w0 & Hread & Hlen & Hbuild & ->).
  destruct (readPayload_cases r w w0 _ Hread) as (Hw & Hdata & _).
  destruct (Hdata data eq_refl) as [Hne _].
  destruct (requestUserAgent_len r values) as (Hua & Hnoua & _).
  unfold buildEvent in Hbuild. injection Hbuild as <- <-.
  cbn [Data UserAgent XForwardedFor ClientIp ReceivedAt EdgeType handler context
         eventCount loggers set_eventCount].
  assert (handler w0 = handler w /\ Now (context w0) = Now (context w)) as [Hh Hn].
  { destruct Hw as [->|[-> _]]; split; reflexivity. }
  rewrite Hh, Hn. repeat split; try assumption.
  destruct (shouldWritePixel values); [now left | now right].
Qed.

(** A payload in the [data] field of the form, not empty and at most
    500 KiB long, becomes an event as it is, whatever the method and
    without decoding it; the body of the request is not looked at,
    the context is left as it was, and the status is 200 for the pixel
    and 204 otherwise. *)
Theorem form_data_accepted (r : Request) (values : Values) (w : State) :
  ParseForm r = None ->
  Values_Get (Form r) (B "data") <> [] ->
  len (Values_Get (Form r) (B "data")) <= maxBytesPerRequest ->
  exists event,
    ExtractEvent r values w
      = Ret ((Some event, if shouldWritePixel values then StatusOK else StatusNoContent),
             mkWorld (set_eventCount (uint64_add (eventCount (handler w)) 1) (handler w))
               (context w)) /\
    Data event = Values_Get (Form r) (B "data").
Proof.
  intros Hform Hne Hlen.
  apply bytes_Equal_neq in Hne.
  assert ((len (Values_Get (Form r) (B "data")) >? maxBytesPerRequest) = false) as Hle
    by (rewrite Z.gtb_ltb; apply Z.ltb_ge; exact Hlen).
  unfold ExtractEvent, readPayload. rewrite Hform, Hne. cbn [andb].
  run_monad. rewrite Hne, Hle. unfold buildEvent.
  destruct (shouldWritePixel values); eexists; split; reflexivity.
Qed.

(** A large payload that does not decode, or does not begin with
    [[{] once decoded, or is no JSON array, is answered 413; no event
    is built for it and no logger is called. *)
Theorem malformed_large_payload (r : Request) (values : Values) (w w0 : State)
    (data : bytes) :
  readPayload r w = Ret (inl data, w0) ->
  maxBytesPerRequest < len data ->
  handleLargeEvents (handler w) = true ->
  match DecodeInPlace data with
  | None => True
  | Some (n, bData) =>
      n < 1 \/ firstn 2 bData <> B "[{" \/ Unmarshal (firstn (Z.to_nat n) bData) = None
  end ->
  ExtractEvent r values w = Ret ((None, StatusRequestEntityTooLarge), w0) /\
  handler w0 = handler w.
Proof.
  intros Hread Hlen Hon Hbad.
  assert ((len data >? maxBytesPerRequest) = true) as Hgt by (apply Z.gtb_lt; lia).
  split; [|now apply readPayload_handler in Hread].
  unfold ExtractEvent. unfold bind at 1. unfold get at 1. unfold bind at 1.
  rewrite Hread, Hgt, Hon. cbn [negb]. unfold splitLargeEvent.
  destruct (DecodeInPlace data) as [[n bData]|]; [|reflexivity].
  destruct (n <? 1) eqn:Hn; [reflexivity|]. apply Z.ltb_ge in Hn. cbn [orb].
  destruct (bytes_Equal (firstn 2 bData) (B "[{")) eqn:Hhead; [|reflexivity].
  apply bytes_Equal_eq in Hhead. cbn [negb].
  destruct Hbad as [Hbad|[Hbad|Hbad]]; [lia | contradiction | now rewrite Hbad].
Qed.

Lemma writeElement_count (encEvent : bytes) (clientIP : IP) (xff ua : bytes) (w : State) :
  exists err w',
    writeElement encEvent clientIP xff ua w = Ret (err, w') /\
    eventCount (handler w') = uint64_add (eventCount (handler w)) 1.
Proof.
  unfold writeElement, bind, buildEvent. rewrite log_returns.
  eexists _, _. split; reflexivity.
Qed.

Lemma uint64_add_mod (a : N) (k : nat) :
  ((uint64_add a 1 + N.of_nat k) mod (uint64_max + 1)
   = (a + N.of_nat (S k)) mod (uint64_max + 1))%N.
Proof.
  unfold uint64_add. rewrite N.Div0.add_mod_idemp_l. f_equal. lia.
Qed.

(** The loop over the elements of a large request returns for every
    array; each element counts once, as written or as failed, and
    takes one value of the counter, also when its write fails. *)
Theorem split_loop_accounting (events : list bytes) (clientIP : IP) (xff ua : bytes)
    (sc ok ko : Z) (w : State) :
  exists sc' ok' ko' w',
    splitLoop events clientIP xff ua (sc, ok, ko) w = Ret ((sc', ok', ko'), w') /\
    ok' + ko' = ok + ko + Z.of_nat (List.length events) /\
    ok <= ok' /\ ko <= ko' /\
    (eventCount (handler w') mod (uint64_max + 1)
     = (eventCount (handler w) + N.of_nat (List.length events)) mod (uint64_max + 1))%N.
Proof.
  revert sc ok ko w. induction events as [|el rest IH]; intros sc ok ko w.
  - exists sc, ok, ko, w. cbn [splitLoop List.length]. unfold ret.
    repeat split; try lia. f_equal. lia.
  - cbn [splitLoop]. unfold bind at 1.
    destruct (writeElement_count (Base64.EncodeToString el) clientIP xff ua w)
      as (err & w1 & -> & Hcount).
    destruct err as [msg|];
      [ destruct (IH (if len (Base64.EncodeToString el) >? maxBytesPerRequest
                      then StatusRequestEntityTooLarge else sc) ok (ko + 1) w1)
          as (sc' & ok' & ko' & w' & -> & Hsum & Hok & Hko & Hcnt)
      | destruct (IH (if len (Base64.EncodeToString el) >? maxBytesPerRequest
                      then StatusRequestEntityTooLarge else sc) (ok + 1) ko w1)
          as (sc' & ok' & ko' & w' & -> & Hsum & Hok & Hko & Hcnt) ];
      exists sc', ok', ko', w'; (split; [reflexivity|]);
      cbn [List.length]; rewrite Nat2Z.inj_succ;
      (repeat split; try lia);
      rewrite Hcnt, Hcount; apply uint64_add_mod.
Qed.

Lemma splitLargeEvent_status (data : bytes) (clientIP : IP) (xff ua : bytes)
    (w w' : State) (oe : option Event) (status : Z) :
  splitLargeEvent data clientIP xff ua w = Ret ((oe, status), w') ->
  oe = None /\
  (status = StatusRequestEntityTooLarge \/ status = StatusInternalServerError \/
   status = StatusNoContent).
Proof.
  unfold splitLargeEvent.
  destruct (DecodeInPlace data) as [[n bData]|];
    [|unfold ret; intros E; injection E as <- <- _; auto].
  destruct (_ || _); [unfold ret; intros E; injection E as <- <- _; auto|].
  destruct (Unmarshal _) as [events|];
    [|unfold ret; intros E; injection E as <- <- _; auto].
  unfold bind.
  destruct (splitLoop events clientIP xff ua (StatusNoContent, 0, 0) w)
    as [[[[sc ok] ko] w1]|] eqn:Hloop; [|discriminate].
  apply splitLoop_status in Hloop. cbn [fst] in Hloop.
  destruct (ok =? 0); unfold ret; intros E; injection E as <- <- _;
    (split; [reflexivity|]); [auto|].
  destruct Hloop as [->| ->]; auto.
Qed.

(** A request answered 400 or 502 by [ExtractEvent] built no event
    and called no logger: it took no value of the counter. *)
Theorem rejection_builds_nothing (r : Request) (values : Values) (w w' : State)
    (oe : option Event) (status : Z) :
  ExtractEvent r values w = Ret ((oe, status), w') ->
  status = StatusBadRequest \/ status = StatusBadGateway ->
  oe = None /\ handler w' = handler w.
Proof.
  unfold ExtractEvent. unfold bind at 1. unfold get at 1. unfold bind at 1.
  destruct (readPayload r w) as [[[data|st] w0]|] eqn:Hread; [| |discriminate].
  - destruct (len data >? maxBytesPerRequest).
    + destruct (negb (handleLargeEvents (handler w))).
      * unfold ret. intros E. injection E as <- <- <-. intros [Hs|Hs]; discriminate Hs.
      * intros E. apply splitLargeEvent_status in E as [_ Hst].
        intros [Hs|Hs]; subst status; destruct Hst as [Hst|[Hst|Hst]]; discriminate Hst.
    + unfold bind, buildEvent.
      destruct (shouldWritePixel values); unfold ret; intros E;
        injection E as _ <- _; intros [Hs|Hs]; discriminate Hs.
  - unfold ret. intros E. injection E as <- <- <-. intros _.
    split; [reflexivity|]. now apply readPayload_handler in Hread.
Qed.

(* ================================================================= *)
(** ** What the writes keep *)

Lemma log_frame (event : Event) (w w' : State) (err : option error) :
  log event w = Ret (err, w') ->
  BadClient (context w') = BadClient (context w) /\
  closed (loggers (handler w')) = closed (loggers (handler w)) /\
  eventCount (handler w') = eventCount (handler w) /\
  (closed (loggers (handler w)) = true ->
   err <> None /\ loggers (handler w') = loggers (handler w) /\
   Attempts (context w') = Attempts (context w)).
Proof.
  unfold log, EdgeLoggers_log.
  destruct (closed (loggers (handler w))) eqn:Hc.
  - intros E. injection E as <- <-. cbn. rewrite Hc.
    repeat split. discriminate.
  - destruct (Log (S3EventLogger (loggers (handler w))) event) as [s3 e1].
    destruct (Log (KinesisEventLogger (loggers (handler w))) event) as [kinesis e2].
    destruct e1, e2; intros E; injection E as <- <-; cbn;
      (split; [reflexivity|]); (split; [reflexivity|]); (split; [reflexivity|]);
      discriminate.
Qed.

Lemma writeElement_frame (encEvent : bytes) (clientIP : IP) (xff ua : bytes)
    (w w' : State) (err : option error) :
  writeElement encEvent clientIP xff ua w = Ret (err, w') ->
  BadClient (context w') = BadClient (context w) /\
  closed (loggers (handler w')) = closed (loggers (handler w)) /\
  (closed (loggers (handler w)) = true ->
   err <> None /\ loggers (handler w') = loggers (handler w) /\
   Attempts (context w') = Attempts (context w)).
Proof.
  unfold writeElement, bind, buildEvent. intros E.
  apply log_frame in E as (Hb & Hc & _ & Hclosed).
  cbn [handler context loggers set_eventCount] in *.
  repeat split; try assumption; now apply Hclosed.
Qed.

Lemma splitLoop_frame (events : list bytes) (clientIP : IP) (xff ua : bytes)
    (sc ok ko sc' ok' ko' : Z) (w w' : State) :
  splitLoop events clientIP xff ua (sc, ok, ko) w = Ret ((sc', ok', ko'), w') ->
  BadClient (context w') = BadClient (context w) /\
  (closed (loggers (handler w)) = true ->
   ok' = ok /\ loggers (handler w') = loggers (handler w) /\
   Attempts (context w') = Attempts (context w)).
Proof.
  revert sc ok ko w. induction events as [|el rest IH]; intros sc ok ko w.
  - cbn [splitLoop]. unfold ret. intros E. injection E as <- <- <- <-.
    split; [reflexivity|]. intros _. repeat split.
  - cbn [splitLoop]. unfold bind at 1.
    destruct (writeElement (Base64.EncodeToString el) clientIP xff ua w)
      as [[err w1]|] eqn:Hw; [|discriminate].
    apply writeElement_frame in Hw as (Hb & Hc & Hclosed).
    destruct err as [msg|]; intros E; apply IH in E as [Hb' Hc'];
      (split; [congruence|]); intros Hcl; destruct (Hclosed Hcl) as (Herr & Hl & Ha).
    + rewrite <- Hc in Hcl. destruct (Hc' Hcl) as (-> & Hl' & Ha').
      repeat split; congruence.
    + now contradiction Herr.
Qed.

Lemma splitLargeEvent_frame (data : bytes) (clientIP : IP) (xff ua : bytes)
    (w w' : State) (oe : option Event) (status : Z) :
  splitLargeEvent data clientIP xff ua w = Ret ((oe, status), w') ->
  BadClient (context w') = BadClient (context w) /\
  (closed (loggers (handler w)) = true ->
   is2xx status = false /\ loggers (handler w') = loggers (handler w) /\
   Attempts (context w') = Attempts (context w)).
Proof.
  unfold splitLargeEvent.
  destruct (DecodeInPlace data) as [[n bData]|];
    [|unfold ret; intros E; injection E as <- <- <-; now repeat split].
  destruct (_ || _); [unfold ret; intros E; injection E as <- <- <-; now repeat split|].
  destruct (Unmarshal _) as [events|];
    [|unfold ret; intros E; injection E as <- <- <-; now repeat split].
  unfold bind.
  destruct (splitLoop events clientIP xff ua (StatusNoContent, 0, 0) w)
    as [[[[sc ok] ko] w1]|] eqn:Hloop; [|discriminate].
  apply splitLoop_frame in Hloop as [Hb Hclosed].
  destruct (ok =? 0) eqn:Hok; unfold ret; intros E; injection E as <- <- <-;
    (split; [exact Hb|]); intros Hcl; destruct (Hclosed Hcl) as (-> & Hl & Ha).
  - now repeat split.
  - discriminate Hok.
Qed.

(** What [ExtractEvent] adds to [readPayload]. *)
Lemma ExtractEvent_frame (r : Request) (values : Values) (w w' : State)
    (oe : option Event) (status : Z) :
  ExtractEvent r values w = Ret ((oe, status), w') ->
  exists payload w0,
    readPayload r w = Ret (payload, w0) /\
    BadClient (context w') = BadClient (context w0) /\
    (closed (loggers (handler w)) = true ->
     loggers (handler w') = loggers (handler w) /\
     Attempts (context w') = Attempts (context w) /\
     (oe = None -> is2xx status = false)).
Proof.
  unfold ExtractEvent. unfold bind at 1. unfold get at 1. unfold bind at 1.
  destruct (readPayload r w) as [[payload w0]|] eqn:Hread; [|discriminate].
  intros E. exists payload, w0. split; [reflexivity|].
  destruct (readPayload_handler _ _ _ _ Hread) as [Hh Ha].
  destruct (readPayload_cases _ _ _ _ Hread) as (_ & _ & Hst).
  destruct payload as [data|st].
  - destruct (len data >? maxBytesPerRequest).
    + destruct (negb (handleLargeEvents (handler w))).
      * unfold ret in E. injection E as <- <- <-. split; [reflexivity|].
        intros _. rewrite Hh, Ha. now repeat split.
      * apply splitLargeEvent_frame in E as [Hb Hclosed]. split; [exact Hb|].
        intros Hcl. rewrite <- Hh in Hcl. destruct (Hclosed Hcl) as (H2 & Hl & Hat).
        rewrite Hl, Hat, Hh, Ha. now repeat split.
    + unfold bind, buildEvent in E.
      destruct (shouldWritePixel values); unfold ret in E; injection E as <- <- <-;
        cbn [handler context loggers set_eventCount]; (split; [reflexivity|]);
        intros _; rewrite Hh, Ha; repeat split; discriminate.
  - unfold ret in E. injection E as <- <- <-. split; [reflexivity|].
    intros _. rewrite Hh, Ha. repeat split. intros _.
    destruct (Hst st eq_refl) as [->|[->| ->]]; reflexivity.
Qed.

(** Once the loggers are closed no tracking request is answered with
    a 2xx status, no sink is called and no attempt is recorded. *)
Theorem closed_loggers_refuse (r : Request) (values : Values) (w w' : State) (status : Z) :
  closed (loggers (handler w)) = true ->
  handleSpadeRequests r values w = Ret (status, w') ->
  is2xx status = false /\
  loggers (handler w') = loggers (handler w) /\
  Attempts (context w') = Attempts (context w).
Proof.
  intros Hcl. unfold handleSpadeRequests. unfold bind at 1.
  destruct (ExtractEvent r values w) as [[[oe st] w1]|] eqn:HE; [|discriminate].
  destruct (ExtractEvent_frame _ _ _ _ _ _ HE) as (payload & w0 & _ & _ & Hclosed).
  destruct (Hclosed Hcl) as (Hl & Ha & Hst).
  destruct oe as [event|].
  - unfold bind.
    destruct (log event w1) as [[err w2]|] eqn:Hlog; [|discriminate].
    apply log_frame in Hlog as (_ & _ & _ & Hlc).
    rewrite <- Hl in Hcl. destruct (Hlc Hcl) as (Herr & Hl2 & Ha2).
    destruct err as [msg|]; [|now contradiction Herr].
    unfold ret. intros E. injection E as <- <-.
    rewrite Hl2, Ha2. now repeat split.
  - unfold ret. intros E. injection E as <- <-. repeat split; auto.
Qed.

Lemma HasPrefix_firstn (s prefix : bytes) :
  HasPrefix s prefix = true -> firstn (List.length prefix) s = prefix.
Proof.
  intros Hp. rewrite (HasPrefix_app _ _ Hp) at 1.
  rewrite firstn_app, Nat.sub_diag, firstn_all. cbn [firstn]. apply app_nil_r.
Qed.

(** The payload of a POST whose form has no [data] and whose body was
    read and begins with [data=]. *)
Lemma readPayload_flag (r : Request) (w w0 : State) (payload : bytes + Z) :
  ParseForm r = None ->
  Method r = B "POST" ->
  Values_Get (Form r) (B "data") = [] ->
  snd (Body r) = None ->
  HasPrefix (slice_bytes (fst (Body r))) dataFlag = true ->
  readPayload r w = Ret (payload, w0) ->
  BadClient (context w0) = true.
Proof.
  intros Hform Hpost Hdata Herr Hp.
  unfold readPayload. rewrite Hform, Hpost, Hdata. cbn [bytes_Equal andb].
  change (bytes_Equal (B "POST") (B "POST")) with true. cbn [andb].
  destruct (Body r) as [b err]. cbn [fst snd] in *. subst err. run_monad.
  destruct (slice_to b 5) as [head|] eqn:Hhead; [|discriminate].
  assert (slice_bytes head = dataFlag) as Hflag.
  { unfold slice_to in Hhead. destruct (5 <=? cap b)%nat; [|discriminate].
    injection Hhead as <-. unfold slice_bytes in *. cbn [arr slen].
    pose proof (HasPrefix_length _ _ Hp) as Hlen.
    apply HasPrefix_firstn in Hp. change (List.length dataFlag) with 5%nat in *.
    rewrite length_firstn in Hlen.
    rewrite firstn_firstn in Hp. now replace (Nat.min 5 (slen b)) with 5%nat in Hp by lia. }
  rewrite Hflag. change (bytes_Equal dataFlag dataFlag) with true. cbv iota.
  destruct (slice_from b 5) as [b'|]; [|discriminate].
  destruct (bytes_Equal (slice_bytes b') []); intros E; injection E as _ <-; reflexivity.
Qed.

(** [handleSpadeRequests] marks the client as bad exactly for a POST
    whose form has no [data] field and whose body begins with [data=]:
    no other request sets the mark, and every such request that is
    answered sets it, whatever the status. *)
Theorem bad_client_mark (r : Request) (values : Values) (w w' : State) (status : Z) :
  handleSpadeRequests r values w = Ret (status, w') ->
  BadClient (context w) = false ->
  BadClient (context w') = true <->
  (ParseForm r = None /\ Method r = B "POST" /\ Values_Get (Form r) (B "data") = [] /\
   snd (Body r) = None /\ HasPrefix (slice_bytes (fst (Body r))) dataFlag = true).
Proof.
  unfold handleSpadeRequests. unfold bind at 1.
  destruct (ExtractEvent r values w) as [[[oe st] w1]|] eqn:HE; [|discriminate].
  destruct (ExtractEvent_frame _ _ _ _ _ _ HE) as (payload & w0 & Hread & Hb & _).
  intros Hrun Hfresh.
  assert (BadClient (context w') = BadClient (context w0)) as Hsame.
  { rewrite <- Hb. destruct oe as [event|].
    - unfold bind in Hrun.
      destruct (log event w1) as [[err w2]|] eqn:Hlog; [|discriminate].
      apply log_frame in Hlog as (Hlb & _).
      destruct err; unfold ret in Hrun; injection Hrun as _ <-; exact Hlb.
    - unfold ret in Hrun. now injection Hrun as _ <-. }
  rewrite Hsame. split.
  - intros Hset. destruct (readPayload_cases _ _ _ _ Hread) as (Hw & _ & _).
    destruct Hw as [->|(_ & Hpost & Hdata & Herr & Hp)]; [congruence|].
    repeat split; try assumption.
    unfold readPayload in Hread. destruct (ParseForm r) as [err|]; [|reflexivity].
    destruct (bytes_Equal err largeBodyErrorString); unfold ret in Hread;
      injection Hread as _ <-; congruence.
  - intros (Hform & Hpost & Hdata & Herr & Hp).
    exact (readPayload_flag r w w0 payload Hform Hpost Hdata Herr Hp Hread).
Qed.

(* ================================================================= *)
(** ** [serve], [RequestSetup] and [ServeHTTP] *)

(** The statuses of the handler. *)
Lemma ExtractEvent_status (r : Request) (values : Values) (w w' : State)
    (oe : option Event) (status : Z) :
  ExtractEvent r values w = Ret ((oe, status), w') ->
  In status [StatusOK; StatusNoContent; StatusBadRequest; StatusRequestEntityTooLarge;
             StatusInternalServerError; StatusBadGateway].
Proof.
  unfold ExtractEvent. unfold bind at 1. unfold get at 1. unfold bind at 1.
  destruct (readPayload r w) as [[payload w0]|] eqn:Hread; [|discriminate].
  destruct (readPayload_cases _ _ _ _ Hread) as (_ & _ & Hst).
  destruct payload as [data|st].
  - destruct (len data >? maxBytesPerRequest).
    + destruct (negb (handleLargeEvents (handler w))).
      * unfold ret. intros E. injection E as _ <- _. cbn. auto.
      * intros E. apply splitLargeEvent_status in E as [_ [->|[->| ->]]]; cbn; auto 7.
    + unfold bind, buildEvent.
      destruct (shouldWritePixel values); unfold ret; intros E; injection E as _ <- _;
        cbn; auto.
  - unfold ret. intros E. injection E as _ <- _.
    destruct (Hst st eq_refl) as [->|[->| ->]]; cbn; auto 7.
Qed.

Lemma handleSpadeRequests_status (r : Request) (values : Values) (w w' : State)
    (status : Z) :
  handleSpadeRequests r values w = Ret (status, w') ->
  In status [StatusOK; StatusNoContent; StatusBadRequest; StatusRequestEntityTooLarge;
             StatusInternalServerError; StatusBadGateway].
Proof.
  unfold handleSpadeRequests. unfold bind at 1.
  destruct (ExtractEvent r values w) as [[[oe st] w1]|] eqn:HE; [|discriminate].
  apply ExtractEvent_status in HE.
  destruct oe as [event|].
  - unfold bind. rewrite log_returns.
    destruct (snd (EdgeLoggers_log _ _ _)); unfold ret; intros E; injection E as <- _;
      [cbn; auto 7 | exact HE].
  - unfold ret. intros E. injection E as <- _. exact HE.
Qed.

Lemma Write_status (w : ResponseWriter) (data : bytes) :
  wStatus w = None -> wBroken w = false ->
  exists w', Write w data = (w', None) /\ wStatus w' = Some StatusOK.
Proof.
  intros Hs Hb. unfold Write, WriteHeader. rewrite Hs. cbn [wBroken]. rewrite Hb.
  eexists. split; reflexivity.
Qed.

Lemma Write_returns (w : ResponseWriter) (data : bytes) :
  exists w' err, Write w data = (w', err).
Proof. destruct (Write w data) as [w' err]. now exists w', err. Qed.

Lemma WriteHeader_status (w : ResponseWriter) (status : Z) :
  wStatus w = None -> wStatus (WriteHeader w status) = Some status.
Proof. intros Hs. unfold WriteHeader. now rewrite Hs. Qed.

Lemma serve_returns (w : ResponseWriter) (r : Request) (st : State) :
  ReadAll_slice (fst (Body r)) ->
  exists status w' st',
    serve w r st = Ret ((status, w'), st') /\
    In status [StatusOK; StatusNoContent; StatusBadRequest; StatusNotFound;
               StatusRequestEntityTooLarge; StatusInternalServerError; StatusBadGateway].
Proof.
  intros Hbody. unfold serve.
  destruct (bytes_Equal (servePath r) (B "/crossdomain.xml")).
  { unfold bind, get, ret, WriteCrossDomainPolicy.
    destruct (Write _ _) as [w2 [err|]]; eexists _, _, _; (split; [reflexivity|]);
      cbn; auto 8. }
  destruct (bytes_Equal (servePath r) (B "/robots.txt")).
  { unfold ret, WriteRobotsTxt.
    destruct (Write _ _) as [w2 [err|]]; eexists _, _, _; (split; [reflexivity|]);
      cbn; auto 8. }
  destruct (bytes_Equal (servePath r) (B "/healthcheck")).
  { unfold ret. eexists _, _, _. split; [reflexivity|]. cbn. auto. }
  destruct (bytes_Equal (servePath r) (B "/xarth")).
  { destruct (Write w xarth) as [w2 [err|]]; unfold ret; eexists _, _, _;
      (split; [reflexivity|]); cbn; auto 8. }
  destruct (isTrackPath (servePath r)).
  - unfold bind.
    destruct (handleSpadeRequests_returns r (URLQuery r) st Hbody) as (status & st' & Hrun & _).
    rewrite Hrun. apply handleSpadeRequests_status in Hrun.
    destruct (shouldWritePixel (URLQuery r)).
    + destruct (writePixel w) as [w2 [err|]]; unfold ret; eexists _, _, _;
        (split; [reflexivity|]); cbn; auto 8.
    + unfold ret. eexists _, _, _. split; [reflexivity|].
      cbn in Hrun |- *. destruct Hrun as [H|[H|[H|[H|[H|[H|[]]]]]]]; auto 8.
  - unfold bind, get, put, ret. eexists _, _, _. split; [reflexivity|]. cbn. auto.
Qed.

Lemma serve_status_line (w w' : ResponseWriter) (r : Request) (st st' : State) (status : Z) :
  serve w r st = Ret ((status, w'), st') ->
  wStatus w = None -> wBroken w = false ->
  wStatus w' = Some status.
Proof.
  intros Hrun Hs Hb. unfold serve in Hrun.
  destruct (bytes_Equal (servePath r) (B "/crossdomain.xml")).
  { unfold bind, get, ret, WriteCrossDomainPolicy in Hrun.
    destruct (Write_status (setHeader w (Header_Add (wHeader w) (B "Content-Type")
                                           xmlApplicationType))
                (crossDomainPolicy (handler st)) Hs Hb) as (w3 & HW3 & Hs3).
    rewrite HW3 in Hrun. now injection Hrun as <- <- _. }
  destruct (bytes_Equal (servePath r) (B "/robots.txt")).
  { unfold ret, WriteRobotsTxt in Hrun.
    destruct (Write_status (setHeader w (Header_Add (wHeader w) (B "Content-Type")
                                           (B "text/plain")))
                (B "User-agent: *" ++ ["010"%char] ++ B "Disallow: /") Hs Hb)
      as (w3 & HW3 & Hs3).
    rewrite HW3 in Hrun. now injection Hrun as <- <- _. }
  destruct (bytes_Equal (servePath r) (B "/healthcheck")).
  { unfold ret in Hrun. injection Hrun as <- <- _. now apply WriteHeader_status. }
  destruct (bytes_Equal (servePath r) (B "/xarth")).
  { destruct (Write_status w xarth Hs Hb) as (w3 & HW3 & Hs3).
    rewrite HW3 in Hrun. unfold ret in Hrun. now injection Hrun as <- <- _. }
  destruct (isTrackPath (servePath r)).
  - unfold bind in Hrun.
    destruct (handleSpadeRequests r (URLQuery r) st) as [[code st1]|]; [|discriminate].
    destruct (shouldWritePixel (URLQuery r)).
    + destruct (writePixel_fresh w Hs Hb) as (w3 & HW3 & Hs3 & _).
      rewrite HW3 in Hrun. unfold ret in Hrun. now injection Hrun as <- <- _.
    + unfold ret in Hrun. injection Hrun as <- <- _. now apply WriteHeader_status.
  - unfold bind, get, put, ret in Hrun. injection Hrun as <- <- _.
    now apply WriteHeader_status.
Qed.

(** [serve] returns for every request whose body [ioutil.ReadAll]
    read, with one of seven statuses; on a writer that has written
    nothing yet and takes the writes, the status line it writes is the
    status it returns. *)
Theorem serve_status (w : ResponseWriter) (r : Request) (st : State) :
  ReadAll_slice (fst (Body r)) ->
  exists status w' st',
    serve w r st = Ret ((status, w'), st') /\
    In status [StatusOK; StatusNoContent; StatusBadRequest; StatusNotFound;
               StatusRequestEntityTooLarge; StatusInternalServerError; StatusBadGateway] /\
    (wStatus w = None -> wBroken w = false -> wStatus w' = Some status).
Proof.
  intros Hbody.
  destruct (serve_returns w r st Hbody) as (status & w' & st' & Hrun & Hin).
  exists status, w', st'. split; [exact Hrun|]. split; [exact Hin|].
  exact (serve_status_line w w' r st st' status Hrun).
Qed.


Lemma allowedMethods_cases (method : bytes) :
  allowedMethods method = true <->
  method = B "GET" \/ method = B "POST" \/ method = B "OPTIONS".
Proof.
  unfold allowedMethods. rewrite !orb_true_iff, !bytes_Equal_eq.
  split; intros [H|H]; auto; destruct H; auto.
Qed.

(** A request whose method is neither GET nor POST never reaches the
    handler's state: [ServeHTTP] leaves the handler as it was, sets up
    no context and writes no body; on a writer that has written
    nothing yet the status line is 200 for OPTIONS and 400 for every
    other method. *)
Theorem ServeHTTP_method_gate (matchers : list Glob) (allowedMethodsHeader : bytes)
    (now : Time) (w : ResponseWriter) (r : Request) (s : Handler) :
  Method r <> B "GET" -> Method r <> B "POST" ->
  exists w',
    ServeHTTP matchers allowedMethodsHeader now w r s = Ret (w', s, None) /\
    wBody w' = wBody w /\
    (wStatus w = None ->
     wStatus w' = Some (if bytes_Equal (Method r) (B "OPTIONS") then StatusOK
                        else StatusBadRequest)).
Proof.
  intros Hget Hpost. apply bytes_Equal_neq in Hget, Hpost.
  unfold ServeHTTP, RequestSetup, allowedMethods. rewrite Hget, Hpost. cbn [orb].
  destruct (bytes_Equal (Method r) (B "OPTIONS")); cbn [negb].
  - eexists. split; [reflexivity|]. split.
    + unfold WriteHeader. cbn [setHeader wStatus].
      destruct (isAcceptableOrigin matchers (HeaderGet r (B "Origin")));
        cbn [setHeader wStatus wBody wHeader wBroken]; destruct (wStatus w); reflexivity.
    + intros Hs. apply WriteHeader_status.
      destruct (isAcceptableOrigin matchers (HeaderGet r (B "Origin"))); exact Hs.
  - eexists. split; [reflexivity|]. split.
    + unfold WriteHeader. destruct (wStatus w); reflexivity.
    + intros Hs. now apply WriteHeader_status.
Qed.

(** For a GET or a POST whose body [ioutil.ReadAll] read, [ServeHTTP]
    returns with a context, and the status recorded in it is one of
    the seven statuses of [serve]; on a writer that has written nothing
    yet and takes the writes it is the status line of the response. *)
Theorem ServeHTTP_records_status (matchers : list Glob) (allowedMethodsHeader : bytes)
    (now : Time) (w : ResponseWriter) (r : Request) (s : Handler) :
  Method r = B "GET" \/ Method r = B "POST" ->
  ReadAll_slice (fst (Body r)) ->
  exists w' s' c,
    ServeHTTP matchers allowedMethodsHeader now w r s = Ret (w', s', Some c) /\
    In (Status c) [StatusOK; StatusNoContent; StatusBadRequest; StatusNotFound;
                   StatusRequestEntityTooLarge; StatusInternalServerError;
                   StatusBadGateway] /\
    (wStatus w = None -> wBroken w = false -> wStatus w' = Some (Status c)).
Proof.
  intros Hmethod Hbody. unfold ServeHTTP, RequestSetup.
  assert (allowedMethods (Method r) = true) as ->
    by (apply allowedMethods_cases; destruct Hmethod; auto).
  assert (bytes_Equal (Method r) (B "OPTIONS") = false) as ->
    by (destruct Hmethod as [-> | ->]; reflexivity).
  cbn [negb].
  set (w2 := if isAcceptableOrigin matchers (HeaderGet r (B "Origin")) then _ else _).
  set (c0 := mkRequestContext _ _ _ _ _ _ _).
  destruct (serve_returns w2 r (mkWorld s c0) Hbody) as (status & w' & st' & Hrun & Hin).
  rewrite Hrun. eexists _, _, _. split; [reflexivity|]. cbn [Status set_Status].
  split; [exact Hin|].
  intros Hs Hb. apply (serve_status_line w2 w' r (mkWorld s c0) st' status Hrun); subst w2;
    destruct (isAcceptableOrigin matchers (HeaderGet r (B "Origin"))); assumption.
Qed.

Lemma isAcceptableOrigin_iff (matchers : list Glob) (origin : bytes) :
  isAcceptableOrigin matchers origin = true <->
  exists matcher, In matcher matchers /\ matcher origin = true.
Proof.
  induction matchers as [|m rest IH]; cbn [isAcceptableOrigin In].
  - split; [discriminate | intros (m & [] & _)].
  - destruct (m origin) eqn:Hm.
    + split; [intros _; exists m; auto | reflexivity].
    + rewrite IH. split.
      * intros (m' & Hin & Hm'). exists m'. auto.
      * intros (m' & [<-|Hin] & Hm'); [congruence|]. exists m'. auto.
Qed.

(** [RequestSetup] on an allowed method always sets [Vary: Origin];
    it echoes the origin of the request in
    [Access-Control-Allow-Origin], with the allowed methods beside
    it, when one of the matchers matches the origin, and leaves both
    headers as they were when none does. *)
Theorem RequestSetup_CORS (matchers : list Glob) (allowedMethodsHeader : bytes)
    (now : Time) (w : ResponseWriter) (r : Request) :
  allowedMethods (Method r) = true ->
  let origin := HeaderGet r (B "Origin") in
  let h' := wHeader (fst (RequestSetup matchers allowedMethodsHeader now w r)) in
  Header_Get h' (B "Vary") = B "Origin" /\
  ((exists matcher, In matcher matchers /\ matcher origin = true) ->
   Header_Get h' (B "Access-Control-Allow-Origin") = origin /\
   Header_Get h' (B "Access-Control-Allow-Methods") = allowedMethodsHeader) /\
  ((forall matcher, In matcher matchers -> matcher origin = false) ->
   Header_Get h' (B "Access-Control-Allow-Origin")
     = Header_Get (wHeader w) (B "Access-Control-Allow-Origin") /\
   Header_Get h' (B "Access-Control-Allow-Methods")
     = Header_Get (wHeader w) (B "Access-Control-Allow-Methods")).
Proof.
  intros Hallowed origin. unfold RequestSetup. rewrite Hallowed. cbn [negb]. fold origin.
  assert (forall w0 status, wHeader (WriteHeader w0 status) = wHeader w0) as HWH
    by (intros w0 status; unfold WriteHeader; now destruct (wStatus w0)).
  destruct (isAcceptableOrigin matchers origin) eqn:Hacc.
  - destruct (bytes_Equal (Method r) (B "OPTIONS")); cbn [fst]; rewrite ?HWH;
      cbn [setHeader wHeader];
      (split; [rewrite ?Header_Get_Set_other by discriminate; apply Header_Get_Set|]);
      (split; [intros _; split;
               [rewrite ?Header_Get_Set_other by discriminate; apply Header_Get_Set
               |rewrite ?Header_Get_Set_other by discriminate; apply Header_Get_Set]|]);
      intros Hnone; apply isAcceptableOrigin_iff in Hacc as (m & Hin & Hm);
      rewrite (Hnone m Hin) in Hm; discriminate.
  - destruct (bytes_Equal (Method r) (B "OPTIONS")); cbn [fst]; rewrite ?HWH;
      cbn [setHeader wHeader];
      (split; [rewrite ?Header_Get_Set_other by discriminate; apply Header_Get_Set|]);
      (split; [intros Hsome; apply isAcceptableOrigin_iff in Hsome; congruence|]);
      intros _; split; now rewrite ?Header_Get_Set_other by discriminate.
Qed.

(** The loop of [NewSpadeHandler] over the configured origins skips
    those that are blank once trimmed, and does not compile them; it
    appends one matcher for every other origin, after the matchers
    already there; and it panics when one of them does not compile. *)
Theorem corsOriginMatchers_origins (CORSOrigins : list bytes) (matchers : list Glob) :
  ((forall origin, In origin CORSOrigins -> TrimSpace origin = []) ->
   corsOriginMatchers CORSOrigins matchers = Ret matchers) /\
  (forall matchers',
     corsOriginMatchers CORSOrigins matchers = Ret matchers' ->
     firstn (List.length matchers) matchers' = matchers /\
     List.length matchers'
     = (List.length matchers
        + List.length (filter (fun origin => negb (bytes_Equal (TrimSpace origin) []))
                         CORSOrigins))%nat) /\
  (forall origin,
     In origin CORSOrigins -> TrimSpace origin <> [] ->
     glob_Compile (TrimSpace origin) = None ->
     exists msg, corsOriginMatchers CORSOrigins matchers = Panic msg).
Proof.
  revert matchers. induction CORSOrigins as [|o rest IH]; intros matchers.
  - cbn [corsOriginMatchers filter List.length In]. split; [reflexivity|]. split.
    + intros ms' E. injection E as <-. split; [apply firstn_all | lia].
    + intros origin [].
  - cbn [corsOriginMatchers filter In].
    destruct (bytes_Equal (TrimSpace o) []) eqn:Hblank; cbn [negb].
    + destruct (IH matchers) as (Hall & Hret & Hpanic). split; [|split].
      * intros Hb. apply Hall. intros origin Hin. apply Hb. now right.
      * exact Hret.
      * intros origin [<-|Hin] Hne Hc; [|now apply (Hpanic origin)].
        apply bytes_Equal_eq in Hblank. contradiction.
    + apply bytes_Equal_neq in Hblank. split; [|split].
      * intros Hb. contradiction Hblank. apply Hb. now left.
      * destruct (glob_Compile (TrimSpace o)) as [m|]; [|discriminate].
        intros ms' E. destruct (IH (matchers ++ [m])) as (_ & Hret & _).
        destruct (Hret ms' E) as [Hfirst Hlen].
        rewrite length_app in Hfirst, Hlen. cbn [List.length] in *. split; [|lia].
        replace (firstn (List.length matchers) ms')
          with (firstn (List.length matchers) (firstn (List.length matchers + 1) ms'))
          by (rewrite firstn_firstn; f_equal; lia).
        rewrite Hfirst, firstn_app, Nat.sub_diag, firstn_all. cbn [firstn].
        apply app_nil_r.
      * intros origin Hin Hne Hc.
        destruct (glob_Compile (TrimSpace o)) as [m|] eqn:Hm; [|eexists; reflexivity].
        destruct Hin as [<-|Hin]; [congruence|].
        destruct (IH (matchers ++ [m])) as (_ & _ & Hpanic). now apply (Hpanic origin).
Qed.

(* ================================================================= *)
(** ** The two sinks and the status of a request *)

Lemma storedBy_accepts (s3 : LS) (kinesis : LK) (event : Event) :
  storedBy s3 kinesis event = true <-> accepts s3 event \/ accepts kinesis event.
Proof.
  unfold storedBy, accepts.
  destruct (snd (Log s3 event)), (snd (Log kinesis event)); split; intros H;
    try discriminate H; auto; destruct H as [H|H]; discriminate H.
Qed.

Lemma storedCount_nonneg (s3 : LS) (kinesis : LK) (events : list Event) :
  0 <= storedCount s3 kinesis events.
Proof.
  revert s3 kinesis. induction events as [|event rest IH]; intros s3 kinesis;
    cbn [storedCount]; [lia|].
  specialize (IH (fst (Log s3 event)) (fst (Log kinesis event))).
  destruct (storedBy s3 kinesis event); lia.
Qed.

(** The count is positive exactly when one of the events was taken
    by one of the sinks, in the state the sink was in after the
    events before it. *)
Lemma storedCount_pos (s3 : LS) (kinesis : LK) (events : list Event) :
  0 < storedCount s3 kinesis events <->
  exists i event,
    nth_error events i = Some event /\
    (accepts (offerAll s3 (firstn i events)) event \/
     accepts (offerAll kinesis (firstn i events)) event).
Proof.
  revert s3 kinesis. induction events as [|event rest IH]; intros s3 kinesis.
  - cbn [storedCount]. split; [lia|]. intros ([|i] & e & E & _); discriminate E.
  - cbn [storedCount].
    pose proof (storedCount_nonneg (fst (Log s3 event)) (fst (Log kinesis event)) rest) as Hnn.
    split.
    + intros Hpos. destruct (storedBy s3 kinesis event) eqn:Hs.
      * exists 0%nat, event. split; [reflexivity|]. now apply storedBy_accepts.
      * destruct (proj1 (IH (fst (Log s3 event)) (fst (Log kinesis event))))
          as (i & e & E & Hacc); [lia|].
        exists (S i), e. split; [exact E|exact Hacc].
    + intros ([|i] & e & E & Hacc).
      * injection E as <-. apply storedBy_accepts in Hacc. cbn in Hacc.
        rewrite Hacc. lia.
      * assert (0 < storedCount (fst (Log s3 event)) (fst (Log kinesis event)) rest)
          by (apply IH; exists i, e; split; [exact E|exact Hacc]).
        destruct (storedBy s3 kinesis event); lia.
Qed.

Lemma elementEvents_Data (elements : list bytes) (clientIP : IP) (xff ua : bytes)
    (now : Time) (instance edgeType : bytes) (count : N) :
  map Data (elementEvents elements clientIP xff ua now instance edgeType count)
  = map Base64.EncodeToString elements /\
  List.length (elementEvents elements clientIP xff ua now instance edgeType count)
  = List.length elements.
Proof.
  revert count. induction elements as [|el rest IH]; intros count; [now split|].
  cbn [elementEvents map Data List.length].
  destruct (IH (uint64_add count 1)) as [-> ->]. now split.
Qed.

(** One element with the loggers open: its event is built and both
    sinks are called with it. *)
Lemma writeElement_open (encEvent : bytes) (clientIP : IP) (xff ua : bytes) (w : State) :
  closed (loggers (handler w)) = false ->
  exists err w1,
    writeElement encEvent clientIP xff ua w = Ret (err, w1) /\
    (match err with
     | None => true
     | Some _ => false
     end
     = storedBy (S3EventLogger (loggers (handler w))) (KinesisEventLogger (loggers (handler w)))
         (NewEvent (Now (context w)) clientIP xff
            (uuidOf (instanceID (handler w)) (Now (context w))
               (uint64_add (eventCount (handler w)) 1))
            encEvent ua (handlerEdgeType (handler w)))) /\
    loggers (handler w1)
    = mkEdgeLoggers false
        (fst (Log (S3EventLogger (loggers (handler w)))
                (NewEvent (Now (context w)) clientIP xff
                   (uuidOf (instanceID (handler w)) (Now (context w))
                      (uint64_add (eventCount (handler w)) 1))
                   encEvent ua (handlerEdgeType (handler w)))))
        (fst (Log (KinesisEventLogger (loggers (handler w)))
                (NewEvent (Now (context w)) clientIP xff
                   (uuidOf (instanceID (handler w)) (Now (context w))
                      (uint64_add (eventCount (handler w)) 1))
                   encEvent ua (handlerEdgeType (handler w))))) /\
    eventCount (handler w1) = uint64_add (eventCount (handler w)) 1 /\
    instanceID (handler w1) = instanceID (handler w) /\
    handlerEdgeType (handler w1) = handlerEdgeType (handler w) /\
    Now (context w1) = Now (context w).
Proof.
  intros Hc. unfold writeElement, bind, buildEvent, log, storedBy.
  cbn [handler context loggers set_eventCount]. unfold EdgeLoggers_log. rewrite Hc.
  destruct (Log (S3EventLogger (loggers (handler w))) _) as [s3 e1].
  destruct (Log (KinesisEventLogger (loggers (handler w))) _) as [k e2].
  destruct e1, e2; eexists _, _; (split; [reflexivity|]);
    cbn [handler loggers set_loggers closed S3EventLogger KinesisEventLogger fst snd
           eventCount instanceID handlerEdgeType context RecordLoggerAttempt Now];
    repeat split.
Qed.

(** The loop with the loggers open: the events of the elements are
    offered to both sinks in order, and the loop counts those that a
    sink took. *)
Lemma splitLoop_offers (elements : list bytes) (clientIP : IP) (xff ua : bytes)
    (sc ok ko : Z) (w : State) :
  closed (loggers (handler w)) = false ->
  exists ko' w',
    splitLoop elements clientIP xff ua (sc, ok, ko) w
      = Ret ((if existsb oversize elements then StatusRequestEntityTooLarge else sc,
              ok + storedCount (S3EventLogger (loggers (handler w)))
                     (KinesisEventLogger (loggers (handler w)))
                     (elementEvents elements clientIP xff ua (Now (context w))
                        (instanceID (handler w)) (handlerEdgeType (handler w))
                        (eventCount (handler w))),
              ko'), w') /\
    loggers (handler w')
    = mkEdgeLoggers false
        (offerAll (S3EventLogger (loggers (handler w)))
           (elementEvents elements clientIP xff ua (Now (context w))
              (instanceID (handler w)) (handlerEdgeType (handler w))
              (eventCount (handler w))))
        (offerAll (KinesisEventLogger (loggers (handler w)))
           (elementEvents elements clientIP xff ua (Now (context w))
              (instanceID (handler w)) (handlerEdgeType (handler w))
              (eventCount (handler w)))).
Proof.
  revert sc ok ko w. induction elements as [|el rest IH]; intros sc ok ko w Hc.
  - exists ko, w. cbn [splitLoop elementEvents storedCount existsb offerAll fold_left].
    unfold ret. rewrite Z.add_0_r. split; [reflexivity|].
    destruct (loggers (handler w)) as [c s3 kinesis]. cbn in Hc |- *. now subst c.
  - cbn [splitLoop elementEvents storedCount existsb]. unfold bind at 1.
    destruct (writeElement_open (Base64.EncodeToString el) clientIP xff ua w Hc)
      as (err & w1 & -> & Hstored & Hl & Hcount & Hid & Htype & Hnow).
    assert (closed (loggers (handler w1)) = false) as Hc1 by now rewrite Hl.
    fold (oversize el). rewrite <- Hstored.
    destruct err as [msg|].
    + destruct (IH (if oversize el then StatusRequestEntityTooLarge else sc) ok (ko + 1)
                  w1 Hc1) as (ko' & w' & Hrun & Hl').
      rewrite Hl, Hcount, Hid, Htype, Hnow in Hrun, Hl'.
      cbn [S3EventLogger KinesisEventLogger] in Hrun, Hl'.
      rewrite Hrun. exists ko', w'. split; [|exact Hl'].
      rewrite Z.add_0_l.
      destruct (oversize el); cbn [orb]; [destruct (existsb oversize rest)|]; reflexivity.
    + destruct (IH (if oversize el then StatusRequestEntityTooLarge else sc) (ok + 1) ko
                  w1 Hc1) as (ko' & w' & Hrun & Hl').
      rewrite Hl, Hcount, Hid, Htype, Hnow in Hrun, Hl'.
      cbn [S3EventLogger KinesisEventLogger] in Hrun, Hl'.
      rewrite Hrun. exists ko', w'. split; [|exact Hl'].
      rewrite Z.add_assoc.
      destruct (oversize el); cbn [orb]; [destruct (existsb oversize rest)|]; reflexivity.
Qed.

Lemma readPayload_Now (r : Request) (w w0 : State) (payload : bytes + Z) :
  readPayload r w = Ret (payload, w0) ->
  handler w0 = handler w /\ Now (context w0) = Now (context w).
Proof.
  intros Hread. destruct (readPayload_cases _ _ _ _ Hread) as ([->|[-> _]] & _);
    split; reflexivity.
Qed.

(** A large payload that decodes to an array, with the loggers open. *)
Lemma ExtractEvent_split_open (r : Request) (values : Values) (w w0 : State) (data : bytes)
    (n : Z) (bData : bytes) (elements : list bytes) :
  readPayload r w = Ret (inl data, w0) ->
  maxBytesPerRequest < len data ->
  handleLargeEvents (handler w) = true ->
  DecodeInPlace data = Some (n, bData) ->
  1 <= n ->
  firstn 2 bData = B "[{" ->
  Unmarshal (firstn (Z.to_nat n) bData) = Some elements ->
  closed (loggers (handler w)) = false ->
  exists w',
    ExtractEvent r values w
      = Ret ((None,
              if storedCount (S3EventLogger (loggers (handler w)))
                   (KinesisEventLogger (loggers (handler w)))
                   (elementEvents elements
                      (parseLastForwarder (HeaderGet r (IPHeader (context w))))
                      (HeaderGet r (IPHeader (context w))) (requestUserAgent r values)
                      (Now (context w)) (instanceID (handler w))
                      (handlerEdgeType (handler w)) (eventCount (handler w))) =? 0
              then StatusInternalServerError
              else if existsb oversize elements then StatusRequestEntityTooLarge
                   else StatusNoContent), w') /\
    loggers (handler w')
    = mkEdgeLoggers false
        (offerAll (S3EventLogger (loggers (handler w)))
           (elementEvents elements
              (parseLastForwarder (HeaderGet r (IPHeader (context w))))
              (HeaderGet r (IPHeader (context w))) (requestUserAgent r values)
              (Now (context w)) (instanceID (handler w))
              (handlerEdgeType (handler w)) (eventCount (handler w))))
        (offerAll (KinesisEventLogger (loggers (handler w)))
           (elementEvents elements
              (parseLastForwarder (HeaderGet r (IPHeader (context w))))
              (HeaderGet r (IPHeader (context w))) (requestUserAgent r values)
              (Now (context w)) (instanceID (handler w))
              (handlerEdgeType (handler w)) (eventCount (handler w)))).
Proof.
  intros Hread Hlen Hon Hdec Hn Hhead Hjson Hc.
  destruct (readPayload_Now _ _ _ _ Hread) as [Hh Hnow].
  assert (closed (loggers (handler w0)) = false) as Hc0 by now rewrite Hh.
  destruct (splitLoop_offers elements
              (parseLastForwarder (HeaderGet r (IPHeader (context w))))
              (HeaderGet r (IPHeader (context w))) (requestUserAgent r values)
              StatusNoContent 0 0 w0 Hc0) as (ko' & w' & Hloop & Hl).
  rewrite Hh, Hnow in Hloop, Hl. exists w'. split; [|exact Hl].
  rewrite (ExtractEvent_large r values w w0 w' data n bData elements _ _ _
             Hread Hlen Hon Hdec Hn Hhead Hjson Hloop).
  rewrite Z.add_0_l. reflexivity.
Qed.

(** A large payload that decodes to an array, with the loggers
    closed. *)
Lemma ExtractEvent_split_closed (r : Request) (values : Values) (w w0 : State) (data : bytes)
    (n : Z) (bData : bytes) (elements : list bytes) :
  readPayload r w = Ret (inl data, w0) ->
  maxBytesPerRequest < len data ->
  handleLargeEvents (handler w) = true ->
  DecodeInPlace data = Some (n, bData) ->
  1 <= n ->
  firstn 2 bData = B "[{" ->
  Unmarshal (firstn (Z.to_nat n) bData) = Some elements ->
  closed (loggers (handler w)) = true ->
  exists w',
    ExtractEvent r values w = Ret ((None, StatusInternalServerError), w') /\
    loggers (handler w') = loggers (handler w).
Proof.
  intros Hread Hlen Hon Hdec Hn Hhead Hjson Hc.
  destruct (readPayload_Now _ _ _ _ Hread) as [Hh _].
  assert (closed (loggers (handler w0)) = true) as Hc0 by now rewrite Hh.
  destruct (splitLoop_returns elements
              (parseLastForwarder (HeaderGet r (IPHeader (context w))))
              (HeaderGet r (IPHeader (context w))) (requestUserAgent r values)
              (StatusNoContent, 0, 0) w0) as ([[sc ok] ko] & w' & Hloop).
  destruct (splitLoop_frame _ _ _ _ _ _ _ _ _ _ _ _ Hloop) as [_ Hclosed].
  destruct (Hclosed Hc0) as (-> & Hl & _).
  exists w'. split; [|now rewrite Hl, Hh].
  exact (ExtractEvent_large r values w w0 w' data n bData elements _ _ _
           Hread Hlen Hon Hdec Hn Hhead Hjson Hloop).
Qed.

Lemma handleSpadeRequests_none (r : Request) (values : Values) (w w' : State) (status : Z) :
  ExtractEvent r values w = Ret ((None, status), w') ->
  handleSpadeRequests r values w = Ret (status, w').
Proof. intros HE. unfold handleSpadeRequests, bind. now rewrite HE. Qed.

(** A 2xx status without an event handed back comes from the loop
    over the elements of a large payload. *)
Lemma ExtractEvent_none_2xx (r : Request) (values : Values) (w w' : State) (status : Z) :
  ExtractEvent r values w = Ret ((None, status), w') ->
  is2xx status = true ->
  exists data w0 n bData elements,
    readPayload r w = Ret (inl data, w0) /\
    maxBytesPerRequest < len data /\
    handleLargeEvents (handler w) = true /\
    DecodeInPlace data = Some (n, bData) /\
    1 <= n /\
    firstn 2 bData = B "[{" /\
    Unmarshal (firstn (Z.to_nat n) bData) = Some elements.
Proof.
  unfold ExtractEvent. unfold bind at 1. unfold get at 1. unfold bind at 1.
  destruct (readPayload r w) as [[[data|st] w0]|] eqn:Hread; [| |discriminate].
  - destruct (len data >? maxBytesPerRequest) eqn:Hlen.
    + apply Z.gtb_lt in Hlen.
      destruct (handleLargeEvents (handler w)) eqn:Hon; cbn [negb];
        [|unfold ret; intros E; injection E as <- _; discriminate].
      unfold splitLargeEvent.
      destruct (DecodeInPlace data) as [[n bData]|] eqn:Hdec;
        [|unfold ret; intros E; injection E as <- _; discriminate].
      destruct (n <? 1) eqn:Hn; cbn [orb];
        [unfold ret; intros E; injection E as <- _; discriminate|].
      apply Z.ltb_ge in Hn.
      destruct (bytes_Equal (firstn 2 bData) (B "[{")) eqn:Hhead; cbn [negb];
        [|unfold ret; intros E; injection E as <- _; discriminate].
      apply bytes_Equal_eq in Hhead.
      destruct (Unmarshal (firstn (Z.to_nat n) bData)) as [elements|] eqn:Hjson;
        [|unfold ret; intros E; injection E as <- _; discriminate].
      intros _ _. exists data, w0, n, bData, elements. repeat split; assumption || lia.
    + unfold bind, buildEvent.
      destruct (shouldWritePixel values); unfold ret; intros E; discriminate E.
  - destruct (readPayload_cases _ _ _ _ Hread) as (_ & _ & Hst).
    unfold ret. intros E. injection E as <- _.
    destruct (Hst st eq_refl) as [->|[->| ->]]; discriminate.
Qed.

(** The request whose event was built: both sinks are called with
    the event, and the status is 500 or that of [ExtractEvent]. *)
Lemma handleSpadeRequests_single (r : Request) (values : Values) (w w1 : State)
    (event : Event) (sc : Z) :
  ExtractEvent r values w = Ret ((Some event, sc), w1) ->
  loggers (handler w1) = loggers (handler w) /\
  exists status w',
    handleSpadeRequests r values w = Ret (status, w') /\
    (status = StatusInternalServerError <->
     closed (loggers (handler w)) = true \/
     (~ accepts (S3EventLogger (loggers (handler w))) event /\
      ~ accepts (KinesisEventLogger (loggers (handler w))) event)) /\
    (is2xx status = true ->
     closed (loggers (handler w)) = false /\
     (accepts (S3EventLogger (loggers (handler w))) event \/
      accepts (KinesisEventLogger (loggers (handler w))) event) /\
     loggers (handler w')
     = mkEdgeLoggers false (fst (Log (S3EventLogger (loggers (handler w))) event))
         (fst (Log (KinesisEventLogger (loggers (handler w))) event))).
Proof.
  intros HE.
  assert (loggers (handler w1) = loggers (handler w)) as Hsame.
  { destruct (ExtractEvent_event _ _ _ _ _ _ HE) as (data & w0 & Hread & _ & Hbuild & _).
    apply readPayload_handler in Hread as [Hh _].
    unfold buildEvent in Hbuild. injection Hbuild as _ <-.
    cbn [handler loggers set_eventCount]. now rewrite Hh. }
  split; [exact Hsame|].
  rewrite (handleSpadeRequests_event _ _ _ _ _ _ HE).
  destruct (ExtractEvent_event _ _ _ _ _ _ HE) as (data & w0 & _ & _ & _ & ->).
  rewrite Hsame. eexists _, _. split; [reflexivity|].
  pose proof (EdgeLoggers_log_error (loggers (handler w)) event (context w1)) as Herr.
  destruct (closed (loggers (handler w))) eqn:Hc.
  - rewrite EdgeLoggers_log_closed by exact Hc. cbn [fst snd]. split.
    + split; [intros _; now left | reflexivity].
    + rewrite is2xx_500. discriminate.
  - destruct (EdgeLoggers_log_open (loggers (handler w)) event (context w1) Hc)
      as (err & Hl & Hiff).
    rewrite Hl in Herr |- *. cbn [fst snd] in Herr |- *.
    cbn [handler loggers set_loggers]. destruct err as [msg|].
    + split.
      * split; [intros _; apply Herr; discriminate | reflexivity].
      * rewrite is2xx_500. discriminate.
    + split.
      * split.
        -- intros E. now apply pixel_or_no_content_not_500 in E.
        -- intros Hf. apply Herr in Hf. now contradiction Hf.
      * intros _. split; [reflexivity|]. split; [now apply Hiff | reflexivity].
Qed.

Lemma storedCount_zero (s3 : LS) (kinesis : LK) (events : list Event) :
  storedCount s3 kinesis events = 0 <->
  forall i event,
    nth_error events i = Some event ->
    ~ accepts (offerAll s3 (firstn i events)) event /\
    ~ accepts (offerAll kinesis (firstn i events)) event.
Proof.
  pose proof (storedCount_nonneg s3 kinesis events) as Hnn.
  pose proof (storedCount_pos s3 kinesis events) as Hpos. split.
  - intros Hz i event E. split; intros Hacc;
      assert (0 < storedCount s3 kinesis events)
        by (apply Hpos; exists i, event; split; [exact E|auto]); lia.
  - intros Hall. destruct (Z.eq_dec (storedCount s3 kinesis events) 0) as [Hz|Hz];
      [exact Hz|].
    destruct (proj1 Hpos) as (i & event & E & Hacc); [lia|].
    destruct (Hall i event E) as [Hs Hk]. destruct Hacc; contradiction.
Qed.

Lemma splitLoop_eventCount (elements : list bytes) (clientIP : IP) (xff ua : bytes)
    (acc acc' : Z * Z * Z) (w w' : State) :
  splitLoop elements clientIP xff ua acc w = Ret (acc', w') ->
  (eventCount (handler w') mod (uint64_max + 1)
   = (eventCount (handler w) + N.of_nat (List.length elements)) mod (uint64_max + 1))%N.
Proof.
  revert acc w. induction elements as [|el rest IH]; intros [[sc ok] ko] w.
  - cbn [splitLoop List.length]. unfold ret. intros E. injection E as _ <-.
    f_equal. lia.
  - cbn [splitLoop]. unfold bind at 1.
    destruct (writeElement_count (Base64.EncodeToString el) clientIP xff ua w)
      as (err & w1 & -> & Hcount).
    destruct err as [msg|]; intros E; apply IH in E; rewrite E, Hcount;
      apply uint64_add_mod.
Qed.

(** C1, as amended.  [handleSpadeRequests] returns for a request
    whose body was read.  When it returns a 2xx status the loggers are
    open and either the one event of the request was built, both
    sinks were called with it and one of them at least took it, or
    the request was a large one, both sinks were called with the
    events of all its elements, in order, and one of these events at
    least was taken by one of the sinks.  An event that both sinks
    refuse gives 500 when it is the one event of the request; a large
    request gives 500 when both sinks refuse the events of all its
    elements. *)
Theorem built_event_stored_or_not_2xx (r : Request) (values : Values) (w : State) :
  let s3 := S3EventLogger (loggers (handler w)) in
  let kinesis := KinesisEventLogger (loggers (handler w)) in
  let xff := HeaderGet r (IPHeader (context w)) in
  let ip := parseLastForwarder xff in
  let ua := requestUserAgent r values in
  let eventsOf elements :=
    elementEvents elements ip xff ua (Now (context w)) (instanceID (handler w))
      (handlerEdgeType (handler w)) (eventCount (handler w)) in
  (ReadAll_slice (fst (Body r)) ->
   exists status w', handleSpadeRequests r values w = Ret (status, w')) /\
  (forall status w',
     handleSpadeRequests r values w = Ret (status, w') ->
     is2xx status = true ->
     closed (loggers (handler w)) = false /\
     ((exists event sc w1,
         ExtractEvent r values w = Ret ((Some event, sc), w1) /\
         (accepts s3 event \/ accepts kinesis event) /\
         loggers (handler w')
         = mkEdgeLoggers false (fst (Log s3 event)) (fst (Log kinesis event))) \/
      (exists data w0 n bData elements,
         readPayload r w = Ret (inl data, w0) /\
         maxBytesPerRequest < len data /\
         DecodeInPlace data = Some (n, bData) /\
         Unmarshal (firstn (Z.to_nat n) bData) = Some elements /\
         loggers (handler w')
         = mkEdgeLoggers false (offerAll s3 (eventsOf elements))
             (offerAll kinesis (eventsOf elements)) /\
         exists i event,
           nth_error (eventsOf elements) i = Some event /\
           (accepts (offerAll s3 (firstn i (eventsOf elements))) event \/
            accepts (offerAll kinesis (firstn i (eventsOf elements))) event)))) /\
  (forall event sc w1,
     ExtractEvent r values w = Ret ((Some event, sc), w1) ->
     ~ accepts s3 event -> ~ accepts kinesis event ->
     exists w', handleSpadeRequests r values w = Ret (StatusInternalServerError, w')) /\
  (forall data w0 n bData elements,
     readPayload r w = Ret (inl data, w0) ->
     maxBytesPerRequest < len data ->
     handleLargeEvents (handler w) = true ->
     DecodeInPlace data = Some (n, bData) ->
     1 <= n ->
     firstn 2 bData = B "[{" ->
     Unmarshal (firstn (Z.to_nat n) bData) = Some elements ->
     (forall i event,
        nth_error (eventsOf elements) i = Some event ->
        ~ accepts (offerAll s3 (firstn i (eventsOf elements))) event /\
        ~ accepts (offerAll kinesis (firstn i (eventsOf elements))) event) ->
     exists w', handleSpadeRequests r values w = Ret (StatusInternalServerError, w')).
Proof.
  intros s3 kinesis xff ip ua eventsOf. split; [|split; [|split]].
  - intros Hbody.
    destruct (handleSpadeRequests_returns r values w Hbody) as (status & w' & Hrun & _).
    now exists status, w'.
  - intros status w' Hrun H2xx.
    destruct (ExtractEvent r values w) as [[[[event|] sc] w1]|] eqn:HE.
    + destruct (handleSpadeRequests_single _ _ _ _ _ _ HE)
        as (_ & status' & w2 & Hrun' & _ & Hstored).
      rewrite Hrun in Hrun'. injection Hrun' as <- <-.
      destruct (Hstored H2xx) as (Hc & Hacc & Hl).
      split; [exact Hc|]. left. exists event, sc, w1. now repeat split.
    + rewrite (handleSpadeRequests_none _ _ _ _ _ HE) in Hrun. injection Hrun as <- <-.
      destruct (ExtractEvent_none_2xx _ _ _ _ _ HE H2xx)
        as (data & w0 & n & bData & elements & Hread & Hlen & Hon & Hdec & Hn & Hhead & Hjson).
      destruct (closed (loggers (handler w))) eqn:Hc.
      * destruct (ExtractEvent_split_closed r values w w0 data n bData elements
                    Hread Hlen Hon Hdec Hn Hhead Hjson Hc) as (w2 & HE2 & _).
        rewrite HE in HE2. injection HE2 as -> _. discriminate H2xx.
      * split; [reflexivity|]. right.
        destruct (ExtractEvent_split_open r values w w0 data n bData elements
                    Hread Hlen Hon Hdec Hn Hhead Hjson Hc) as (w2 & HE2 & Hl).
        rewrite HE in HE2. injection HE2 as Hst <-.
        exists data, w0, n, bData, elements. repeat split; try assumption.
        apply storedCount_pos.
        pose proof (storedCount_nonneg s3 kinesis (eventsOf elements)) as Hnn.
        subst sc. fold s3 kinesis xff ip ua in H2xx. fold (eventsOf elements) in H2xx.
        destruct (storedCount s3 kinesis (eventsOf elements) =? 0) eqn:Hz;
          [discriminate H2xx|]. apply Z.eqb_neq in Hz. lia.
    + unfold handleSpadeRequests, bind in Hrun. rewrite HE in Hrun. discriminate Hrun.
  - intros event sc w1 HE Hs Hk.
    destruct (handleSpadeRequests_single _ _ _ _ _ _ HE)
      as (_ & status & w' & Hrun & H500 & _).
    exists w'. rewrite Hrun. do 2 f_equal. apply H500. right. now split.
  - intros data w0 n bData elements Hread Hlen Hon Hdec Hn Hhead Hjson Hall.
    destruct (closed (loggers (handler w))) eqn:Hc.
    + destruct (ExtractEvent_split_closed r values w w0 data n bData elements
                  Hread Hlen Hon Hdec Hn Hhead Hjson Hc) as (w' & HE & _).
      exists w'. now apply handleSpadeRequests_none.
    + destruct (ExtractEvent_split_open r values w w0 data n bData elements
                  Hread Hlen Hon Hdec Hn Hhead Hjson Hc) as (w' & HE & _).
      exists w'. apply handleSpadeRequests_none. rewrite HE.
      fold s3 kinesis xff ip ua. fold (eventsOf elements).
      now rewrite (proj2 (storedCount_zero s3 kinesis (eventsOf elements)) Hall).
Qed.

(** C2, as amended.  [log] returns an error for an event exactly
    when the loggers are shutting down or both sinks fail for the
    event.  For the request whose one event was built,
    [handleSpadeRequests] returns 500 exactly then, and a 2xx status
    means that a sink took the event.  For a large request, an error
    of [log] for one element does not decide the status: 500 is
    returned exactly when the loggers are shutting down or both sinks
    fail for the event of every element, and a 2xx status means that
    a sink took the event of one element at least. *)
Theorem log_error_iff_closed_or_both_fail (r : Request) (values : Values) (w : State) :
  let s3 := S3EventLogger (loggers (handler w)) in
  let kinesis := KinesisEventLogger (loggers (handler w)) in
  let xff := HeaderGet r (IPHeader (context w)) in
  let ip := parseLastForwarder xff in
  let ua := requestUserAgent r values in
  let eventsOf elements :=
    elementEvents elements ip xff ua (Now (context w)) (instanceID (handler w))
      (handlerEdgeType (handler w)) (eventCount (handler w)) in
  (forall (e : EdgeLoggers LS LK) (event : Event) (c : RequestContext),
     snd (EdgeLoggers_log e event c) <> None <->
     closed e = true \/
     (~ accepts (S3EventLogger e) event /\ ~ accepts (KinesisEventLogger e) event)) /\
  (forall event sc w1,
     ExtractEvent r values w = Ret ((Some event, sc), w1) ->
     exists status w',
       handleSpadeRequests r values w = Ret (status, w') /\
       (status = StatusInternalServerError <->
        closed (loggers (handler w)) = true \/
        (~ accepts s3 event /\ ~ accepts kinesis event)) /\
       (is2xx status = true ->
        closed (loggers (handler w)) = false /\
        (accepts s3 event \/ accepts kinesis event))) /\
  (forall data w0 n bData elements,
     readPayload r w = Ret (inl data, w0) ->
     maxBytesPerRequest < len data ->
     handleLargeEvents (handler w) = true ->
     DecodeInPlace data = Some (n, bData) ->
     1 <= n ->
     firstn 2 bData = B "[{" ->
     Unmarshal (firstn (Z.to_nat n) bData) = Some elements ->
     exists status w',
       handleSpadeRequests r values w = Ret (status, w') /\
       (status = StatusInternalServerError <->
        closed (loggers (handler w)) = true \/
        (forall i event,
           nth_error (eventsOf elements) i = Some event ->
           ~ accepts (offerAll s3 (firstn i (eventsOf elements))) event /\
           ~ accepts (offerAll kinesis (firstn i (eventsOf elements))) event)) /\
       (is2xx status = true ->
        closed (loggers (handler w)) = false /\
        exists i event,
          nth_error (eventsOf elements) i = Some event /\
          (accepts (offerAll s3 (firstn i (eventsOf elements))) event \/
           accepts (offerAll kinesis (firstn i (eventsOf elements))) event))).
Proof.
  intros s3 kinesis xff ip ua eventsOf. split; [|split].
  - intros e event c. apply EdgeLoggers_log_error.
  - intros event sc w1 HE.
    destruct (handleSpadeRequests_single _ _ _ _ _ _ HE)
      as (_ & status & w' & Hrun & H500 & Hstored).
    exists status, w'. split; [exact Hrun|]. split; [exact H500|].
    intros H2xx. destruct (Hstored H2xx) as (Hc & Hacc & _). now split.
  - intros data w0 n bData elements Hread Hlen Hon Hdec Hn Hhead Hjson.
    destruct (closed (loggers (handler w))) eqn:Hc.
    + destruct (ExtractEvent_split_closed r values w w0 data n bData elements
                  Hread Hlen Hon Hdec Hn Hhead Hjson Hc) as (w' & HE & _).
      exists StatusInternalServerError, w'.
      split; [now apply handleSpadeRequests_none|]. split.
      * split; [intros _; now left | reflexivity].
      * rewrite is2xx_500. discriminate.
    + destruct (ExtractEvent_split_open r values w w0 data n bData elements
                  Hread Hlen Hon Hdec Hn Hhead Hjson Hc) as (w' & HE & _).
      fold s3 kinesis xff ip ua in HE. fold (eventsOf elements) in HE.
      eexists _, w'. split; [apply handleSpadeRequests_none; exact HE|].
      pose proof (storedCount_zero s3 kinesis (eventsOf elements)) as Hzero.
      pose proof (storedCount_pos s3 kinesis (eventsOf elements)) as Hpos.
      pose proof (storedCount_nonneg s3 kinesis (eventsOf elements)) as Hnn.
      destruct (storedCount s3 kinesis (eventsOf elements) =? 0) eqn:Hz.
      * apply Z.eqb_eq in Hz. split.
        -- split; [intros _; right; now apply Hzero | reflexivity].
        -- rewrite is2xx_500. discriminate.
      * apply Z.eqb_neq in Hz. split.
        -- split.
           ++ intros E. destruct (existsb oversize elements); discriminate E.
           ++ intros [Hf|Hall]; [discriminate Hf|]. apply Hzero in Hall. contradiction.
        -- intros _. split; [reflexivity|]. apply Hpos. lia.
Qed.

(** C7. A payload over 500 KiB.  With large events not handled the
    request is answered 413 and nothing is built or written.  With
    large events handled and a payload that decodes to an array, each
    element is encoded again and built into an event, the counter
    advances by the number of elements, and, the loggers being open,
    both sinks are called with every event, in order, whatever became
    of the events before it; the request is answered 500 when no
    event was taken by a sink, 413 when one was and some element is
    oversize (what the sinks took stands), and 204 otherwise: the
    status is 2xx exactly when a sink took the event of an element
    and no element is oversize.  With the loggers closed no sink is
    called and the answer is 500. *)
Theorem large_payload_status (r : Request) (values : Values) (w w0 : State) (data : bytes) :
  readPayload r w = Ret (inl data, w0) ->
  maxBytesPerRequest < len data ->
  let s3 := S3EventLogger (loggers (handler w)) in
  let kinesis := KinesisEventLogger (loggers (handler w)) in
  let xff := HeaderGet r (IPHeader (context w)) in
  let ip := parseLastForwarder xff in
  let ua := requestUserAgent r values in
  (handleLargeEvents (handler w) = false ->
   ExtractEvent r values w = Ret ((None, StatusRequestEntityTooLarge), w0) /\
   handler w0 = handler w /\ Attempts (context w0) = Attempts (context w)) /\
  (handleLargeEvents (handler w) = true ->
   forall n bData elements,
     DecodeInPlace data = Some (n, bData) ->
     1 <= n ->
     firstn 2 bData = B "[{" ->
     Unmarshal (firstn (Z.to_nat n) bData) = Some elements ->
     let produced :=
       elementEvents elements ip xff ua (Now (context w)) (instanceID (handler w))
         (handlerEdgeType (handler w)) (eventCount (handler w)) in
     exists status w',
       ExtractEvent r values w = Ret ((None, status), w') /\
       List.length produced = List.length elements /\
       map Data produced = map Base64.EncodeToString elements /\
       (eventCount (handler w') mod (uint64_max + 1)
        = (eventCount (handler w) + N.of_nat (List.length elements))
          mod (uint64_max + 1))%N /\
       (closed (loggers (handler w)) = true ->
        status = StatusInternalServerError /\
        loggers (handler w') = loggers (handler w)) /\
       (closed (loggers (handler w)) = false ->
        loggers (handler w')
        = mkEdgeLoggers false (offerAll s3 produced) (offerAll kinesis produced) /\
        status =
          (if storedCount s3 kinesis produced =? 0 then StatusInternalServerError
           else if existsb oversize elements then StatusRequestEntityTooLarge
           else StatusNoContent) /\
        (0 < storedCount s3 kinesis produced <->
         exists i event,
           nth_error produced i = Some event /\
           (accepts (offerAll s3 (firstn i produced)) event \/
            accepts (offerAll kinesis (firstn i produced)) event)) /\
        (is2xx status = true <->
         (0 < storedCount s3 kinesis produced /\ existsb oversize elements = false)))).
Proof.
  intros Hread Hlen s3 kinesis xff ip ua.
  assert ((len data >? maxBytesPerRequest) = true) as Hgt by (apply Z.gtb_lt; lia).
  split.
  - intros Hoff. split; [|now apply readPayload_handler in Hread].
    unfold ExtractEvent. unfold bind at 1. unfold get at 1. unfold bind at 1.
    rewrite Hread, Hgt, Hoff. reflexivity.
  - intros Hon n bData elements Hdec Hn Hhead Hjson produced.
    destruct (elementEvents_Data elements ip xff ua (Now (context w))
                (instanceID (handler w)) (handlerEdgeType (handler w))
                (eventCount (handler w))) as [Hdata Hlength].
    fold produced in Hdata, Hlength.
    destruct (readPayload_Now _ _ _ _ Hread) as [Hh _].
    destruct (splitLoop_returns elements ip xff ua (StatusNoContent, 0, 0) w0)
      as ([[sc ok] ko] & w' & Hloop).
    pose proof (splitLoop_eventCount _ _ _ _ _ _ _ _ Hloop) as Hcount.
    rewrite Hh in Hcount.
    pose proof (ExtractEvent_large r values w w0 w' data n bData elements sc ok ko
                  Hread Hlen Hon Hdec Hn Hhead Hjson Hloop) as HE.
    exists (if ok =? 0 then StatusInternalServerError else sc), w'.
    split; [exact HE|]. split; [exact Hlength|]. split; [exact Hdata|].
    split; [exact Hcount|]. split.
    + intros Hc.
      destruct (ExtractEvent_split_closed r values w w0 data n bData elements
                  Hread Hlen Hon Hdec Hn Hhead Hjson Hc) as (w2 & HE2 & Hl).
      rewrite HE in HE2. injection HE2 as -> <-. now split.
    + intros Hc.
      destruct (ExtractEvent_split_open r values w w0 data n bData elements
                  Hread Hlen Hon Hdec Hn Hhead Hjson Hc) as (w2 & HE2 & Hl).
      fold s3 kinesis xff ip ua in HE2, Hl. fold produced in HE2, Hl.
      rewrite HE in HE2. injection HE2 as -> <-.
      split; [exact Hl|]. split; [reflexivity|].
      split; [apply storedCount_pos|].
      pose proof (storedCount_nonneg s3 kinesis produced) as Hnn.
      destruct (storedCount s3 kinesis produced =? 0) eqn:Hz.
      * apply Z.eqb_eq in Hz. split; [discriminate | lia].
      * apply Z.eqb_neq in Hz.
        destruct (existsb oversize elements); split.
        -- intros H2. discriminate H2.
        -- intros [_ Hf]. discriminate Hf.
        -- intros _. split; [lia|reflexivity].
        -- intros _. reflexivity.
Qed.

End Requests.

(* ================================================================= *)
(** ** The S3 logger *)

(** C10. [Log] of the S3 logger returns an error exactly when the
    function that formats the event fails, and then it returns that
    error; the line is handed to the upload logger, whose [Log] returns
    nothing, so that the result of [Log] is the same whatever the
    upload logger is and does. *)
Theorem s3Logger_Log_error_iff (UploadLogger : Type)
    (UploadLogger_Log : UploadLogger -> bytes -> UploadLogger)
    (s3l : s3Logger UploadLogger) (e : Event) :
  (snd (s3Logger_Log UploadLogger UploadLogger_Log s3l e) <> None <->
   snd (eventToStringFunc s3l e) <> None) /\
  snd (s3Logger_Log UploadLogger UploadLogger_Log s3l e) = snd (eventToStringFunc s3l e) /\
  (snd (eventToStringFunc s3l e) = None ->
   uploadLogger (fst (s3Logger_Log UploadLogger UploadLogger_Log s3l e))
     = UploadLogger_Log (uploadLogger s3l) (fst (eventToStringFunc s3l e))) /\
  (forall (Other : Type) (Other_Log : Other -> bytes -> Other) (other : Other),
     snd (s3Logger_Log Other Other_Log (mkS3Logger other (eventToStringFunc s3l)) e)
       = snd (s3Logger_Log UploadLogger UploadLogger_Log s3l e)).
Proof.
  unfold s3Logger_Log. cbn [eventToStringFunc uploadLogger].
  destruct (eventToStringFunc s3l e) as [line [err|]]; cbn [fst snd];
    repeat split; intros; first [assumption | discriminate | reflexivity].
Qed.

(** An upload logger whose uploads fail still takes the line, and
    [Log] returns no error. *)
Example failed_upload_not_reported (e : Event) :
  s3Logger_Log memUploader memUploader_Log
    (mkS3Logger (mkMemUploader true []) (fun event => (Uuid event, None))) e
  = (mkS3Logger (mkMemUploader true [Uuid e]) (fun event => (Uuid event, None)), None).
Proof. reflexivity. Qed.

(* ================================================================= *)
(** ** The large request: what the loggers are given *)

Section LargeEventRoundTrip.

Variable ParseIP : bytes -> IP.
Variable TrimSpace : bytes -> bytes.
Variable DecodeInPlace : bytes -> option (Z * bytes).
Variable Unmarshal : bytes -> option (list bytes).

Context {LS LK : Type} {LogS : SpadeEdgeLogger LS} {LogK : SpadeEdgeLogger LK}.

#[local] Abbreviation Recorded := (World (Recorder LS) (Recorder LK)).

Lemma writeElement_recorded (encEvent : bytes) (clientIP : IP) (xff ua : bytes) (w : Recorded) :
  closed (loggers (handler w)) = false ->
  exists err w' event,
    writeElement encEvent clientIP xff ua w = Ret (err, w') /\
    closed (loggers (handler w')) = false /\
    seenS3 w' = seenS3 w ++ [event] /\
    seenKinesis w' = seenKinesis w ++ [event] /\
    Data event = encEvent.
Proof.
  intros Hc. unfold writeElement, bind, buildEvent, log, seenS3, seenKinesis.
  cbn [handler context loggers set_eventCount]. unfold EdgeLoggers_log. rewrite Hc.
  cbn [Log Recorder_SpadeEdgeLogger].
  destruct (Log (inner (S3EventLogger (loggers (handler w)))) _) as [s3 e1].
  destruct (Log (inner (KinesisEventLogger (loggers (handler w)))) _) as [k e2].
  destruct e1, e2; eexists _, _, _; (split; [reflexivity|]);
    cbn [handler loggers set_loggers closed S3EventLogger KinesisEventLogger seen Data];
    repeat split.
Qed.

Lemma splitLoop_recorded (events : list bytes) (clientIP : IP) (xff ua : bytes)
    (acc : Z * Z * Z) (w : Recorded) :
  closed (loggers (handler w)) = false ->
  exists acc' w' produced,
    splitLoop events clientIP xff ua acc w = Ret (acc', w') /\
    seenS3 w' = seenS3 w ++ produced /\
    seenKinesis w' = seenKinesis w ++ produced /\
    map Data produced = map Base64.EncodeToString events.
Proof.
  revert acc w. induction events as [|el rest IH]; intros [[sc ok] ko] w Hc.
  - exists (sc, ok, ko), w, []. cbn [splitLoop map]. rewrite !app_nil_r. now repeat split.
  - cbn [splitLoop]. unfold bind at 1.
    destruct (writeElement_recorded (Base64.EncodeToString el) clientIP xff ua w Hc)
      as (err & w1 & event & -> & Hc1 & Hs & Hk & Hd).
    destruct err as [msg|];
      [ destruct (IH (if len (Base64.EncodeToString el) >? maxBytesPerRequest
                      then StatusRequestEntityTooLarge else sc, ok, ko + 1) w1 Hc1)
          as (acc' & w' & produced & -> & Hs' & Hk' & Hd')
      | destruct (IH (if len (Base64.EncodeToString el) >? maxBytesPerRequest
                      then StatusRequestEntityTooLarge else sc, ok + 1, ko) w1 Hc1)
          as (acc' & w' & produced & -> & Hs' & Hk' & Hd') ];
      exists acc', w', (event :: produced);
      (split; [reflexivity|]);
      rewrite Hs', Hk', Hs, Hk, <- !app_assoc; cbn [app map];
      rewrite Hd, Hd'; now repeat split.
Qed.

(** C8. A large payload that decodes to a JSON array: the events that
    the split path hands to the two loggers, one after the other,
    carry as data the standard base64 of the elements, so that
    decoding the data of each gives the elements of the array back in
    their order. *)
Theorem split_events_round_trip (r : Request) (values : Values) (w w0 : Recorded)
    (data : bytes) (n : Z) (bData : bytes) (elements : list bytes) :
  readPayload r w = Ret (inl data, w0) ->
  maxBytesPerRequest < len data ->
  handleLargeEvents (handler w) = true ->
  closed (loggers (handler w)) = false ->
  DecodeInPlace data = Some (n, bData) ->
  1 <= n ->
  firstn 2 bData = B "[{" ->
  Unmarshal (firstn (Z.to_nat n) bData) = Some elements ->
  exists status w' produced,
    ExtractEvent ParseIP TrimSpace DecodeInPlace Unmarshal r values w
      = Ret ((None, status), w') /\
    seenS3 w' = seenS3 w ++ produced /\
    seenKinesis w' = seenKinesis w ++ produced /\
    map (fun event => Base64.DecodeString (Data event)) produced = map Some elements.
Proof.
  intros Hread Hlen Hon Hc Hdec Hn Hhead Hjson.
  destruct (readPayload_handler r w w0 _ Hread) as [Hh _].
  assert (closed (loggers (handler w0)) = false) as Hc0 by now rewrite Hh.
  destruct (splitLoop_recorded elements
              (parseLastForwarder ParseIP TrimSpace (HeaderGet r (IPHeader (context w))))
              (HeaderGet r (IPHeader (context w))) (requestUserAgent r values)
              (StatusNoContent, 0, 0) w0 Hc0)
    as ([[sc ok] ko] & w' & produced & Hloop & Hs & Hk & Hd).
  exists (if ok =? 0 then StatusInternalServerError else sc), w', produced.
  split; [|split; [|split]].
  - exact (ExtractEvent_large ParseIP TrimSpace DecodeInPlace Unmarshal r values w w0 w'
             data n bData elements sc ok ko Hread Hlen Hon Hdec Hn Hhead Hjson Hloop).
  - rewrite Hs. unfold seenS3. now rewrite Hh.
  - rewrite Hk. unfold seenKinesis. now rewrite Hh.
  - rewrite <- (map_map Data Base64.DecodeString), Hd. apply map_Decode_Encode.
Qed.

End LargeEventRoundTrip.

(* ================================================================= *)
(** ** The large request: the events of its elements *)

Section LargeEventFields.

Context {LS LK : Type} {LogS : SpadeEdgeLogger LS} {LogK : SpadeEdgeLogger LK}.

#[local] Abbreviation Recording := (World (Recorder LS) (Recorder LK)).

Lemma writeElement_event (encEvent : bytes) (clientIP : IP) (xff ua : bytes) (w : Recording) :
  closed (loggers (handler w)) = false ->
  exists err w',
    writeElement encEvent clientIP xff ua w = Ret (err, w') /\
    closed (loggers (handler w')) = false /\
    seenS3 w'
      = seenS3 w
        ++ [NewEvent (Now (context w)) clientIP xff
              (uuidOf (instanceID (handler w)) (Now (context w))
                 (uint64_add (eventCount (handler w)) 1))
              encEvent ua (handlerEdgeType (handler w))] /\
    seenKinesis w'
      = seenKinesis w
        ++ [NewEvent (Now (context w)) clientIP xff
              (uuidOf (instanceID (handler w)) (Now (context w))
                 (uint64_add (eventCount (handler w)) 1))
              encEvent ua (handlerEdgeType (handler w))] /\
    eventCount (handler w') = uint64_add (eventCount (handler w)) 1 /\
    instanceID (handler w') = instanceID (handler w) /\
    handlerEdgeType (handler w') = handlerEdgeType (handler w) /\
    Now (context w') = Now (context w).
Proof.
  intros Hc. unfold writeElement, bind, buildEvent, log, seenS3, seenKinesis.
  cbn [handler context loggers set_eventCount]. unfold EdgeLoggers_log. rewrite Hc.
  cbn [Log Recorder_SpadeEdgeLogger].
  destruct (Log (inner (S3EventLogger (loggers (handler w)))) _) as [s3 e1].
  destruct (Log (inner (KinesisEventLogger (loggers (handler w)))) _) as [k e2].
  destruct e1, e2; eexists _, _; (split; [reflexivity|]);
    cbn [handler loggers set_loggers closed S3EventLogger KinesisEventLogger seen
           eventCount instanceID handlerEdgeType context RecordLoggerAttempt Now];
    repeat split.
Qed.

Lemma NoDup_uuids (instance : bytes) (now : Time) (count : N) (events : list Event) :
  (forall i event,
     nth_error events i = Some event ->
     Uuid event = uuidOf instance now (count + 1 + N.of_nat i)) ->
  NoDup (map Uuid events).
Proof.
  intros Hnth. apply NoDup_nth_error. intros i j Hi Eij.
  rewrite length_map in Hi. rewrite !nth_error_map in Eij.
  destruct (nth_error events i) as [ei|] eqn:Hei;
    [|apply nth_error_None in Hei; lia].
  destruct (nth_error events j) as [ej|] eqn:Hej; [|discriminate].
  cbn [option_map] in Eij. injection Eij as Eij.
  rewrite (Hnth i ei Hei), (Hnth j ej Hej) in Eij. apply uuidOf_inj in Eij. lia.
Qed.

(** The events written for the elements of one large request, while
    the loggers are open and the counter does not wrap: each logger is
    handed one event for every element, in order; the events carry
    the client address, the forwarded-for header and the user agent of
    the request, the time of its context and the edge type of the
    handler; their uuids carry consecutive values of the counter and
    no two of them are equal. *)
Theorem split_events_fields (events : list bytes) (clientIP : IP) (xff ua : bytes)
    (acc : Z * Z * Z) (w : Recording) :
  closed (loggers (handler w)) = false ->
  (eventCount (handler w) + N.of_nat (List.length events) <= uint64_max)%N ->
  exists acc' w' produced,
    splitLoop events clientIP xff ua acc w = Ret (acc', w') /\
    seenS3 w' = seenS3 w ++ produced /\
    seenKinesis w' = seenKinesis w ++ produced /\
    List.length produced = List.length events /\
    Forall (fun event =>
              ClientIp event = clientIP /\ XForwardedFor event = xff /\
              UserAgent event = ua /\ ReceivedAt event = Now (context w) /\
              EdgeType event = handlerEdgeType (handler w)) produced /\
    (forall i event,
       nth_error produced i = Some event ->
       Uuid event
         = uuidOf (instanceID (handler w)) (Now (context w))
             (eventCount (handler w) + 1 + N.of_nat i)) /\
    NoDup (map Uuid produced).
Proof.
  intros Hc Hmax.
  enough (exists acc' w' produced,
            splitLoop events clientIP xff ua acc w = Ret (acc', w') /\
            seenS3 w' = seenS3 w ++ produced /\
            seenKinesis w' = seenKinesis w ++ produced /\
            List.length produced = List.length events /\
            Forall (fun event =>
                      ClientIp event = clientIP /\ XForwardedFor event = xff /\
                      UserAgent event = ua /\ ReceivedAt event = Now (context w) /\
                      EdgeType event = handlerEdgeType (handler w)) produced /\
            (forall i event,
               nth_error produced i = Some event ->
               Uuid event
                 = uuidOf (instanceID (handler w)) (Now (context w))
                     (eventCount (handler w) + 1 + N.of_nat i)))
    as (acc' & w' & produced & Hrun & Hs & Hk & Hlen & Hfields & Hnth).
  { exists acc', w', produced. repeat split; try assumption.
    now apply (NoDup_uuids (instanceID (handler w)) (Now (context w))
                 (eventCount (handler w))). }
  revert acc w Hc Hmax. induction events as [|el rest IH]; intros [[sc ok] ko] w Hc Hmax.
  - exists (sc, ok, ko), w, []. cbn [splitLoop]. rewrite !app_nil_r.
    repeat split; [constructor|]. intros [|i] event E; discriminate E.
  - cbn [splitLoop]. unfold bind at 1. cbn [List.length] in Hmax.
    destruct (writeElement_event (Base64.EncodeToString el) clientIP xff ua w Hc)
      as (err & w1 & -> & Hc1 & Hs & Hk & Hcount & Hid & Htype & Hnow).
    assert (uint64_add (eventCount (handler w)) 1 = (eventCount (handler w) + 1)%N) as Hadd
      by (unfold uint64_add; apply N.mod_small; lia).
    rewrite Hadd in *.
    assert (eventCount (handler w1) + N.of_nat (List.length rest) <= uint64_max)%N as Hmax1
      by lia.
    destruct err as [msg|];
      [ destruct (IH (if len (Base64.EncodeToString el) >? maxBytesPerRequest
                      then StatusRequestEntityTooLarge else sc, ok, ko + 1) w1 Hc1 Hmax1)
          as (acc' & w' & produced & -> & Hs' & Hk' & Hlen & Hfields & Hnth)
      | destruct (IH (if len (Base64.EncodeToString el) >? maxBytesPerRequest
                      then StatusRequestEntityTooLarge else sc, ok + 1, ko) w1 Hc1 Hmax1)
          as (acc' & w' & produced & -> & Hs' & Hk' & Hlen & Hfields & Hnth) ];
      eexists acc', w', (_ :: produced);
      (split; [reflexivity|]);
      (split; [rewrite Hs', Hs, <- app_assoc; reflexivity|]);
      (split; [rewrite Hk', Hk, <- app_assoc; reflexivity|]);
      (split; [cbn [List.length]; now rewrite Hlen|]);
      (split;
       [constructor; [cbn; now repeat split | now rewrite Hnow, Htype in Hfields]|]);
      intros [|i] event E; cbn [nth_error] in E;
      [ injection E as <-; cbn [Uuid]; f_equal; lia
      | rewrite (Hnth i event E), Hid, Hnow, Hcount; f_equal; lia
      | injection E as <-; cbn [Uuid]; f_equal; lia
      | rewrite (Hnth i event E), Hid, Hnow, Hcount; f_equal; lia ].
Qed.

End LargeEventFields.

(* ================================================================= *)
(** ** The properties on sample requests *)

#[local] Abbreviation ExtractEvent' :=
  (ExtractEvent textIP asciiTrimSpace stdDecodeInPlace rawElements).
#[local] Abbreviation handleSpadeRequests' :=
  (handleSpadeRequests textIP asciiTrimSpace stdDecodeInPlace rawElements).
#[local] Abbreviation serve' :=
  (serve textIP asciiTrimSpace stdDecodeInPlace rawElements (B "text/xml; charset=utf-8")).

Lemma ReadAll_of_slice (body : bytes) : ReadAll_slice (ReadAll_of body).
Proof.
  unfold ReadAll_slice, ReadAll_of, cap. cbn [arr slen].
  rewrite length_app, repeat_length. repeat split; try lia.
  rewrite skipn_app, Nat.sub_diag, skipn_all. cbn [app skipn].
  apply Forall_forall. intros c Hc. now apply repeat_spec in Hc.
Qed.

(** Without the capacity [ioutil.ReadAll] gives its result, [b[:5]] on
    a body of three bytes panics. *)
Example short_capacity_panics :
  readPayload
    (mkRequest (B "POST") (B "/track") [] sampleHeaders None [] (mkSlice (B "abc") 3, None))
    (sampleWorld acceptingLogger acceptingLogger false)
  = Panic "slice bounds out of range".
Proof. reflexivity. Qed.

(** The happy GET of the spec: [GET /track?data=eyJ4IjoxfQ%3D%3D] is
    answered 204 and each logger stores the one event. *)
Example happy_GET :
  exists event w',
    handleSpadeRequests' (sampleGET (dataQuery sampleData)) (dataQuery sampleData)
      (sampleWorld acceptingLogger acceptingLogger false) = Ret (StatusNoContent, w') /\
    stored (S3EventLogger (loggers (handler w'))) = [event] /\
    stored (KinesisEventLogger (loggers (handler w'))) = [event] /\
    Uuid event = B "edge-host-cluster-59682f00-00000001" /\
    ClientIp event = B "198.51.100.7" /\
    Base64.DecodeString (Data event) = Some (jsonObject "x" (B "1")).
Proof. eexists _, _. split; [cbv; reflexivity|]. repeat split. Qed.

(** C1: a request whose event the S3 logger refuses and the Kinesis
    logger stores is answered 204. *)
Lemma two_xx_with_a_failed_sink :
  exists event sc w1 w2,
    ExtractEvent' (sampleGET (dataQuery sampleData)) (dataQuery sampleData)
      (sampleWorld refusingLogger acceptingLogger false) = Ret ((Some event, sc), w1) /\
    handleSpadeRequests' (sampleGET (dataQuery sampleData)) (dataQuery sampleData)
      (sampleWorld refusingLogger acceptingLogger false) = Ret (StatusNoContent, w2) /\
    is2xx StatusNoContent = true /\
    ~ accepts (S3EventLogger (loggers (handler w1))) event /\
    stored (S3EventLogger (loggers (handler w2))) = [] /\
    stored (KinesisEventLogger (loggers (handler w2))) = [event].
Proof.
  eexists _, _, _, _. split; [cbv; reflexivity|]. split; [cbv; reflexivity|].
  split; [reflexivity|]. split; [discriminate|]. split; reflexivity.
Qed.

(** C2: with the loggers closed, [log] returns an error and the
    request is answered 500, though neither logger fails for the
    event. *)
Lemma error_without_a_failed_sink :
  exists e event sc w1 w2,
    EdgeLoggers_Close (NewEdgeLoggers acceptingLogger acceptingLogger) = Ret e /\
    ExtractEvent' (sampleGET (dataQuery sampleData)) (dataQuery sampleData)
      (mkWorld (set_loggers e (sampleHandler acceptingLogger acceptingLogger false))
         sampleContext) = Ret ((Some event, sc), w1) /\
    handleSpadeRequests' (sampleGET (dataQuery sampleData)) (dataQuery sampleData)
      (mkWorld (set_loggers e (sampleHandler acceptingLogger acceptingLogger false))
         sampleContext) = Ret (StatusInternalServerError, w2) /\
    snd (EdgeLoggers_log (loggers (handler w1)) event (context w1)) <> None /\
    accepts (S3EventLogger (loggers (handler w1))) event /\
    accepts (KinesisEventLogger (loggers (handler w1))) event.
Proof.
  eexists _, _, _, _, _. split; [reflexivity|]. split; [cbv; reflexivity|].
  split; [cbv; reflexivity|]. split; [discriminate|]. split; reflexivity.
Qed.

(** C3: [Close] twice on open loggers panics. *)
Lemma Close_twice_panics :
  exists e,
    EdgeLoggers_Close (NewEdgeLoggers acceptingLogger acceptingLogger) = Ret e /\
    EdgeLoggers_Close e = Panic "close of closed channel".
Proof. eexists. split; reflexivity. Qed.

Lemma Close_once_witness :
  EdgeLoggers_Close (NewEdgeLoggers acceptingLogger refusingLogger)
    = Ret (mkEdgeLoggers true (mkMemLogger true [] true) (mkMemLogger false [] true)) /\
  EdgeLoggers_Close (mkEdgeLoggers true (mkMemLogger true [] true) (mkMemLogger false [] true))
    = Panic "close of closed channel".
Proof.
  destruct (Close_once_then_panic (NewEdgeLoggers acceptingLogger refusingLogger)
              (mkMemLogger true [] true) (mkMemLogger false [] true))
    as (Hfirst & Hsecond & _ & _); [reflexivity ..|].
  split; [exact Hfirst | exact Hsecond].
Defined.

(** C4: the body written for [img=1] is 42 bytes long, not 43. *)
Lemma pixel_is_42_bytes :
  exists w' st',
    serve' freshWriter (sampleGET (pixelQuery sampleData))
      (sampleWorld acceptingLogger acceptingLogger false) = Ret ((StatusOK, w'), st') /\
    wBody w' = transparentPixel /\
    len (wBody w') = 42 /\
    len (wBody w') <> 43.
Proof.
  eexists _, _. split; [cbv; reflexivity|]. split; [reflexivity|].
  split; [reflexivity|discriminate].
Qed.

(** [serve] answers a request for the pixel with 200 and the GIF
    whatever status [handleSpadeRequests] returned: here both loggers
    refuse the event and that status is 500. *)
Example pixel_answer_whatever_the_status :
  exists w' st',
    serve' freshWriter (sampleGET (pixelQuery sampleData))
      (sampleWorld refusingLogger refusingLogger false) = Ret ((StatusOK, w'), st') /\
    handleSpadeRequests' (sampleGET (pixelQuery sampleData)) (pixelQuery sampleData)
      (sampleWorld refusingLogger refusingLogger false)
      = Ret (StatusInternalServerError, st') /\
    wStatus w' = Some StatusOK /\
    wBody w' = transparentPixel /\
    stored (S3EventLogger (loggers (handler st'))) = [] /\
    stored (KinesisEventLogger (loggers (handler st'))) = [].
Proof. eexists _, _. split; [cbv; reflexivity|]. repeat split. Qed.

Lemma pixel_or_no_content_witness :
  (exists w' st',
     serve' freshWriter (sampleGET (pixelQuery sampleData))
       (sampleWorld acceptingLogger acceptingLogger false) = Ret ((StatusOK, w'), st') /\
     wStatus w' = Some StatusOK /\
     Header_Get (wHeader w') (B "Content-Type") = B "image/gif" /\
     Header_Get (wHeader w') (B "Cache-Control") = B "no-cache, max-age=0" /\
     wBody w' = transparentPixel) /\
  len transparentPixel = 42.
Proof.
  destruct (pixel_or_no_content textIP asciiTrimSpace stdDecodeInPlace rawElements
              (B "text/xml; charset=utf-8") freshWriter (sampleGET (pixelQuery sampleData))
              (sampleWorld acceptingLogger acceptingLogger false)
              eq_refl (ReadAll_of_slice []) eq_refl eq_refl)
    as (Hpixel & _ & Hlen & _).
  split; [exact (Hpixel eq_refl) | exact Hlen].
Defined.

(** A run of three requests, the last one a second later. *)
Example sample_uuids :
  exists events w',
    buildEvents
      [(sampleContext, sampleData); (sampleContext, sampleData);
       (mkRequestContext (mkTime 1500000001 0) (B "GET") (B "/track") ipForwardHeader
          false 0 [], sampleData)]
      (B "198.51.100.7") (B "203.0.113.9, 198.51.100.7") []
      (sampleWorld acceptingLogger acceptingLogger false) = Ret (events, w') /\
    map Uuid events
      = [B "edge-host-cluster-59682f00-00000001"; B "edge-host-cluster-59682f00-00000002";
         B "edge-host-cluster-59682f01-00000003"].
Proof. eexists _, _. split; cbv; reflexivity. Qed.

Lemma uuids_of_a_run_witness :
  exists events w',
    buildEvents
      [(sampleContext, sampleData); (sampleContext, sampleData);
       (mkRequestContext (mkTime 1500000001 0) (B "GET") (B "/track") ipForwardHeader
          false 0 [], sampleData)]
      (B "198.51.100.7") (B "203.0.113.9, 198.51.100.7") []
      (sampleWorld acceptingLogger acceptingLogger false) = Ret (events, w') /\
    List.length events = 3%nat /\
    NoDup (map Uuid events).
Proof.
  destruct (uuids_of_a_run_distinct
              [(sampleContext, sampleData); (sampleContext, sampleData);
               (mkRequestContext (mkTime 1500000001 0) (B "GET") (B "/track")
                  ipForwardHeader false 0 [], sampleData)]
              (B "198.51.100.7") (B "203.0.113.9, 198.51.100.7") []
              (sampleWorld acceptingLogger acceptingLogger false))
    as (events & w' & Hrun & Hlen & _ & Hdistinct).
  - vm_compute. discriminate.
  - exists events, w'. split; [exact Hrun|]. split; [exact Hlen | exact Hdistinct].
Defined.

(** A body of three bytes, under the five of [data=]. *)
Lemma raw_POST_body_witness :
  (exists res w',
     ExtractEvent' (samplePOST (B "dat")) []
       (sampleWorld acceptingLogger acceptingLogger false) = Ret (res, w')) /\
  readPayload (samplePOST (B "dat")) (sampleWorld acceptingLogger acceptingLogger false)
    = Ret (inl (B "dat"), sampleWorld acceptingLogger acceptingLogger false).
Proof.
  destruct (raw_POST_body_read textIP asciiTrimSpace stdDecodeInPlace rawElements
              (samplePOST (B "dat")) [] (sampleWorld acceptingLogger acceptingLogger false)
              (ReadAll_of (B "dat")) eq_refl eq_refl eq_refl eq_refl (ReadAll_of_slice _))
    as (Hreturns & Hread & _).
  split; [exact Hreturns | exact Hread].
Defined.

(** The bad client of the spec: the body [data=eyJhIjoxfQ==]. *)
Example bad_client_POST :
  exists event w',
    ExtractEvent' (samplePOST (B "data=eyJhIjoxfQ==")) []
      (sampleWorld acceptingLogger acceptingLogger false)
      = Ret ((Some event, StatusNoContent), w') /\
    Data event = B "eyJhIjoxfQ==" /\ BadClient (context w') = true.
Proof. eexists _, _. split; [cbv; reflexivity|]. split; reflexivity. Qed.

(** The large sample decodes to its array and splits into its
    elements. *)
Lemma largeData_len : maxBytesPerRequest < len largeData.
Proof. apply Z.ltb_lt. vm_compute. reflexivity. Qed.

Lemma largeData_decodes :
  stdDecodeInPlace largeData
    = Some (len largeArray, largeArray ++ skipn (List.length largeArray) largeData).
Proof. unfold stdDecodeInPlace, largeData. now rewrite Decode_Encode. Qed.

Lemma largeArray_firstn :
  firstn (Z.to_nat (len largeArray))
    (largeArray ++ skipn (List.length largeArray) largeData) = largeArray.
Proof.
  unfold len. rewrite Nat2Z.id, firstn_app, Nat.sub_diag, firstn_all.
  cbn [firstn]. apply app_nil_r.
Qed.

Lemma largeArray_elements : rawElements largeArray = Some largeElements.
Proof.
  destruct (rawElements largeArray) as [elements|] eqn:E.
  - f_equal. apply elements_Equal_eq.
    change elements with (match Some elements with Some l => l | None => [] end).
    rewrite <- E. vm_compute. reflexivity.
  - exfalso.
    assert (match rawElements largeArray with Some _ => true | None => false end = true)
      as Hsome by (vm_compute; reflexivity).
    rewrite E in Hsome. discriminate.
Qed.

Lemma largeArray_len : 1 <= len largeArray.
Proof. apply Z.leb_le. vm_compute. reflexivity. Qed.

Lemma largeArray_head :
  firstn 2 (largeArray ++ skipn (List.length largeArray) largeData) = B "[{".
Proof. reflexivity. Qed.

Lemma largeArray_unmarshal :
  rawElements
    (firstn (Z.to_nat (len largeArray))
       (largeArray ++ skipn (List.length largeArray) largeData)) = Some largeElements.
Proof. rewrite largeArray_firstn. exact largeArray_elements. Qed.

Lemma offerAll_accepting (l : memLogger) (events : list Event) :
  accepting l = true -> stored (offerAll l events) = stored l ++ events.
Proof.
  revert l. induction events as [|event rest IH]; intros l Hacc.
  - cbn. now rewrite app_nil_r.
  - cbn [offerAll fold_left]. cbn [Log memLogger_SpadeEdgeLogger]. rewrite Hacc.
    cbn [fst]. change (fold_left _ rest ?l') with (offerAll l' rest).
    rewrite IH by reflexivity. cbn [stored]. now rewrite <- app_assoc.
Qed.

(** The large sample with a sink that takes the events and one that
    refuses them: 204, and the first sink holds the events of the two
    elements; with large events not handled, 413 and nothing else. *)
Lemma large_payload_witness :
  maxBytesPerRequest < len largeData /\
  (exists w',
     ExtractEvent' (sampleGET (dataQuery largeData)) (dataQuery largeData)
       (sampleWorld acceptingLogger refusingLogger true)
       = Ret ((None, StatusNoContent), w') /\
     map Data (stored (S3EventLogger (loggers (handler w'))))
     = map Base64.EncodeToString largeElements /\
     stored (KinesisEventLogger (loggers (handler w'))) = []) /\
  ExtractEvent' (sampleGET (dataQuery largeData)) (dataQuery largeData)
    (sampleWorld acceptingLogger refusingLogger false)
    = Ret ((None, StatusRequestEntityTooLarge), sampleWorld acceptingLogger refusingLogger false).
Proof.
  split; [exact largeData_len|]. split.
  - destruct (large_payload_status textIP asciiTrimSpace stdDecodeInPlace rawElements
                (sampleGET (dataQuery largeData)) (dataQuery largeData)
                (sampleWorld acceptingLogger refusingLogger true)
                (sampleWorld acceptingLogger refusingLogger true) largeData
                eq_refl largeData_len) as [_ Hon].
    pose proof (Hon eq_refl (len largeArray)
                  (largeArray ++ skipn (List.length largeArray) largeData) largeElements
                  largeData_decodes largeArray_len largeArray_head largeArray_unmarshal)
      as Hsplit.
    cbv zeta in Hsplit.
    destruct Hsplit as (status & w' & Hrun & _ & Hdata & _ & _ & Hopen).
    destruct (Hopen eq_refl) as (Hl & Hstatus & _).
    exists w'. split; [|split].
    + assert (status = StatusNoContent) as Hs
        by (rewrite Hstatus; vm_compute; reflexivity).
      now rewrite Hrun, Hs.
    + rewrite Hl. cbn [S3EventLogger]. rewrite offerAll_accepting by reflexivity.
      exact Hdata.
    + rewrite Hl. reflexivity.
  - destruct (large_payload_status textIP asciiTrimSpace stdDecodeInPlace rawElements
                (sampleGET (dataQuery largeData)) (dataQuery largeData)
                (sampleWorld acceptingLogger refusingLogger false)
                (sampleWorld acceptingLogger refusingLogger false) largeData
                eq_refl largeData_len) as [Hoff _].
    exact (proj1 (Hoff eq_refl)).
Defined.

Lemma split_events_round_trip_witness :
  exists status w' produced,
    ExtractEvent' (sampleGET (dataQuery largeData)) (dataQuery largeData)
      (sampleWorld (mkRecorder acceptingLogger []) (mkRecorder refusingLogger []) true)
      = Ret ((None, status), w') /\
    seenS3 w' = produced /\
    seenKinesis w' = produced /\
    map (fun event => Base64.DecodeString (Data event)) produced = map Some largeElements.
Proof.
  destruct (split_events_round_trip textIP asciiTrimSpace stdDecodeInPlace rawElements
              (sampleGET (dataQuery largeData)) (dataQuery largeData)
              (sampleWorld (mkRecorder acceptingLogger []) (mkRecorder refusingLogger []) true)
              (sampleWorld (mkRecorder acceptingLogger []) (mkRecorder refusingLogger []) true)
              largeData (len largeArray)
              (largeArray ++ skipn (List.length largeArray) largeData) largeElements
              eq_refl largeData_len eq_refl eq_refl
              largeData_decodes largeArray_len largeArray_head largeArray_unmarshal)
    as (status & w' & produced & Hrun & Hs3 & Hkinesis & Hdecoded).
  exists status, w', produced.
  split; [exact Hrun|]. split; [exact Hs3|]. split; [exact Hkinesis | exact Hdecoded].
Defined.

(* ================================================================= *)
(** ** A large request and sinks that fill up *)

#[local] Abbreviation quotaEvents :=
  (elementEvents largeElements
     (parseLastForwarder textIP asciiTrimSpace (B "203.0.113.9, 198.51.100.7"))
     (B "203.0.113.9, 198.51.100.7") [] (mkTime 1500000000 0) (B "edge-host-cluster")
     (B "internal") 0%N).

Lemma quota_split_run :
  exists w',
    ExtractEvent' (sampleGET (dataQuery largeData)) (dataQuery largeData) quotaWorld
      = Ret ((None, StatusNoContent), w') /\
    loggers (handler w')
    = mkEdgeLoggers false (offerAll (mkQuotaLogger 1 []) quotaEvents)
        (offerAll (mkQuotaLogger 1 []) quotaEvents).
Proof.
  destruct (ExtractEvent_split_open textIP asciiTrimSpace stdDecodeInPlace rawElements
              (sampleGET (dataQuery largeData)) (dataQuery largeData) quotaWorld quotaWorld
              largeData (len largeArray)
              (largeArray ++ skipn (List.length largeArray) largeData) largeElements
              eq_refl largeData_len eq_refl largeData_decodes largeArray_len largeArray_head
              largeArray_unmarshal eq_refl) as (w' & Hrun & Hl).
  exists w'. split; [|exact Hl].
  match type of Hrun with
  | _ = Ret ((None, ?status), _) =>
      assert (status = StatusNoContent) as Hs by (vm_compute; reflexivity);
      rewrite Hs in Hrun
  end.
  exact Hrun.
Qed.

(** A large request of two elements and two sinks with room for one
    event each: [handleSpadeRequests] returns 204, though [log]
    returned an error for the event of the second element, which both
    sinks refused. *)
Example split_2xx_with_a_refused_event :
  exists w' e1 e2,
    handleSpadeRequests' (sampleGET (dataQuery largeData)) (dataQuery largeData) quotaWorld
      = Ret (StatusNoContent, w') /\
    quotaEvents = [e1; e2] /\
    taken (S3EventLogger (loggers (handler w'))) = [e1] /\
    taken (KinesisEventLogger (loggers (handler w'))) = [e1] /\
    ~ accepts (offerAll (mkQuotaLogger 1 []) [e1]) e2 /\
    snd (EdgeLoggers_log
           (mkEdgeLoggers false (offerAll (mkQuotaLogger 1 []) [e1])
              (offerAll (mkQuotaLogger 1 []) [e1])) e2 sampleContext) <> None.
Proof.
  destruct quota_split_run as (w' & Hrun & Hl).
  eexists w', _, _. split; [now apply handleSpadeRequests_none|].
  split; [reflexivity|]. rewrite Hl.
  split; [reflexivity|]. split; [reflexivity|]. split; discriminate.
Qed.

Lemma built_event_stored_witness :
  exists status w',
    handleSpadeRequests' (sampleGET (dataQuery largeData)) (dataQuery largeData) quotaWorld
      = Ret (status, w') /\
    is2xx status = true /\
    closed (loggers (handler quotaWorld)) = false /\
    exists i event,
      nth_error quotaEvents i = Some event /\
      (accepts (offerAll (mkQuotaLogger 1 []) (firstn i quotaEvents)) event \/
       accepts (offerAll (mkQuotaLogger 1 []) (firstn i quotaEvents)) event).
Proof.
  destruct quota_split_run as (w' & Hrun & _).
  apply (handleSpadeRequests_none textIP asciiTrimSpace stdDecodeInPlace rawElements) in Hrun.
  pose proof (built_event_stored_or_not_2xx textIP asciiTrimSpace stdDecodeInPlace
                rawElements (sampleGET (dataQuery largeData)) (dataQuery largeData)
                quotaWorld) as Hclaim.
  cbv zeta in Hclaim. destruct Hclaim as (_ & H2xx & _).
  destruct (H2xx StatusNoContent w' Hrun eq_refl) as [Hopen Hstored].
  exists StatusNoContent, w'. split; [exact Hrun|]. split; [reflexivity|].
  split; [exact Hopen|].
  exists 0%nat. eexists. split; [reflexivity|]. left. reflexivity.
Defined.

Lemma log_error_iff_witness :
  exists event sc w1,
    ExtractEvent' (sampleGET (dataQuery sampleData)) (dataQuery sampleData)
      (sampleWorld refusingLogger refusingLogger false) = Ret ((Some event, sc), w1) /\
    exists status w2,
      handleSpadeRequests' (sampleGET (dataQuery sampleData)) (dataQuery sampleData)
        (sampleWorld refusingLogger refusingLogger false) = Ret (status, w2) /\
      status = StatusInternalServerError.
Proof.
  eexists _, _, _. split; [cbv; reflexivity|].
  pose proof (log_error_iff_closed_or_both_fail textIP asciiTrimSpace stdDecodeInPlace
                rawElements (sampleGET (dataQuery sampleData)) (dataQuery sampleData)
                (sampleWorld refusingLogger refusingLogger false)) as Hclaim.
  cbv zeta in Hclaim. destruct Hclaim as (_ & Hsingle & _).
  destruct (Hsingle _ _ _ eq_refl) as (status & w2 & Hrun & H500 & _).
  exists status, w2. split; [exact Hrun|].
  apply H500. right. split; discriminate.
Defined.

(* ================================================================= *)
(** ** The further properties on sample requests *)

#[local] Abbreviation ServeHTTP' :=
  (ServeHTTP textIP asciiTrimSpace stdDecodeInPlace rawElements (B "text/xml; charset=utf-8")).

(** Two events of two handlers with the same instance id, built in
    the same second with the same counter, share their uuid. *)
Lemma uuid_determines_fields_witness :
  exists e1 w1' e2 w2',
    buildEvent sampleData (B "198.51.100.7") [] []
      (sampleWorld acceptingLogger acceptingLogger false) = Ret (e1, w1') /\
    buildEvent (B "e30=") (B "203.0.113.9") [] []
      (sampleWorld refusingLogger refusingLogger true) = Ret (e2, w2') /\
    Uuid e1 = Uuid e2 /\
    Unix (ReceivedAt e1) = Unix (ReceivedAt e2) /\
    eventCount (handler w1') = eventCount (handler w2').
Proof.
  eexists _, _, _, _. split; [cbv; reflexivity|]. split; [cbv; reflexivity|].
  split; [reflexivity|].
  destruct (uuid_determines_fields
              (sampleWorld acceptingLogger acceptingLogger false)
              (sampleWorld refusingLogger refusingLogger true) _ _ _ _
              sampleData (B "e30=") (B "198.51.100.7") (B "203.0.113.9") [] [] [] []
              eq_refl eq_refl)
    as (_ & Htime & Hcount).
  - vm_compute. discriminate.
  - vm_compute. discriminate.
  - reflexivity.
  - split; [exact Htime | exact Hcount].
Defined.

Lemma uuid_width_witness :
  exists event w',
    buildEvent sampleData (B "198.51.100.7") [] []
      (sampleWorld acceptingLogger acceptingLogger false) = Ret (event, w') /\
    (eventCount (handler w') < 2 ^ 32)%N /\
    len (Uuid event) = len (B "edge-host-cluster") + 18.
Proof.
  eexists _, _. split; [cbv; reflexivity|]. split; [reflexivity|].
  apply (uuid_width (sampleWorld acceptingLogger acceptingLogger false) _ _
           sampleData (B "198.51.100.7") [] [] eq_refl).
  - vm_compute. split; [discriminate | reflexivity].
  - reflexivity.
Defined.

Lemma extracted_event_fields_witness :
  exists event w',
    ExtractEvent' (sampleGET (dataQuery sampleData)) (dataQuery sampleData)
      (sampleWorld acceptingLogger acceptingLogger false)
      = Ret ((Some event, StatusNoContent), w') /\
    Data event <> [] /\
    len (Data event) <= maxBytesPerRequest /\
    UserAgent event = [] /\
    eventCount (handler w') = 1%N.
Proof.
  eexists _, _. split; [cbv; reflexivity|].
  destruct (extracted_event_fields textIP asciiTrimSpace stdDecodeInPlace rawElements
              (sampleGET (dataQuery sampleData)) (dataQuery sampleData)
              (sampleWorld acceptingLogger acceptingLogger false) _ _ _ eq_refl)
    as (Hdata & Hlen & _ & Hua & _ & _ & _ & _ & Hcount & _).
  split; [exact Hdata|]. split; [exact Hlen|]. split; [exact (Hua eq_refl)|].
  exact Hcount.
Defined.

(** A POST with a form: the payload of the form is taken as it is. *)
Lemma form_data_accepted_witness :
  exists event,
    ExtractEvent' (sampleFormPOST sampleData) []
      (sampleWorld acceptingLogger acceptingLogger false)
      = Ret ((Some event, StatusNoContent),
             mkWorld (set_eventCount 1%N (sampleHandler acceptingLogger acceptingLogger false))
               sampleContext) /\
    Data event = sampleData.
Proof.
  apply (form_data_accepted textIP asciiTrimSpace stdDecodeInPlace rawElements
           (sampleFormPOST sampleData) [] (sampleWorld acceptingLogger acceptingLogger false)).
  - reflexivity.
  - discriminate.
  - vm_compute. discriminate.
Defined.

Lemma largeJunk_len : maxBytesPerRequest < len largeJunk.
Proof. unfold len, largeJunk. rewrite repeat_length. vm_compute. reflexivity. Qed.

(** A payload over 500 KiB that is no base64, with large events
    handled. *)
Lemma malformed_large_payload_witness :
  ExtractEvent' (sampleGET (dataQuery largeJunk)) (dataQuery largeJunk)
    (sampleWorld acceptingLogger acceptingLogger true)
  = Ret ((None, StatusRequestEntityTooLarge), sampleWorld acceptingLogger acceptingLogger true).
Proof.
  apply (malformed_large_payload textIP asciiTrimSpace stdDecodeInPlace rawElements
           (sampleGET (dataQuery largeJunk)) (dataQuery largeJunk)
           (sampleWorld acceptingLogger acceptingLogger true)
           (sampleWorld acceptingLogger acceptingLogger true) largeJunk).
  - reflexivity.
  - exact largeJunk_len.
  - reflexivity.
  - replace (stdDecodeInPlace largeJunk) with (@None (Z * bytes)); [exact I|].
    symmetry. vm_compute. reflexivity.
Defined.

(** A GET without a payload. *)
Lemma rejection_builds_nothing_witness :
  exists oe w',
    ExtractEvent' (sampleGET []) [] (sampleWorld acceptingLogger acceptingLogger false)
      = Ret ((oe, StatusBadRequest), w') /\
    oe = None /\
    handler w' = sampleHandler acceptingLogger acceptingLogger false.
Proof.
  eexists _, _. split; [cbv; reflexivity|].
  apply (rejection_builds_nothing textIP asciiTrimSpace stdDecodeInPlace rawElements
           (sampleGET []) [] (sampleWorld acceptingLogger acceptingLogger false) _ _
           StatusBadRequest eq_refl).
  now left.
Defined.

(** The happy GET once the loggers are closed. *)
Lemma closed_loggers_refuse_witness :
  exists status w',
    handleSpadeRequests' (sampleGET (dataQuery sampleData)) (dataQuery sampleData) closedWorld
      = Ret (status, w') /\
    is2xx status = false /\
    loggers (handler w') = loggers (handler closedWorld).
Proof.
  eexists _, _. split; [cbv; reflexivity|].
  destruct (closed_loggers_refuse textIP asciiTrimSpace stdDecodeInPlace rawElements
              (sampleGET (dataQuery sampleData)) (dataQuery sampleData) closedWorld _ _
              eq_refl eq_refl)
    as (Hstatus & Hloggers & _).
  split; [exact Hstatus | exact Hloggers].
Defined.

(** The bad client of the spec is marked. *)
Lemma bad_client_mark_witness :
  exists status w',
    handleSpadeRequests' (samplePOST (B "data=eyJhIjoxfQ==")) []
      (sampleWorld acceptingLogger acceptingLogger false) = Ret (status, w') /\
    BadClient (context w') = true.
Proof.
  eexists _, _. split; [cbv; reflexivity|].
  eapply (bad_client_mark textIP asciiTrimSpace stdDecodeInPlace rawElements
            (samplePOST (B "data=eyJhIjoxfQ==")) []
            (sampleWorld acceptingLogger acceptingLogger false)).
  - cbv. reflexivity.
  - reflexivity.
  - repeat split.
Defined.

Lemma serve_status_witness :
  exists status w' st',
    serve' freshWriter (sampleGET (dataQuery sampleData))
      (sampleWorld acceptingLogger acceptingLogger false) = Ret ((status, w'), st') /\
    wStatus w' = Some status.
Proof.
  destruct (serve_status textIP asciiTrimSpace stdDecodeInPlace rawElements
              (B "text/xml; charset=utf-8") freshWriter (sampleGET (dataQuery sampleData))
              (sampleWorld acceptingLogger acceptingLogger false) (ReadAll_of_slice []))
    as (status & w' & st' & Hrun & _ & Hline).
  exists status, w', st'. split; [exact Hrun | exact (Hline eq_refl eq_refl)].
Defined.


(** [DELETE /track] is answered 400 and the handler is not asked. *)
Lemma ServeHTTP_method_gate_witness :
  exists w',
    ServeHTTP' [] (B "GET, POST, OPTIONS") (mkTime 1500000000 0) freshWriter
      (sampleRequest (B "DELETE") (B "/track"))
      (sampleHandler acceptingLogger acceptingLogger false)
    = Ret (w', sampleHandler acceptingLogger acceptingLogger false, None) /\
    wStatus w' = Some StatusBadRequest.
Proof.
  destruct (ServeHTTP_method_gate textIP asciiTrimSpace stdDecodeInPlace rawElements
              (B "text/xml; charset=utf-8") [] (B "GET, POST, OPTIONS")
              (mkTime 1500000000 0) freshWriter (sampleRequest (B "DELETE") (B "/track"))
              (sampleHandler acceptingLogger acceptingLogger false))
    as (w' & Hrun & _ & Hline); [discriminate | discriminate |].
  exists w'. split; [exact Hrun | exact (Hline eq_refl)].
Defined.

Lemma ServeHTTP_records_status_witness :
  exists w' s' c,
    ServeHTTP' [] (B "GET, POST, OPTIONS") (mkTime 1500000000 0) freshWriter
      (sampleGET (dataQuery sampleData))
      (sampleHandler acceptingLogger acceptingLogger false) = Ret (w', s', Some c) /\
    wStatus w' = Some (Status c).
Proof.
  destruct (ServeHTTP_records_status textIP asciiTrimSpace stdDecodeInPlace rawElements
              (B "text/xml; charset=utf-8") [] (B "GET, POST, OPTIONS")
              (mkTime 1500000000 0) freshWriter (sampleGET (dataQuery sampleData))
              (sampleHandler acceptingLogger acceptingLogger false))
    as (w' & s' & c & Hrun & _ & Hline); [now left | exact (ReadAll_of_slice []) |].
  exists w', s', c. split; [exact Hrun | exact (Hline eq_refl eq_refl)].
Defined.

(** The origin of a page that one of the matchers matches is echoed. *)
Lemma RequestSetup_CORS_witness :
  Header_Get
    (wHeader (fst (RequestSetup [literalGlob (B "https://www.twitch.tv")]
                     (B "GET, POST, OPTIONS") (mkTime 1500000000 0) freshWriter corsGET)))
    (B "Access-Control-Allow-Origin") = B "https://www.twitch.tv".
Proof.
  pose proof (RequestSetup_CORS [literalGlob (B "https://www.twitch.tv")]
                (B "GET, POST, OPTIONS") (mkTime 1500000000 0) freshWriter corsGET eq_refl)
    as Hcors.
  cbv zeta in Hcors. destruct Hcors as (_ & Hecho & _).
  apply Hecho. exists (literalGlob (B "https://www.twitch.tv")).
  split; [now left | reflexivity].
Defined.

(** Two elements, written to loggers that record what they are
    given. *)
Lemma split_events_fields_witness :
  exists acc' w' produced,
    splitLoop [jsonObject "a" (B "1"); jsonObject "b" (B "2")] (B "198.51.100.7")
      (B "203.0.113.9, 198.51.100.7") [] (StatusNoContent, 0, 0)
      (sampleWorld (mkRecorder acceptingLogger []) (mkRecorder refusingLogger []) true)
      = Ret (acc', w') /\
    seenS3 w' = produced /\
    List.length produced = 2%nat /\
    NoDup (map Uuid produced).
Proof.
  destruct (split_events_fields [jsonObject "a" (B "1"); jsonObject "b" (B "2")]
              (B "198.51.100.7") (B "203.0.113.9, 198.51.100.7") [] (StatusNoContent, 0, 0)
              (sampleWorld (mkRecorder acceptingLogger []) (mkRecorder refusingLogger []) true))
    as (acc' & w' & produced & Hrun & Hs3 & _ & Hlen & _ & _ & Hdistinct).
  - reflexivity.
  - vm_compute. discriminate.
  - exists acc', w', produced. split; [exact Hrun|]. split; [exact Hs3|].
    split; [exact Hlen | exact Hdistinct].
Defined.
